(** * Space Weather Visualizer: a shallow embedding of [app.py]

    The Streamlit script [app.py] collects an API key, an event type and a
    date range, issues one GET to NASA's DONKI service, reshapes the JSON
    answer with pandas and draws one chart with Plotly Express.

    The development follows the script top to bottom:
    - Python values (JSON, [datetime.date], insertion-ordered dicts);
    - the lookup tables of the script;
    - the pandas operations the script calls ([json_normalize], [explode],
      [groupby(...).size()], [groupby(...).agg(mean)] in binary64);
    - the script itself, in a small monad that threads the page elements
      emitted so far, the HTTP requests performed and the [st.cache_data]
      store, and that may stop on a Python exception;
    - the lines that parse dates once more, for a [pd.to_datetime] that
      reads a column as a whole and may raise (module [col]);
    - the properties.

    Static page furniture (CSS, title, glossary and help expanders) does not
    depend on the inputs and is not traced; neither is the spinner, which is
    gone when the fetch returns. *)

From Stdlib Require Import List String Ascii ZArith QArith Qreduction Bool Lia
  DecimalString Sorted.
Import ListNotations.

Local Open Scope list_scope.
Local Open Scope string_scope.

Set Warnings "-register-all".

(* ================================================================= *)
(** ** Python values *)

(** Parsed JSON, as [response.json()] returns it.  Numbers are kept as exact
    rationals; objects keep their keys in insertion order. *)
Inductive json : Type :=
| JNull
| JBool (b : bool)
| JNum (q : Q)
| JStr (s : string)
| JArr (xs : list json)
| JObj (kvs : list (string * json)).

(** [datetime.date]: compared field by field, year first. *)
Record date : Type := mkdate { year : Z; month : Z; day : Z }.

Definition date_eqb (a b : date) : bool :=
  (year a =? year b)%Z && (month a =? month b)%Z && (day a =? day b)%Z.

Definition date_ltb (a b : date) : bool :=
  (year a <? year b)%Z
  || ((year a =? year b)%Z
      && ((month a <? month b)%Z
          || ((month a =? month b)%Z && (day a <? day b)%Z))).

(** [a > b] on dates. *)
Definition date_gtb (a b : date) : bool := date_ltb b a.

Definition date_lt (a b : date) : Prop := date_ltb a b = true.

(** A date that [datetime.date] can hold (day-of-month limits aside). *)
Definition valid_date (d : date) : Prop :=
  (1 <= year d <= 9999)%Z /\ (1 <= month d <= 12)%Z /\ (1 <= day d <= 31)%Z.

(** *** Text *)

Definition digit (n : Z) : ascii := ascii_of_nat (48 + Z.to_nat (n mod 10)).

(** [zfill w n]: the [w] low decimal digits of [n], most significant first. *)
Fixpoint zfill (w : nat) (n : Z) : string :=
  match w with
  | O => EmptyString
  | S w' => String (digit (n / 10 ^ Z.of_nat w')) (zfill w' n)
  end.

(** [str(d)] / [d.isoformat()]: [%04d-%02d-%02d]. *)
Definition isoformat (d : date) : string :=
  zfill 4 (year d) ++ "-" ++ zfill 2 (month d) ++ "-" ++ zfill 2 (day d).

(** [d.strftime("%Y-%m-%d")].  The C library prints [%Y] as the plain
    decimal year, without padding, so the text agrees with [isoformat] from
    the year 1000 on. *)
Definition year_width (y : Z) : nat :=
  if (y <? 10)%Z then 1%nat
  else if (y <? 100)%Z then 2%nat
  else if (y <? 1000)%Z then 3%nat
  else 4%nat.

Definition strftime_Ymd (d : date) : string :=
  zfill (year_width (year d)) (year d)
  ++ "-" ++ zfill 2 (month d) ++ "-" ++ zfill 2 (day d).

Definition is_digit (c : ascii) : bool :=
  let n := nat_of_ascii c in (48 <=? n)%nat && (n <=? 57)%nat.

(** The shape [dddd-dd-dd]: a calendar date without a time component. *)
Definition is_iso_date (s : string) : bool :=
  match list_ascii_of_string s with
  | [y1; y2; y3; y4; h1; m1; m2; h2; d1; d2] =>
      is_digit y1 && is_digit y2 && is_digit y3 && is_digit y4
      && Ascii.eqb h1 "-" && is_digit m1 && is_digit m2
      && Ascii.eqb h2 "-" && is_digit d1 && is_digit d2
  | _ => false
  end.

Definition lower_ascii (c : ascii) : ascii :=
  let n := nat_of_ascii c in
  if (65 <=? n)%nat && (n <=? 90)%nat then ascii_of_nat (n + 32) else c.

(** [s.lower()].  Only the ASCII letters are folded; no other character
    lowers to one of the letters of "date" or "time" on its own, so the two
    substring tests of the script are not affected. *)
Fixpoint lower (s : string) : string :=
  match s with
  | EmptyString => EmptyString
  | String c t => String (lower_ascii c) (lower t)
  end.

(** [needle in hay] on strings. *)
Fixpoint contains (needle hay : string) : bool :=
  match hay with
  | EmptyString => prefix needle EmptyString
  | String _ t => prefix needle hay || contains needle t
  end.

(** *** Dicts

    A Python dict is a list of bindings in insertion order.  [d[k] = v]
    overwrites in place or appends; lookups find the first binding. *)
Definition dict (V : Type) : Type := list (string * V).

Fixpoint dict_get {V} (k : string) (d : dict V) : option V :=
  match d with
  | [] => None
  | (k', v) :: t => if String.eqb k k' then Some v else dict_get k t
  end.

(** [d.get(k, default)] *)
Definition dict_get_default {V} (k : string) (default : V) (d : dict V) : V :=
  match dict_get k d with Some v => v | None => default end.

Fixpoint dict_set {V} (k : string) (v : V) (d : dict V) : dict V :=
  match d with
  | [] => [(k, v)]
  | (k', v') :: t =>
      if String.eqb k k' then (k', v) :: t else (k', v') :: dict_set k v t
  end.

(** [d.update(e)] *)
Definition dict_update {V} (d e : dict V) : dict V :=
  fold_left (fun acc kv => dict_set (fst kv) (snd kv) acc) e d.

Fixpoint dict_remove {V} (k : string) (d : dict V) : dict V :=
  match d with
  | [] => []
  | (k', v) :: t =>
      if String.eqb k k' then dict_remove k t else (k', v) :: dict_remove k t
  end.

Definition dict_keys {V} (d : dict V) : list string := map fst d.

Definition mem (k : string) (l : list string) : bool :=
  existsb (String.eqb k) l.

(** Python truthiness of a string and of a JSON value. *)
Definition truthy_str (s : string) : bool :=
  match s with EmptyString => false | _ => true end.

Definition truthy (j : json) : bool :=
  match j with
  | JNull => false
  | JBool b => b
  | JNum q => negb (Qnum q =? 0)%Z
  | JStr s => truthy_str s
  | JArr xs => match xs with [] => false | _ => true end
  | JObj kvs => match kvs with [] => false | _ => true end
  end.

(* ================================================================= *)
(** ** The tables of the script *)

Definition event_descriptions : dict string :=
  [ ("CME", "Coronal Mass Ejection (CME): A massive burst of solar wind and magnetic fields rising above the solar corona.");
    ("GST", "Geomagnetic Storm (GST): Disturbances in Earth's magnetosphere caused by solar wind shocks.");
    ("FLR", "Solar Flare (FLR): A sudden flash of increased brightness on the Sun, usually observed near its surface.");
    ("SEP", "Solar Energetic Particle (SEP): High-energy particles emitted by the Sun, often associated with solar flares and CMEs.");
    ("IPS", "Interplanetary Shock (IPS): Shock waves traveling through space, often caused by CMEs or solar wind variations.");
    ("RBE", "Radiation Belt Enhancement (RBE): An increase in the density of charged particles in Earth's radiation belts.");
    ("MPC", "Magnetopause Crossing (MPC): When solar wind plasma crosses Earth's magnetopause, the boundary of the magnetosphere.");
    ("HSS", "High Speed Stream (HSS): Streams of fast-moving solar wind emanating from coronal holes on the Sun.");
    ("notifications", "Notifications: General alerts and updates related to various space weather events.") ].

Definition event_types : dict string :=
  [ ("CME (Coronal Mass Ejection)", "CME");
    ("GST (Geomagnetic Storm)", "GST");
    ("FLR (Solar Flare)", "FLR");
    ("SEP (Solar Energetic Particle)", "SEP");
    ("IPS (Interplanetary Shock)", "IPS");
    ("RBE (Radiation Belt Enhancement)", "RBE");
    ("MPC (Magnetopause Crossing)", "MPC");
    ("HSS (High Speed Stream)", "HSS");
    ("Notifications", "notifications") ].

Definition date_field_mapping : dict string :=
  [ ("CME", "startTime");
    ("GST", "startTime");
    ("FLR", "beginTime");
    ("SEP", "eventTime");
    ("IPS", "eventTime");
    ("RBE", "eventTime");
    ("MPC", "eventTime");
    ("HSS", "eventTime");
    ("notifications", "messageIssueTime") ].

Definition y_label_mapping : dict string :=
  [ ("CME", "Number of CMEs");
    ("GST", "Average Kp Index");
    ("FLR", "Number of Solar Flares");
    ("SEP", "Number of Solar Energetic Particles");
    ("IPS", "Number of Interplanetary Shocks");
    ("RBE", "Number of Radiation Belt Enhancements");
    ("MPC", "Number of Magnetopause Crossings");
    ("HSS", "Number of High Speed Streams");
    ("notifications", "Number of Notifications") ].

(** The nine codes the selection box can produce. *)
Definition known_codes : list string := map snd event_types.

(* ================================================================= *)
(** ** Exceptions *)

Inductive exn : Type :=
| NameError (name : string)
| KeyError (key : string)
| TypeError (what : string)
| ValueError (what : string)
| JSONDecodeError.

Inductive result (A : Type) : Type :=
| Ok (a : A)
| Raise (e : exn).
Arguments Ok {A} a.
Arguments Raise {A} e.

(* ================================================================= *)
(** ** pandas

    The library is not part of the repository; the operations the script
    calls are written out as pandas documents and implements them:
    [json_normalize] without further arguments flattens nested objects by
    dotted path and leaves lists alone; [explode] keeps a row for an empty
    list or a scalar; [groupby] drops missing keys and sorts the others;
    [mean] skips missing values and works in binary64, with the compensated
    sum of [group_mean]. *)

Module pd.

(** A cell of a frame: [None] is the missing value (NaN / NaT). *)
Definition cell : Type := option json.

(** A frame built from a list of dicts: the column index and, per row, the
    bindings the row has.  The row index is not represented. *)
Record DataFrame : Type := mkframe
  { columns : list string; rows : list (dict json) }.

Definition is_dict (j : json) : bool :=
  match j with JObj _ => true | _ => false end.

(** [_normalise_json]: nested dicts are addressed by dotted path; anything
    else is stored under the path reached so far. *)
Fixpoint normalise_json (data : json) (key_string : string)
    (normalized_dict : dict json) : dict json :=
  match data with
  | JObj kvs =>
      (fix items (l : list (string * json)) (acc : dict json) : dict json :=
         match l with
         | [] => acc
         | (key, value) :: t =>
             let new_key :=
               if truthy_str key_string then key_string ++ "." ++ key
               else key in
             items t (normalise_json value new_key acc)
         end) kvs normalized_dict
  | _ => dict_set key_string data normalized_dict
  end.

(** [_normalise_json_ordered]: the top-level keys whose value is not a dict
    come first, the flattened nested keys after them. *)
Definition normalise_json_ordered (kvs : dict json) : dict json :=
  let top_dict := filter (fun kv => negb (is_dict (snd kv))) kvs in
  let nested_dict :=
    normalise_json (JObj (filter (fun kv => is_dict (snd kv)) kvs)) "" [] in
  dict_update top_dict nested_dict.

(** [_simple_json_normalize] on one element: a dict is flattened.  For an
    element that is not an object pandas, depending on its version, raises a
    TypeError or labels columns by position; DONKI sends lists of objects,
    such an element gives the empty dict here, and the properties of whole
    frames are stated for lists of objects. *)
Definition simple_json_normalize (ds : json) : dict json :=
  match ds with
  | JObj kvs => normalise_json_ordered kvs
  | _ => []
  end.

(** The column index of [DataFrame(list_of_dicts)]: the keys in the order
    they are first seen. *)
Definition add_key (acc : list string) (k : string) : list string :=
  if mem k acc then acc else (acc ++ [k])%list.

Definition union_keys (rs : list (dict json)) : list string :=
  fold_left (fun acc r => fold_left add_key (dict_keys r) acc) rs [].

Definition of_dicts (rs : list (dict json)) : DataFrame :=
  {| columns := union_keys rs; rows := rs |}.

(** [pd.json_normalize(data)] on a list. *)
Definition json_normalize (data : list json) : DataFrame :=
  of_dicts (map simple_json_normalize data).

(** [pd.json_normalize(series)]: a missing cell is a scalar. *)
Definition json_normalize_series (s : list cell) : DataFrame :=
  of_dicts (map (fun c => match c with
                          | Some j => simple_json_normalize j
                          | None => []
                          end) s).

Definition has_column (c : string) (df : DataFrame) : bool :=
  mem c (columns df).

(** The values of column [c], row by row (for a column of the frame). *)
Definition column (c : string) (df : DataFrame) : list cell :=
  map (dict_get c) (rows df).

(** [df[c]] *)
Definition getitem (df : DataFrame) (c : string) : result (list cell) :=
  if has_column c df then Ok (column c df) else Raise (KeyError c).

(** [df.explode(c)]: a non-empty list gives one row per element, an empty
    list one row with a missing cell, anything else the row unchanged. *)
Definition explode_row (c : string) (r : dict json) : list (dict json) :=
  match dict_get c r with
  | Some (JArr (x :: xs)) => map (fun e => dict_set c e r) (x :: xs)
  | Some (JArr []) => [dict_remove c r]
  | _ => [r]
  end.

Definition explode (c : string) (df : DataFrame) : DataFrame :=
  {| columns := columns df; rows := flat_map (explode_row c) (rows df) |}.

(** *** Grouping

    [groupby(key)] drops the rows whose key is missing and yields the groups
    in ascending key order. *)
Fixpoint insert_date (d : date) (l : list date) : list date :=
  match l with
  | [] => [d]
  | h :: t =>
      if date_ltb d h then d :: l
      else if date_eqb d h then l
      else h :: insert_date d t
  end.

Definition group_keys (ds : list (option date)) : list date :=
  fold_right (fun od acc => match od with
                            | Some d => insert_date d acc
                            | None => acc
                            end) [] ds.

Definition in_group (k : date) (od : option date) : bool :=
  match od with Some d => date_eqb d k | None => false end.

Definition group {V} (k : date) (tbl : list (option date * V)) : list V :=
  map snd (filter (fun r => in_group k (fst r)) tbl).

Definition groupby {V} (tbl : list (option date * V)) : list (date * list V) :=
  map (fun k => (k, group k tbl)) (group_keys (map fst tbl)).

(** A value of an aggregated column: an int64 count, or a float64, given by
    the rational it denotes when it is finite. *)
Inductive num : Type :=
| NInt (n : Z)
| NFloat (q : Q)
| NaN
| NInf (negative : bool).

(** [df.groupby('date').size().reset_index(name = 'count')] *)
Definition groupby_size (dates : list (option date)) : list (date * num) :=
  map (fun g => (fst g, NInt (Z.of_nat (List.length (snd g)))))
      (groupby (map (fun d => (d, tt)) dates)).

(** The numeric reading of a cell for [mean]: missing values are skipped,
    booleans count as 0 and 1, text and containers cannot be averaged. *)
Definition to_numeric (c : cell) : result (option Q) :=
  match c with
  | None | Some JNull => Ok None
  | Some (JNum q) => Ok (Some q)
  | Some (JBool b) => Ok (Some (if b then 1%Q else 0%Q))
  | Some _ => Raise (TypeError "agg function failed [how->mean,dtype->object]")
  end.

Fixpoint to_numeric_all (cs : list cell) : result (list (option Q)) :=
  match cs with
  | [] => Ok []
  | c :: t =>
      match to_numeric c with
      | Raise e => Raise e
      | Ok v => match to_numeric_all t with
                | Raise e => Raise e
                | Ok vs => Ok (v :: vs)
                end
      end
  end.

Fixpoint present (vs : list (option Q)) : list Q :=
  match vs with
  | [] => []
  | Some q :: t => q :: present t
  | None :: t => present t
  end.

(** *** binary64

    The float64 values of numpy.  A finite value is the rational it denotes
    (in lowest terms; the sign of zero is not kept).  [round64] rounds a
    rational to the nearest value with 53 significant bits and an exponent
    of at least -1074, ties to the even significand, and overflows to an
    infinity from 2^1024 on. *)
Inductive float64 : Type :=
| Finite (q : Q)
| Infinite (negative : bool)
| NotANumber.

(** 2^e, for an exponent of either sign. *)
Definition pow2 (e : Z) : Q :=
  if (0 <=? e)%Z then inject_Z (2 ^ e) else 1 # Z.to_pos (2 ^ (- e)).

(** The integer nearest to a/b (for b > 0), ties to even. *)
Definition nearest_even (a b : Z) : Z :=
  let q := (a / b)%Z in
  match (2 * (a mod b) ?= b)%Z with
  | Lt => q
  | Gt => (q + 1)%Z
  | Eq => if Z.even q then q else (q + 1)%Z
  end.

(** The integer part of the binary logarithm of n/d. *)
Definition floor_log2 (n d : positive) : Z :=
  let e := (Z.log2 (Zpos n) - Z.log2 (Zpos d))%Z in
  if Qle_bool (pow2 e) (Zpos n # d) then e else (e - 1)%Z.

Definition round_pos (n d : positive) : float64 :=
  let e := Z.max (floor_log2 n d - 52) (-1074) in
  let m := nearest_even (Zpos n * 2 ^ Z.max 0 (- e))
                        (Zpos d * 2 ^ Z.max 0 e) in
  if (971 <? e)%Z || ((e =? 971)%Z && (m =? 2 ^ 53)%Z) then Infinite false
  else Finite (Qred (inject_Z m * pow2 e)).

Definition opp (x : float64) : float64 :=
  match x with
  | Finite q => Finite (- q)
  | Infinite s => Infinite (negb s)
  | NotANumber => NotANumber
  end.

Definition round64 (q : Q) : float64 :=
  match Qnum q with
  | Z0 => Finite 0
  | Zpos n => round_pos n (Qden q)
  | Zneg n => opp (round_pos n (Qden q))
  end.

Definition add (x y : float64) : float64 :=
  match x, y with
  | Finite a, Finite b => round64 (a + b)
  | NotANumber, _ | _, NotANumber => NotANumber
  | Infinite s, Infinite t => if Bool.eqb s t then Infinite s else NotANumber
  | Infinite s, Finite _ | Finite _, Infinite s => Infinite s
  end.

Definition sub (x y : float64) : float64 := add x (opp y).

(** [x / count], the count being a positive whole number. *)
Definition div_count (x : float64) (count : positive) : float64 :=
  match x with
  | Finite a => round64 (a / inject_Z (Zpos count))
  | other => other
  end.

(** One turn of the loop of [group_mean]: Kahan's compensated addition of
    [val] to the running sum; a compensation that has become NaN (after an
    infinity) is reset to 0. *)
Definition kahan_step (st : float64 * float64) (val : float64)
    : float64 * float64 :=
  let (sumx, compensation) := st in
  let y := sub val compensation in
  let t := add sumx y in
  let c := sub (sub t sumx) y in
  (t, match c with NotANumber => Finite 0 | _ => c end).

Definition kahan_sum (vals : list float64) : float64 :=
  fst (fold_left kahan_step vals (Finite 0, Finite 0)).

(** The mean of a group with missing values skipped: the values as float64,
    their compensated sum, divided by their number; a group with no value
    gives NaN. *)
Definition mean (vs : list (option Q)) : num :=
  match present vs with
  | [] => NaN
  | xs =>
      match div_count (kahan_sum (map round64 xs))
              (Pos.of_nat (List.length xs)) with
      | Finite q => NFloat q
      | Infinite s => NInf s
      | NotANumber => NaN
      end
  end.

(** [df.groupby('date').agg({c: 'mean'}).reset_index()], given the date
    column. *)
Definition groupby_mean (df : DataFrame) (dates : list (option date))
    (c : string) : result (list (date * num)) :=
  if has_column c df then
    match to_numeric_all (column c df) with
    | Raise e => Raise e
    | Ok vs =>
        Ok (map (fun g => (fst g, mean (snd g))) (groupby (combine dates vs)))
    end
  else Raise (KeyError ("Column(s) ['" ++ c ++ "'] do not exist")).

End pd.

(* ================================================================= *)
(** ** Plotly Express, Streamlit, requests *)

Inductive chart_kind : Type := Line | Bar.

(** The Python objects a name of the script can be bound to, as far as the
    script reads them back. *)
Inductive pyobj : Type :=
| PyNone
| PyBool (b : bool)
| PyStr (s : string)
| PyDate (d : date)
| PyObject (type_name : string).

(** What [px.line] / [px.bar] is called with. *)
Record figure : Type := mkfigure
  { kind : chart_kind;
    data_frame : list (date * pd.num);
    x : string;
    y : string;
    title : string;
    labels : dict pyobj;
    markers : bool;
    template : string }.

Definition px_line (df_grouped : list (date * pd.num)) (x y title : string)
    (labels : dict pyobj) (markers : bool) (template : string) : figure :=
  mkfigure Line df_grouped x y title labels markers template.

Definition px_bar (df_grouped : list (date * pd.num)) (x y title : string)
    (labels : dict pyobj) (template : string) : figure :=
  mkfigure Bar df_grouped x y title labels false template.

(** Page elements.  [WriteFrame] is [st.write(df)]: the frame and its added
    'date' column. *)
Inductive element : Type :=
| Markdown (body : string)
| Subheader (body : string)
| Write (body : string)
| WriteFrame (df : pd.DataFrame) (date_column : list (option date))
| Json (body : json)
| ErrorBox (body : string)
| WarningBox (body : string)
| SuccessBox (body : string)
| PlotlyChart (fig : figure).

Inductive param : Type :=
| PStr (s : string)
| PInt (n : Z).

(** What the script does to the outside, in order: elements put in the
    sidebar or on the main page, and GET requests sent. *)
Inductive event : Type :=
| Sidebar (e : element)
| Main (e : element)
| HttpGet (url : string) (params : dict param).

Record response : Type := mkresponse
  { status_code : Z;
    text : string;
    (** the parsed body, when the body is JSON *)
    body_json : option json }.

(** [st.cache_data]: the arguments of a call, and what is kept for them: the
    value returned and the elements the call displayed, which a hit
    displays again. *)
Definition cache_key : Type := (string * date * date * string)%type.

Record cache_entry : Type := mkentry
  { value : json; replay : list event }.

Definition cache_key_eqb (a b : cache_key) : bool :=
  let '(e1, s1, n1, k1) := a in
  let '(e2, s2, n2, k2) := b in
  String.eqb e1 e2 && date_eqb s1 s2 && date_eqb n1 n2 && String.eqb k1 k2.

Fixpoint cache_lookup (k : cache_key) (c : list (cache_key * cache_entry))
    : option cache_entry :=
  match c with
  | [] => None
  | (k', e) :: t => if cache_key_eqb k k' then Some e else cache_lookup k t
  end.

(** The state a run goes through.  The entries of [cache] are the ones
    whose time to live has not run out. *)
Record world : Type := mkworld
  { trace : list event;
    cache : list (cache_key * cache_entry) }.

(** A run either goes on with a value or stops on an exception; what it has
    displayed and sent so far stays. *)
Definition M (A : Type) : Type := world -> result A * world.

Definition ret {A} (a : A) : M A := fun w => (Ok a, w).

Definition raise {A} (e : exn) : M A := fun w => (Raise e, w).

Definition bind {A B} (m : M A) (k : A -> M B) : M B :=
  fun w => match m w with
           | (Ok a, w') => k a w'
           | (Raise e, w') => (Raise e, w')
           end.

Definition lift {A} (r : result A) : M A := fun w => (r, w).

Definition emit (ev : event) : M unit :=
  fun w => (Ok tt, {| trace := (trace w ++ [ev])%list; cache := cache w |}).

Notation "x <- m ;; k" := (bind m (fun x => k))
  (at level 61, m at next level, right associativity).
Notation "m ;; k" := (bind m (fun _ => k))
  (at level 61, right associativity).

Definition st_markdown (s : string) : M unit := emit (Main (Markdown s)).
Definition st_subheader (s : string) : M unit := emit (Main (Subheader s)).
Definition st_write (s : string) : M unit := emit (Main (Write s)).
Definition st_error (s : string) : M unit := emit (Main (ErrorBox s)).
Definition st_warning (s : string) : M unit := emit (Main (WarningBox s)).
Definition st_success (s : string) : M unit := emit (Main (SuccessBox s)).
Definition st_json (j : json) : M unit := emit (Main (Json j)).
Definition st_plotly_chart (f : figure) : M unit := emit (Main (PlotlyChart f)).

(** Reading a global name: [NameError] when the script has not bound it
    (no builtin is called [label]). *)
Definition load_name (name : string) (globals : dict pyobj) : M pyobj :=
  match dict_get name globals with
  | Some v => ret v
  | None => raise (NameError name)
  end.

Definition is_page_element (ev : event) : bool :=
  match ev with HttpGet _ _ => false | _ => true end.

(* ================================================================= *)
(** ** The script *)

Section Script.

(** [pd.to_datetime(v, errors = 'coerce').dt.date] on one value: the
    calendar date pandas reads in [v], or nothing (NaT).  The parser is
    left open.  Here every value is read on its own and nothing is raised;
    the module [col] below has the lines that parse dates for a parser of
    whole columns. *)
Variable to_date : json -> option date.

(** The DONKI service: the answer to a GET with these parameters. *)
Variable http_get : string -> dict param -> response.

Definition cell_date (c : pd.cell) : option date :=
  match c with
  | None | Some JNull => None
  | Some j => to_date j
  end.

(** [pd.to_datetime(column, errors = 'coerce').dt.date] *)
Definition to_dates (cs : list pd.cell) : list (option date) :=
  map cell_date cs.

(** *** Lines 133-161: [fetch_space_weather] *)

(** The query parameters (lines 135-153). *)
Definition query_params (event : string) (start end_ : date) (key : string)
    : dict param :=
  let params :=
    [ ("startDate", PStr (strftime_Ymd start));
      ("endDate", PStr (strftime_Ymd end_));
      ("api_key", PStr key) ] in
  if event =? "CME" then
    dict_update params
      [ ("mostAccurateOnly", PStr "true");
        ("completeEntryOnly", PStr "true");
        ("speed", PInt 500);
        ("halfAngle", PInt 30);
        ("catalog", PStr "ALL") ]
  else if event =? "notifications" then
    dict_update params [ ("type", PStr "all") ]
  else params.

Definition requests_get (url : string) (params : dict param) : M response :=
  emit (HttpGet url params) ;; ret (http_get url params).

(** The body of the function; Python's [None] is [JNull]. *)
Definition fetch_body (event : string) (start end_ : date) (key : string)
    : M json :=
  let base_url := "https://api.nasa.gov/DONKI/" ++ event in
  let params := query_params event start end_ key in
  response <- requests_get base_url params ;;
  if (status_code response =? 200)%Z then
    match body_json response with
    | Some j => ret j
    | None => raise JSONDecodeError
    end
  else
    st_error ("Error fetching data: "
              ++ NilZero.string_of_int (Z.to_int (status_code response))
              ++ " - " ++ text response) ;;
    ret JNull.

(** The function under [@st.cache_data(ttl = 3600)]: a hit returns the
    stored value and shows the stored elements again, without a request; a
    miss runs the body and stores what it returned. *)
Definition fetch_space_weather (event : string) (start end_ : date)
    (key : string) : M json :=
  fun w =>
    let k := (event, start, end_, key) in
    match cache_lookup k (cache w) with
    | Some e =>
        (Ok (value e),
         {| trace := (trace w ++ replay e)%list; cache := cache w |})
    | None =>
        match fetch_body event start end_ key
                {| trace := []; cache := cache w |} with
        | (Ok v, wb) =>
            (Ok v,
             {| trace := (trace w ++ trace wb)%list;
                cache := (k, {| value := v;
                                replay := filter is_page_element (trace wb) |})
                         :: cache wb |})
        | (Raise e, wb) =>
            (Raise e,
             {| trace := (trace w ++ trace wb)%list; cache := cache wb |})
        end
    end.

(** *** Lines 208-225: labels and the date column *)

(** Line 209. *)
Definition y_label_of (api_endpoint : string) : string :=
  dict_get_default api_endpoint "Count" y_label_mapping.

(** Line 212: [None] when the code is not in the table. *)
Definition date_field_of (api_endpoint : string) : option string :=
  dict_get api_endpoint date_field_mapping.

(** Line 218: the test of the list comprehension. *)
Definition is_date_like (col : string) : bool :=
  contains "date" (lower col) || contains "time" (lower col).

(** What lines 214-225 leave behind: the names [date_field] and
    [possible_keys] (unbound when the first branch is taken) and the 'date'
    column of [df]. *)
Record resolved : Type := mkresolved
  { date_field : option string;
    possible_keys : option (list string);
    date_column : list (option date) }.

Definition resolve_date (api_endpoint : string) (df : pd.DataFrame)
    : M resolved :=
  let date_field := date_field_of api_endpoint in
  (* lines 216-225: no usable field, look for a column by its name *)
  let guess : M resolved :=
    let possible_keys := filter is_date_like (pd.columns df) in
    match possible_keys with
    | first :: _ =>
        st_warning ("Using '" ++ first ++ "' as the date field") ;;
        ret {| date_field := Some first;
               possible_keys := Some possible_keys;
               date_column := to_dates (pd.column first df) |}
    | [] =>
        st_error "No suitable date field found in the data" ;;
        ret {| date_field := date_field;
               possible_keys := Some possible_keys;
               date_column := map (fun _ => None) (pd.rows df) |}
    end in
  match date_field with
  | Some f =>
      if truthy_str f && pd.has_column f df then
        ret {| date_field := Some f;
               possible_keys := None;
               date_column := to_dates (pd.column f df) |}
      else guess
  | None => guess
  end.

(** *** The inputs of one run: what the sidebar widgets return *)

Record inputs : Type := mkinputs
  { api_key : string;
    selected_event_display : string;
    start_date : date;
    end_date : date;
    fetch_button : bool }.

(** The module namespace when the chart of line 237 is built. *)
Definition script_globals (i : inputs) (api_endpoint y_label : string)
    (r : resolved) : dict pyobj :=
  ([ ("st", PyObject "module");
     ("requests", PyObject "module");
     ("pd", PyObject "module");
     ("datetime", PyObject "type");
     ("timedelta", PyObject "type");
     ("px", PyObject "module");
     ("event_descriptions", PyObject "dict");
     ("space_themed_css", PyObject "str");
     ("api_key", PyStr (api_key i));
     ("event_types", PyObject "dict");
     ("selected_event_display", PyStr (selected_event_display i));
     ("api_endpoint", PyStr api_endpoint);
     ("default_end_date", PyObject "date");
     ("default_start_date", PyObject "date");
     ("start_date", PyDate (start_date i));
     ("end_date", PyDate (end_date i));
     ("fetch_button", PyBool (fetch_button i));
     ("term", PyObject "str");
     ("description", PyObject "str");
     ("fetch_space_weather", PyObject "function");
     ("data", PyObject "list");
     ("df", PyObject "DataFrame");
     ("date_field_mapping", PyObject "dict");
     ("y_label_mapping", PyObject "dict");
     ("y_label", PyStr y_label);
     ("date_field", match date_field r with
                    | Some f => PyStr f
                    | None => PyNone
                    end) ]
   ++ match possible_keys r with
      | Some _ => [ ("possible_keys", PyObject "list") ]
      | None => []
      end
   ++ [ ("df_grouped", PyObject "DataFrame") ])%list.

Definition describe_event (api_endpoint default : string) : string :=
  dict_get_default api_endpoint default event_descriptions.

(** *** Lines 228-240: CME *)
Definition plot_cme (i : inputs) (api_endpoint : string)
    (dates : list (option date)) (globals : dict pyobj) : M unit :=
  let df_grouped := pd.groupby_size dates in
  st_markdown "### Selected Event Information" ;;
  st_write (describe_event api_endpoint "No description available.") ;;
  st_subheader (selected_event_display i ++ " from "
                ++ isoformat (start_date i) ++ " to "
                ++ isoformat (end_date i)) ;;
  label <- load_name "label" globals ;;
  st_plotly_chart
    (px_line df_grouped "date" "count"
       ("Trend of " ++ selected_event_display i ++ " Over Time")
       [ ("date", PyStr "Date"); ("count", label) ]
       true "plotly_dark").

(** *** Lines 242-260: GST *)

(** Lines 245-247: the exploded sub-readings and their own dates. *)
Definition kp_frame (df : pd.DataFrame) : pd.DataFrame :=
  pd.json_normalize_series
    (pd.column "allKpIndex" (pd.explode "allKpIndex" df)).

(** Lines 247-248: the mean Kp index per day of observation. *)
Definition gst_grouped (kp_df : pd.DataFrame)
    : result (list (date * pd.num)) :=
  match pd.getitem kp_df "observedTime" with
  | Raise e => Raise e
  | Ok observed => pd.groupby_mean kp_df (to_dates observed) "kpIndex"
  end.

Definition plot_gst (i : inputs) (api_endpoint y_label : string)
    (df : pd.DataFrame) : M unit :=
  if pd.has_column "allKpIndex" df then
    let kp_df := kp_frame df in
    df_grouped <- lift (gst_grouped kp_df) ;;
    st_markdown "### Selected Event Information" ;;
    st_write (describe_event api_endpoint "No description available") ;;
    st_subheader (selected_event_display i ++ " Kp Index from "
                  ++ isoformat (start_date i) ++ " to "
                  ++ isoformat (end_date i)) ;;
    st_plotly_chart
      (px_line df_grouped "date" "kpIndex"
         ("Average Kp Index of " ++ selected_event_display i ++ " Over Time")
         [ ("date", PyStr "Date"); ("kpIndex", PyStr y_label) ]
         true "plotly_dark")
  else
    st_error "No 'allKpIndex' data available to plot.".

(** *** Lines 262-274 and 276-288: notifications and every other code.
    The two branches are the same text. *)
Definition plot_count_bar (i : inputs) (api_endpoint y_label : string)
    (dates : list (option date)) : M unit :=
  let df_grouped := pd.groupby_size dates in
  st_markdown "### Selected Event Information" ;;
  st_write (describe_event api_endpoint "No description available.") ;;
  st_subheader (selected_event_display i ++ " from "
                ++ isoformat (start_date i) ++ " to "
                ++ isoformat (end_date i)) ;;
  st_plotly_chart
    (px_bar df_grouped "date" "count"
       ("Number of " ++ selected_event_display i ++ " Over Time")
       [ ("date", PyStr "Date"); ("count", PyStr y_label) ]
       "plotly_dark").

(** The px function each branch of lines 228-288 calls. *)
Definition chart_kind_of (api_endpoint : string) : chart_kind :=
  if api_endpoint =? "CME" then Line
  else if api_endpoint =? "GST" then Line
  else if api_endpoint =? "notifications" then Bar
  else Bar.

(** What the script looks up for an event code (lines 111, 209, 212 and the
    branch taken), gathered in one record.  Every lookup is a [.get] with a
    default, so none of them raises. *)
Record EventDescriptor : Type := mkdescriptor
  { description : string;
    dateField : option string;
    yLabel : string;
    chartKind : chart_kind }.

Definition describe (code : string) : result EventDescriptor :=
  Ok {| description := describe_event code "No description available";
        dateField := date_field_of code;
        yLabel := y_label_of code;
        chartKind := chart_kind_of code |}.

(** *** Lines 227-288: the branch on the event type *)
Definition plot_event (i : inputs) (api_endpoint y_label : string)
    (df : pd.DataFrame) (r : resolved) : M unit :=
  if api_endpoint =? "CME" then
    plot_cme i api_endpoint (date_column r)
      (script_globals i api_endpoint y_label r)
  else if api_endpoint =? "GST" then
    plot_gst i api_endpoint y_label df
  else if api_endpoint =? "notifications" then
    plot_count_bar i api_endpoint y_label (date_column r)
  else
    plot_count_bar i api_endpoint y_label (date_column r).

(** *** Lines 179-292: a list was fetched *)
Definition process_list (i : inputs) (api_endpoint : string)
    (data : list json) : M unit :=
  let df := pd.json_normalize data in
  let y_label := y_label_of api_endpoint in
  r <- resolve_date api_endpoint df ;;
  plot_event i api_endpoint y_label df r ;;
  emit (Main (WriteFrame df (date_column r))).

(** *** Lines 164-294: the handler of the button *)
Definition on_fetch (i : inputs) (api_endpoint : string) : M unit :=
  if negb (truthy_str (api_key i)) then
    st_error "Please enter your NASA API Key to proceed."
  else
    data <- fetch_space_weather api_endpoint (start_date i) (end_date i)
              (api_key i) ;;
    if truthy data then
      st_success "Data fetched successfully!" ;;
      st_json data ;;
      match data with
      | JArr records => process_list i api_endpoint records
      | _ => st_write "No data available for the selected parameters."
      end
    else ret tt.

(** *** The script, from line 91 on *)
Definition script (i : inputs) : M unit :=
  api_endpoint <-
    lift (match dict_get (selected_event_display i) event_types with
          | Some code => Ok code
          | None => Raise (KeyError (selected_event_display i))
          end) ;;
  (if date_gtb (start_date i) (end_date i) then
     emit (Sidebar (ErrorBox "Error: End date must fall after start date."))
   else ret tt) ;;
  emit (Sidebar (Write (describe_event api_endpoint
                          "No description available"))) ;;
  if fetch_button i then on_fetch i api_endpoint else ret tt.

(** One run of the script, from an empty page. *)
Definition run (i : inputs) (c : list (cache_key * cache_entry))
    : result unit * world :=
  script i {| trace := []; cache := c |}.

End Script.

(* ================================================================= *)
(** ** The date columns, parsed as a whole

    [pd.to_datetime(column, errors = 'coerce').dt.date] works on the whole
    column: pandas takes one format from the first value it can read and
    coerces the values that do not follow it, and on a column that mixes
    UTC offsets it raises a ValueError whatever [errors] says.  The
    definitions of this module are the lines of the script that parse
    dates, with the parser a function of the column that may raise.
    [resolve_date], [gst_grouped], [plot_gst], [plot_event] and
    [process_list] above are these definitions for a parser that reads
    value by value and never raises ([col.value_by_value]). *)

Module col.

Section Script.

(** [pd.to_datetime(column, errors = 'coerce').dt.date] *)
Variable to_datetime : list pd.cell -> result (list (option date)).

(** Lines 212-225. *)
Definition resolve_date (api_endpoint : string) (df : pd.DataFrame)
    : M resolved :=
  let date_field := date_field_of api_endpoint in
  (* lines 216-225: no usable field, look for a column by its name *)
  let guess : M resolved :=
    let possible_keys := filter is_date_like (pd.columns df) in
    match possible_keys with
    | first :: _ =>
        st_warning ("Using '" ++ first ++ "' as the date field") ;;
        dates <- lift (to_datetime (pd.column first df)) ;;
        ret {| date_field := Some first;
               possible_keys := Some possible_keys;
               date_column := dates |}
    | [] =>
        st_error "No suitable date field found in the data" ;;
        ret {| date_field := date_field;
               possible_keys := Some possible_keys;
               date_column := map (fun _ => None) (pd.rows df) |}
    end in
  match date_field with
  | Some f =>
      if truthy_str f && pd.has_column f df then
        dates <- lift (to_datetime (pd.column f df)) ;;
        ret {| date_field := Some f;
               possible_keys := None;
               date_column := dates |}
      else guess
  | None => guess
  end.

(** Lines 247-248. *)
Definition gst_grouped (kp_df : pd.DataFrame)
    : result (list (date * pd.num)) :=
  match pd.getitem kp_df "observedTime" with
  | Raise e => Raise e
  | Ok observed =>
      match to_datetime observed with
      | Raise e => Raise e
      | Ok dates => pd.groupby_mean kp_df dates "kpIndex"
      end
  end.

(** Lines 242-260. *)
Definition plot_gst (i : inputs) (api_endpoint y_label : string)
    (df : pd.DataFrame) : M unit :=
  if pd.has_column "allKpIndex" df then
    let kp_df := kp_frame df in
    df_grouped <- lift (gst_grouped kp_df) ;;
    st_markdown "### Selected Event Information" ;;
    st_write (describe_event api_endpoint "No description available") ;;
    st_subheader (selected_event_display i ++ " Kp Index from "
                  ++ isoformat (start_date i) ++ " to "
                  ++ isoformat (end_date i)) ;;
    st_plotly_chart
      (px_line df_grouped "date" "kpIndex"
         ("Average Kp Index of " ++ selected_event_display i ++ " Over Time")
         [ ("date", PyStr "Date"); ("kpIndex", PyStr y_label) ]
         true "plotly_dark")
  else
    st_error "No 'allKpIndex' data available to plot.".

(** Lines 227-288. *)
Definition plot_event (i : inputs) (api_endpoint y_label : string)
    (df : pd.DataFrame) (r : resolved) : M unit :=
  if api_endpoint =? "CME" then
    plot_cme i api_endpoint (date_column r)
      (script_globals i api_endpoint y_label r)
  else if api_endpoint =? "GST" then
    plot_gst i api_endpoint y_label df
  else if api_endpoint =? "notifications" then
    plot_count_bar i api_endpoint y_label (date_column r)
  else
    plot_count_bar i api_endpoint y_label (date_column r).

(** Lines 179-292. *)
Definition process_list (i : inputs) (api_endpoint : string)
    (data : list json) : M unit :=
  let df := pd.json_normalize data in
  let y_label := y_label_of api_endpoint in
  r <- resolve_date api_endpoint df ;;
  plot_event i api_endpoint y_label df r ;;
  emit (Main (WriteFrame df (date_column r))).

End Script.

(** The parser that reads each value on its own and never raises. *)
Definition value_by_value (to_date : json -> option date)
    : list pd.cell -> result (list (option date)) :=
  fun cs => Ok (to_dates to_date cs).

End col.

(* ================================================================= *)
(** ** A concrete service for the examples *)

Definition digit_val (c : ascii) : Z := Z.of_nat (nat_of_ascii c) - 48.

(** A reading of the timestamps DONKI sends ([2024-05-10T17:00Z]): the
    calendar date in front, nothing for anything else.  It stands for the
    pandas parser in the examples. *)
Definition iso_date (j : json) : option date :=
  match j with
  | JStr s =>
      match list_ascii_of_string s with
      | y1 :: y2 :: y3 :: y4 :: h1 :: m1 :: m2 :: h2 :: d1 :: d2 :: rest =>
          let y := (digit_val y1 * 1000 + digit_val y2 * 100
                    + digit_val y3 * 10 + digit_val y4)%Z in
          let m := (digit_val m1 * 10 + digit_val m2)%Z in
          let d := (digit_val d1 * 10 + digit_val d2)%Z in
          if forallb is_digit [y1; y2; y3; y4; m1; m2; d1; d2]
             && Ascii.eqb h1 "-" && Ascii.eqb h2 "-"
             && match rest with
                | [] => true
                | c :: _ => Ascii.eqb c "T" || Ascii.eqb c " "
                end
             && (1 <=? m)%Z && (m <=? 12)%Z && (1 <=? d)%Z && (d <=? 31)%Z
          then Some (mkdate y m d) else None
      | _ => None
      end
  | _ => None
  end.

(** A service that answers every request with status 200 and [body]. *)
Definition serve (body : json) : string -> dict param -> response :=
  fun _ _ => mkresponse 200 "" (Some body).

(** A CME record as DONKI sends it, reduced to three fields. *)
Definition cme_record (id start_time : string) : json :=
  JObj [ ("activityID", JStr id);
         ("catalog", JStr "M2M_CATALOG");
         ("startTime", JStr start_time) ].

(** Five records on three days: two, one and two. *)
Definition cme_five : list json :=
  [ cme_record "2024-05-01T01:36:00-CME-001" "2024-05-01T01:36Z";
    cme_record "2024-05-01T19:12:00-CME-001" "2024-05-01T19:12Z";
    cme_record "2024-05-02T08:00:00-CME-001" "2024-05-02T08:00Z";
    cme_record "2024-05-03T02:48:00-CME-001" "2024-05-03T02:48Z";
    cme_record "2024-05-03T14:24:00-CME-001" "2024-05-03T14:24Z" ].

(** One storm with two Kp readings on the same day. *)
Definition gst_one : list json :=
  [ JObj [ ("gstID", JStr "2024-05-02T15:00:00-GST-001");
           ("startTime", JStr "2024-05-02T15:00Z");
           ("allKpIndex",
            JArr [ JObj [ ("observedTime", JStr "2024-05-03T00:00Z");
                          ("kpIndex", JNum 3);
                          ("source", JStr "NOAA") ];
                   JObj [ ("observedTime", JStr "2024-05-03T06:00Z");
                          ("kpIndex", JNum 5);
                          ("source", JStr "NOAA") ] ]) ] ].

(** A storm record without the list of readings. *)
Definition gst_bare : json :=
  JObj [ ("gstID", JStr "2024-05-10T06:00:00-GST-001");
         ("startTime", JStr "2024-05-10T06:00Z") ].

(** Records that carry no date or time under any name. *)
Definition undated_two : list json :=
  [ JObj [ ("flrID", JStr "2024-05-01T01:36:00-FLR-001");
           ("classType", JStr "M1.0") ];
    JObj [ ("flrID", JStr "2024-05-02T08:00:00-FLR-001");
           ("classType", JStr "X2.1") ] ].



(** A record whose first key, as sent, is an object with a timestamp
    inside, followed by two plain keys. *)
Definition nested_first : dict json :=
  [ ("meta", JObj [ ("timestamp", JStr "2024-05-01T00:00Z") ]);
    ("id", JStr "2024-05-02T08:00:00-FLR-001");
    ("eventDate", JStr "2024-05-02") ].

(** A record whose only time stands inside a nested object. *)
Definition linked : dict json :=
  [ ("flrID", JStr "2024-05-03T02:48:00-FLR-001");
    ("link", JObj [ ("eventTime", JStr "2024-05-03T02:48Z");
                    ("source", JObj [ ("name", JStr "GOES") ]) ]) ].

(** Two flares whose begin times carry different UTC offsets. *)
Definition two_offsets : list (dict json) :=
  [ [ ("flrID", JStr "2024-05-01T01:36:00-FLR-001");
      ("beginTime", JStr "2024-05-01T01:36Z") ];
    [ ("flrID", JStr "2024-05-02T08:00:00-FLR-001");
      ("beginTime", JStr "2024-05-02T08:00-05:00") ] ].

(** The UTC offset a timestamp ends with: [Z], or a sign, two digits, a
    colon and two digits. *)
Definition utc_offset (c : pd.cell) : option string :=
  match c with
  | Some (JStr s) =>
      let n := String.length s in
      if String.eqb (substring (n - 1) 1 s) "Z" then Some "Z"
      else if (String.eqb (substring (n - 6) 1 s) "+"
               || String.eqb (substring (n - 6) 1 s) "-")
              && String.eqb (substring (n - 3) 1 s) ":"
           then Some (substring (n - 6) 6 s)
           else None
  | _ => None
  end.

Fixpoint offsets (cs : list pd.cell) : list string :=
  match cs with
  | [] => []
  | c :: t => match utc_offset c with
              | Some o => o :: offsets t
              | None => offsets t
              end
  end.

(** A parser of whole columns for the examples: the dates of [iso_date],
    and a ValueError when two values carry different UTC offsets. *)
Definition offset_checked (cs : list pd.cell)
    : result (list (option date)) :=
  match offsets cs with
  | o :: t =>
      if forallb (String.eqb o) t then Ok (to_dates iso_date cs)
      else Raise (ValueError "Mixed timezones detected")
  | [] => Ok (to_dates iso_date cs)
  end.

(** An empty page and an empty cache. *)
Definition blank : world := {| trace := []; cache := [] |}.

(** The sidebar as a user leaves it: the demo key, May 2024, button
    pressed. *)
Definition may_2024 (display : string) : inputs :=
  {| api_key := "DEMO_KEY";
     selected_event_display := display;
     start_date := mkdate 2024 5 1;
     end_date := mkdate 2024 5 31;
     fetch_button := true |}.

(** The same with the two dates exchanged. *)
Definition may_2024_inverted (display : string) : inputs :=
  {| api_key := "DEMO_KEY";
     selected_event_display := display;
     start_date := mkdate 2024 5 31;
     end_date := mkdate 2024 5 1;
     fetch_button := true |}.

(* ================================================================= *)
(** ** Vocabulary of the properties *)

(** Ascending, without repetition. *)
Inductive ascending : list date -> Prop :=
| asc_nil : ascending []
| asc_one d : ascending [d]
| asc_cons a b l : date_lt a b -> ascending (b :: l) -> ascending (a :: b :: l).

(** A year that [%Y] prints with four digits. *)
Definition four_digit_year (d : date) : Prop :=
  valid_date d /\ (1000 <= year d)%Z.

(** The descriptor's date field is a column of the frame. *)
Definition field_present (code : string) (df : pd.DataFrame) : bool :=
  match date_field_of code with
  | Some f => pd.has_column f df
  | None => false
  end.

(** The number [mean] reads in a cell, and whether it reads one at all. *)
Definition cell_number (c : pd.cell) : option Q :=
  match pd.to_numeric c with Ok v => v | Raise _ => None end.

Definition averageable (c : pd.cell) : bool :=
  match pd.to_numeric c with Ok _ => true | Raise _ => false end.

(** The tidy table of the GST branch: per row of the exploded frame, the day
    of its [observedTime] and the number in its [kpIndex]. *)
Definition tidy_row (to_date : json -> option date) (row : dict json)
    : option date * option Q :=
  (cell_date to_date (dict_get "observedTime" row),
   cell_number (dict_get "kpIndex" row)).

Definition gst_tidy (to_date : json -> option date) (kp_df : pd.DataFrame)
    : list (option date * option Q) :=
  map (tidy_row to_date) (pd.rows kp_df).

(** The mean per day of a tidy table: what line 248 returns when it
    returns. *)
Definition mean_series (tbl : list (option date * option Q))
    : list (date * pd.num) :=
  map (fun g => (fst g, pd.mean (snd g))) (pd.groupby tbl).





(** What [explode] makes of one cell of the exploded column. *)
Definition explode_cell (c : pd.cell) : list pd.cell :=
  match c with
  | Some (JArr (x :: xs)) => map Some (x :: xs)
  | Some (JArr []) => [None]
  | _ => [c]
  end.



(** *** Key order

    The dotted paths of the values under a key that are not objects, depth
    first, in the order of the text; a key is joined to the path above it
    by a dot, unless that path is empty. *)
Definition join_path (path key : string) : string :=
  if truthy_str path then path ++ "." ++ key else key.

Fixpoint leaf_paths (path : string) (j : json) : list string :=
  match j with
  | JObj kvs =>
      (fix each (l : list (string * json)) : list string :=
         match l with
         | [] => []
         | (key, value) :: t =>
             (leaf_paths (join_path path key) value ++ each t)%list
         end) kvs
  | _ => [path]
  end.

(** The keys of a record in the order the service sent them, nested
    objects flattened in place. *)
Definition original_key_order (r : dict json) : list string :=
  leaf_paths "" (JObj r).

(** The keys of a record in the order of its row in the frame: first the
    top-level keys whose value is not an object, then the paths into the
    nested objects. *)
Definition record_keys (r : dict json) : list string :=
  (map fst (filter (fun kv => negb (pd.is_dict (snd kv))) r)
   ++ flat_map (fun kv => leaf_paths (fst kv) (snd kv))
        (filter (fun kv => pd.is_dict (snd kv)) r))%list.

(** A list without its repetitions, every element at its first place. *)
Fixpoint first_seen_after (seen l : list string) : list string :=
  match l with
  | [] => []
  | k :: t =>
      if mem k seen then first_seen_after seen t
      else k :: first_seen_after (k :: seen) t
  end.

Definition first_seen (l : list string) : list string :=
  first_seen_after [] l.

(** The keys of a record set in the order of the columns of its frame. *)
Definition frame_key_order (records : list (dict json)) : list string :=
  first_seen (flat_map record_keys records).

(** The first element that satisfies [p]. *)
Definition first_match (p : string -> bool) (l : list string)
    : option string :=
  match filter p l with
  | k :: _ => Some k
  | [] => None
  end.

(** [a] is a later day than [b], read off the three fields. *)
Definition later_day (a b : date) : Prop :=
  (year b < year a)%Z
  \/ (year a = year b
      /\ ((month b < month a)%Z
          \/ (month a = month b /\ (day b < day a)%Z))).

(** The messages of the date resolution. *)
Definition is_notice (ev : event) : bool :=
  match ev with
  | Main (WarningBox _) | Main (ErrorBox _) => true
  | _ => false
  end.

Definition is_chart (ev : event) : bool :=
  match ev with Main (PlotlyChart _) => true | _ => false end.

Definition on_main_page (ev : event) : bool :=
  match ev with Main _ => true | _ => false end.

(** A computation only adds to the trace. *)
Definition grows {A} (m : M A) : Prop :=
  forall w, exists l, trace (snd (m w)) = (trace w ++ l)%list.

(** *** Vocabulary of the further properties *)

Definition is_request (ev : event) : bool :=
  match ev with HttpGet _ _ => true | _ => false end.

Definition is_sidebar (ev : event) : bool :=
  match ev with Sidebar _ => true | _ => false end.

Definition is_raw_table (ev : event) : bool :=
  match ev with Main (WriteFrame _ _) => true | _ => false end.

(** The number of requests in a trace. *)
Definition requests_sent (tr : list event) : nat :=
  List.length (filter is_request tr).

(** A store as the runs of the script build it: what an entry shows again
    are elements of the main page. *)
Definition cache_ok (c : list (cache_key * cache_entry)) : bool :=
  forallb (fun e => forallb on_main_page (replay (snd e))) c.

(** A computation adds only events that satisfy [P] and leaves the store
    alone. *)
Definition emits {A} (P : event -> bool) (m : M A) : Prop :=
  forall w, exists l,
    snd (m w) = {| trace := (trace w ++ l)%list; cache := cache w |}
    /\ forallb P l = true.

(** The rows of a date column that fall on day [d]. *)
Definition rows_on (d : date) (dates : list (option date)) : nat :=
  List.length (filter (pd.in_group d) dates).

(** The rows of a date column that have a date at all. *)
Definition dated (dates : list (option date)) : nat :=
  List.length (filter (fun od => match od with
                                 | Some _ => true
                                 | None => false
                                 end) dates).

(** The sum of the values of a count series. *)
Definition series_total (series : list (date * pd.num)) : Z :=
  fold_right (fun p acc => match snd p with
                           | pd.NInt n => (n + acc)%Z
                           | _ => acc
                           end) 0%Z series.

(** Text on the main page: anything but a chart or the raw table. *)
Definition is_text (ev : event) : bool :=
  on_main_page ev && negb (is_chart ev) && negb (is_raw_table ev).

(** The sum of [f] over a list of dates. *)
Fixpoint sum_over (f : date -> nat) (ks : list date) : nat :=
  match ks with
  | [] => 0
  | k :: t => f k + sum_over f t
  end.

(** The message of line 160. *)
Definition fetch_error_text (r : response) : string :=
  "Error fetching data: "
  ++ NilZero.string_of_int (Z.to_int (status_code r))
  ++ " - " ++ text r.

Ltac date_order :=
  unfold date_lt, date_gtb, date_ltb, date_eqb in *; simpl in *;
  rewrite ?orb_true_iff, ?andb_true_iff, ?orb_false_iff, ?andb_false_iff,
    ?Z.ltb_lt, ?Z.eqb_eq, ?Z.ltb_ge, ?Z.eqb_neq in *;
  lia.

(* ================================================================= *)
(** ** Properties *)

(** *** Dates *)

Lemma date_eqb_eq (a b : date) : date_eqb a b = true <-> a = b.
Proof.
  destruct a as [ya ma da], b as [yb mb db]; unfold date_eqb; simpl.
  rewrite !andb_true_iff, !Z.eqb_eq. split.
  - intros [[-> ->] ->]. reflexivity.
  - intros H. injection H as -> -> ->. auto.
Qed.

Lemma date_eqb_refl (a : date) : date_eqb a a = true.
Proof. apply date_eqb_eq. reflexivity. Qed.

Lemma date_eqb_neq (a b : date) : date_eqb a b = false <-> a <> b.
Proof.
  rewrite <- date_eqb_eq. destruct (date_eqb a b); split; congruence.
Qed.

Lemma date_lt_irrefl (a : date) : ~ date_lt a a.
Proof. destruct a. date_order. Qed.

Lemma date_lt_trans (a b c : date) : date_lt a b -> date_lt b c -> date_lt a c.
Proof. destruct a, b, c. date_order. Qed.

Lemma date_not_lt_not_eq (a b : date) :
  date_ltb a b = false -> date_eqb a b = false -> date_lt b a.
Proof. destruct a, b. date_order. Qed.

(** *** Grouping *)

Lemma in_insert_date (x d : date) (l : list date) :
  In x (pd.insert_date d l) <-> x = d \/ In x l.
Proof.
  induction l as [|h t IH]; simpl.
  - intuition.
  - destruct (date_ltb d h) eqn:Hlt; simpl; [intuition|].
    destruct (date_eqb d h) eqn:Heq; simpl.
    + apply date_eqb_eq in Heq. subst. intuition.
    + rewrite IH. intuition.
Qed.

Lemma in_group_keys (k : date) (ds : list (option date)) :
  In k (pd.group_keys ds) <-> In (Some k) ds.
Proof.
  induction ds as [|[d|] t IH]; simpl.
  - tauto.
  - rewrite in_insert_date, IH. split.
    + intros [->|H]; auto.
    + intros [H|H]; [injection H as ->|]; auto.
  - rewrite IH. split; [auto|]. intros [H|H]; [discriminate|assumption].
Qed.

Lemma ascending_insert (d : date) (l : list date) :
  ascending l -> ascending (pd.insert_date d l).
Proof.
  induction 1 as [|h|a b t Hab Ht IH]; simpl.
  - constructor.
  - destruct (date_ltb d h) eqn:Hlt; [constructor; [exact Hlt|constructor]|].
    destruct (date_eqb d h) eqn:Heq; [constructor|].
    constructor; [|constructor]. now apply date_not_lt_not_eq.
  - destruct (date_ltb d a) eqn:Hda.
    { constructor; [exact Hda|]. now constructor. }
    destruct (date_eqb d a) eqn:Hea.
    { now constructor. }
    simpl in IH.
    destruct (date_ltb d b) eqn:Hdb.
    { constructor; [now apply date_not_lt_not_eq|]. now constructor. }
    destruct (date_eqb d b) eqn:Heb.
    { now constructor. }
    now constructor.
Qed.

Lemma ascending_group_keys (ds : list (option date)) :
  ascending (pd.group_keys ds).
Proof.
  induction ds as [|[d|] t IH]; simpl.
  - constructor.
  - now apply ascending_insert.
  - exact IH.
Qed.

Lemma group_nonempty {V} (k : date) (tbl : list (option date * V)) :
  In (Some k) (map fst tbl) -> pd.group k tbl <> [].
Proof.
  induction tbl as [|[od v] t IH]; simpl; [tauto|].
  intros [H|H]; unfold pd.group; simpl.
  - subst od. simpl. rewrite date_eqb_refl. simpl. discriminate.
  - destruct (pd.in_group k od); simpl; [discriminate|]. now apply IH.
Qed.

Lemma in_groupby {V} (k : date) (g : list V) (tbl : list (option date * V)) :
  In (k, g) (pd.groupby tbl) ->
  g = pd.group k tbl /\ In (Some k) (map fst tbl).
Proof.
  unfold pd.groupby. rewrite in_map_iff. intros [k' [E Hin]].
  injection E as -> <-. split; [reflexivity|]. now apply in_group_keys.
Qed.

(** The dates of an aggregated series are those of [group_keys]. *)
Lemma groupby_size_dates (dates : list (option date)) :
  map fst (pd.groupby_size dates) = pd.group_keys dates.
Proof.
  unfold pd.groupby_size, pd.groupby. rewrite !map_map. simpl.
  now rewrite !map_id.
Qed.

(** The series of the count branches runs through the dates in ascending
    order, each once. *)
Lemma groupby_size_ascending (dates : list (option date)) :
  ascending (map fst (pd.groupby_size dates)).
Proof. rewrite groupby_size_dates. apply ascending_group_keys. Qed.

(** So does the series of the GST branch. *)
Lemma mean_series_ascending (tbl : list (option date * option Q)) :
  ascending (map fst (mean_series tbl)).
Proof.
  unfold mean_series, pd.groupby. rewrite !map_map. cbn [fst].
  rewrite map_id. apply ascending_group_keys.
Qed.

(** A point of a count series is a whole number, at least 1. *)
Lemma groupby_size_positive (dates : list (option date)) (d : date)
    (v : pd.num) :
  In (d, v) (pd.groupby_size dates) -> exists n, v = pd.NInt n /\ (1 <= n)%Z.
Proof.
  unfold pd.groupby_size. rewrite in_map_iff. intros [[k g] [E Hin]].
  simpl in E. injection E as Hk Hv. subst d v.
  apply in_groupby in Hin. destruct Hin as [Hg Hk].
  eexists. split; [reflexivity|].
  apply group_nonempty in Hk. rewrite <- Hg in Hk.
  destruct g; [congruence|]. simpl List.length. lia.
Qed.

(** *** The trace only grows *)

Lemma grows_ret {A} (a : A) : grows (ret a).
Proof. intros w. exists []. simpl. now rewrite app_nil_r. Qed.

Lemma grows_raise {A} (e : exn) : grows (@raise A e).
Proof. intros w. exists []. simpl. now rewrite app_nil_r. Qed.

Lemma grows_lift {A} (r : result A) : grows (lift r).
Proof. intros w. exists []. simpl. now rewrite app_nil_r. Qed.

Lemma grows_emit (ev : event) : grows (emit ev).
Proof. intros w. exists [ev]. reflexivity. Qed.

Lemma grows_bind {A B} (m : M A) (k : A -> M B) :
  grows m -> (forall a, grows (k a)) -> grows (bind m k).
Proof.
  intros Hm Hk w. unfold bind. destruct (Hm w) as [l Hl].
  destruct (m w) as [[a|e] w']; simpl in *.
  - destruct (Hk a w') as [l' Hl']. exists (l ++ l')%list.
    now rewrite Hl', Hl, app_assoc.
  - now exists l.
Qed.

Lemma grows_in {A} (m : M A) (w : world) (ev : event) :
  grows m -> In ev (trace w) -> In ev (trace (snd (m w))).
Proof.
  intros Hm Hin. destruct (Hm w) as [l ->]. apply in_or_app. now left.
Qed.

Lemma bind_in {A B} (m : M A) (k : A -> M B) (w : world) (ev : event) :
  In ev (trace (snd (m w))) -> (forall a, grows (k a)) ->
  In ev (trace (snd (bind m k w))).
Proof.
  intros Hin Hk. unfold bind. destruct (m w) as [[a|e] w']; simpl in *.
  - now apply grows_in.
  - exact Hin.
Qed.

Create HintDb grows.
#[local] Hint Resolve grows_ret grows_raise grows_lift grows_emit : grows.

Ltac grows :=
  repeat first
    [ apply grows_bind; [|intros]
    | solve [auto with grows]
    | unfold st_markdown, st_write, st_subheader, st_error, st_warning,
        st_success, st_json, st_plotly_chart, load_name ];
  auto with grows.

Section Runs.

Variable to_date : json -> option date.
Variable http_get : string -> dict param -> response.

Lemma grows_fetch_body event s e key :
  grows (fetch_body http_get event s e key).
Proof.
  unfold fetch_body, requests_get. grows.
  destruct (status_code _ =? 200)%Z; [destruct (body_json _)|]; grows.
Qed.

Lemma grows_fetch event s e key :
  grows (fetch_space_weather http_get event s e key).
Proof.
  intros w. unfold fetch_space_weather.
  destruct (cache_lookup _ _); [now eexists|].
  destruct (fetch_body _ _ _ _ _ _) as [[v|ex] wb]; now eexists.
Qed.

Lemma grows_resolve_date code df : grows (resolve_date to_date code df).
Proof.
  unfold resolve_date.
  destruct (date_field_of code) as [f|];
    [destruct (truthy_str f && pd.has_column f df); [grows|]|];
    destruct (filter _ _); grows.
Qed.

Lemma grows_plot_cme i code dates globals :
  grows (plot_cme i code dates globals).
Proof.
  unfold plot_cme. grows. destruct (dict_get _ _); grows.
Qed.

Lemma grows_plot_gst i code y df : grows (plot_gst to_date i code y df).
Proof. unfold plot_gst. destruct (pd.has_column _ _); grows. Qed.

Lemma grows_plot_count_bar i code y dates :
  grows (plot_count_bar i code y dates).
Proof. unfold plot_count_bar. grows. Qed.

Lemma grows_process_list i code records :
  grows (process_list to_date i code records).
Proof.
  unfold process_list. apply grows_bind; [apply grows_resolve_date|].
  intros r. apply grows_bind; [|intros; apply grows_emit].
  unfold plot_event.
  destruct (code =? "CME"); [apply grows_plot_cme|].
  destruct (code =? "GST"); [apply grows_plot_gst|].
  destruct (code =? "notifications"); apply grows_plot_count_bar.
Qed.

(** A miss sends the request. *)
Lemma fetch_miss_sends event s e key w :
  cache_lookup (event, s, e, key) (cache w) = None ->
  In (HttpGet ("https://api.nasa.gov/DONKI/" ++ event)
              (query_params event s e key))
     (trace (snd (fetch_space_weather http_get event s e key w))).
Proof.
  intros Hmiss. unfold fetch_space_weather. rewrite Hmiss.
  assert (Hin : In (HttpGet ("https://api.nasa.gov/DONKI/" ++ event)
                            (query_params event s e key))
                   (trace (snd (fetch_body http_get event s e key
                                  {| trace := []; cache := cache w |})))).
  { unfold fetch_body, requests_get. apply bind_in.
    - simpl. now left.
    - intros r. destruct (status_code r =? 200)%Z;
        [destruct (body_json r)|]; grows. }
  destruct (fetch_body _ _ _ _ _ _) as [[v|ex] wb]; simpl in *;
    apply in_or_app; now right.
Qed.

End Runs.

Section Handler.

Variable to_date : json -> option date.
Variable http_get : string -> dict param -> response.

Lemma grows_on_fetch i code : grows (on_fetch to_date http_get i code).
Proof.
  unfold on_fetch. destruct (negb _); [grows|].
  apply grows_bind; [apply grows_fetch|]. intros data.
  destruct (truthy data); [|grows].
  do 2 (apply grows_bind; [grows|intros]).
  destruct data; try apply grows_process_list; grows.
Qed.

(** The start of a run, up to the button. *)
Lemma run_pressed i code c :
  dict_get (selected_event_display i) event_types = Some code ->
  fetch_button i = true ->
  run to_date http_get i c =
  on_fetch to_date http_get i code
    {| trace :=
         ((if date_gtb (start_date i) (end_date i)
           then [Sidebar (ErrorBox "Error: End date must fall after start date.")]
           else [])
          ++ [Sidebar (Write (describe_event code "No description available"))])%list;
       cache := c |}.
Proof.
  intros Hsel Hbtn. unfold run, script. rewrite Hsel, Hbtn.
  cbv beta iota zeta delta [bind lift emit ret trace cache].
  destruct (date_gtb _ _); reflexivity.
Qed.

(** C1, as the script behaves: when the start date is after the end date
    the sidebar shows the error, but the handler of the button does not look
    at the range: with a non-empty key (and nothing cached for the
    arguments) the GET is sent, with the two dates as they are. *)
Theorem inverted_range_still_fetches i code c :
  dict_get (selected_event_display i) event_types = Some code ->
  date_gtb (start_date i) (end_date i) = true ->
  fetch_button i = true ->
  truthy_str (api_key i) = true ->
  cache_lookup (code, start_date i, end_date i, api_key i) c = None ->
  In (Sidebar (ErrorBox "Error: End date must fall after start date."))
     (trace (snd (run to_date http_get i c)))
  /\ In (HttpGet ("https://api.nasa.gov/DONKI/" ++ code)
                 (query_params code (start_date i) (end_date i) (api_key i)))
        (trace (snd (run to_date http_get i c))).
Proof.
  intros Hsel Hgt Hbtn Hkey Hmiss.
  rewrite (run_pressed i code c Hsel Hbtn), Hgt. split.
  - apply grows_in; [apply grows_on_fetch|]. simpl. now left.
  - unfold on_fetch. rewrite Hkey. cbn [negb].
    apply bind_in.
    + now apply fetch_miss_sends.
    + intros data. destruct (truthy data); [|grows].
      do 2 (apply grows_bind; [grows|intros]).
      destruct data; try apply grows_process_list; grows.
Qed.

End Handler.

Lemma inverted_range_still_fetches_witness :
  In (Sidebar (ErrorBox "Error: End date must fall after start date."))
     (trace (snd (run iso_date (serve (JArr cme_five))
                    (may_2024_inverted "FLR (Solar Flare)") [])))
  /\ In (HttpGet "https://api.nasa.gov/DONKI/FLR"
                 [ ("startDate", PStr "2024-05-31");
                   ("endDate", PStr "2024-05-01");
                   ("api_key", PStr "DEMO_KEY") ])
        (trace (snd (run iso_date (serve (JArr cme_five))
                       (may_2024_inverted "FLR (Solar Flare)") []))).
Proof.
  apply (inverted_range_still_fetches iso_date (serve (JArr cme_five))
           (may_2024_inverted "FLR (Solar Flare)") "FLR" []);
    reflexivity.
Defined.

(** A miss on a service that answers 200: the body is returned and
    stored. *)
Lemma fetch_miss_served body event s e key w :
  cache_lookup (event, s, e, key) (cache w) = None ->
  fetch_space_weather (serve body) event s e key w
  = (Ok body,
     {| trace :=
          (trace w ++ [ HttpGet ("https://api.nasa.gov/DONKI/" ++ event)
                          (query_params event s e key) ])%list;
        cache := ((event, s, e, key), {| value := body; replay := [] |})
                 :: cache w |}).
Proof.
  intros Hmiss. unfold fetch_space_weather. rewrite Hmiss. reflexivity.
Qed.

(** C6, as the script behaves: when the service answers 200 with an empty
    array, the value fetched is falsy and the handler does nothing more: the
    run ends normally and nothing is put on the main page, neither a chart
    nor the message of line 294. *)
Theorem empty_array_leaves_page_empty to_date i code c :
  dict_get (selected_event_display i) event_types = Some code ->
  fetch_button i = true ->
  truthy_str (api_key i) = true ->
  cache_lookup (code, start_date i, end_date i, api_key i) c = None ->
  fst (run to_date (serve (JArr [])) i c) = Ok tt
  /\ filter on_main_page (trace (snd (run to_date (serve (JArr [])) i c))) = [].
Proof.
  intros Hsel Hbtn Hkey Hmiss.
  rewrite (run_pressed to_date _ i code c Hsel Hbtn).
  unfold on_fetch. rewrite Hkey. cbn [negb].
  destruct (date_gtb _ _); split; unfold bind at 1;
    rewrite fetch_miss_served by exact Hmiss; reflexivity.
Qed.

Lemma empty_array_leaves_page_empty_witness :
  fst (run iso_date (serve (JArr [])) (may_2024 "FLR (Solar Flare)") [])
  = Ok tt
  /\ filter on_main_page
       (trace (snd (run iso_date (serve (JArr []))
                      (may_2024 "FLR (Solar Flare)") []))) = [].
Proof.
  apply (empty_array_leaves_page_empty iso_date
           (may_2024 "FLR (Solar Flare)") "FLR" []);
    reflexivity.
Defined.

(** *** The date column *)

Lemma date_field_truthy code f :
  date_field_of code = Some f -> truthy_str f = true.
Proof.
  unfold date_field_of, date_field_mapping. simpl.
  repeat match goal with
         | |- context [if ?b then _ else _] => destruct b
         end;
    intros H; try discriminate; injection H as <-; reflexivity.
Qed.

Lemma resolve_date_total to_date code df w :
  exists r msgs,
    resolve_date to_date code df w
    = (Ok r, {| trace := (trace w ++ msgs)%list; cache := cache w |})
    /\ forallb is_notice msgs = true.
Proof.
  assert (Hguess : forall d,
             exists r msgs,
               match filter is_date_like (pd.columns df) with
               | first :: _ =>
                   st_warning ("Using '" ++ first ++ "' as the date field") ;;
                   ret {| date_field := Some first;
                          possible_keys :=
                            Some (filter is_date_like (pd.columns df));
                          date_column := to_dates to_date (pd.column first df) |}
               | [] =>
                   st_error "No suitable date field found in the data" ;;
                   ret {| date_field := d;
                          possible_keys :=
                            Some (filter is_date_like (pd.columns df));
                          date_column := map (fun _ => None) (pd.rows df) |}
               end w
               = (Ok r, {| trace := (trace w ++ msgs)%list; cache := cache w |})
               /\ forallb is_notice msgs = true).
  { intros d. destruct (filter _ _); eexists; eexists; split;
      try reflexivity; reflexivity. }
  unfold resolve_date.
  destruct (date_field_of code) as [f|]; [|apply Hguess].
  destruct (truthy_str f && pd.has_column f df); [|apply Hguess].
  eexists. exists []. split; [|reflexivity].
  unfold ret. rewrite app_nil_r. now destruct w.
Qed.

Lemma label_unbound i code y r :
  dict_get "label" (script_globals i code y r) = None.
Proof. unfold script_globals. destruct (possible_keys r); reflexivity. Qed.

(** Line 238 stops the CME branch. *)
Lemma process_list_cme to_date i records w :
  exists r msgs,
    resolve_date to_date "CME" (pd.json_normalize records) w
    = (Ok r, {| trace := (trace w ++ msgs)%list; cache := cache w |})
    /\ forallb is_notice msgs = true
    /\ process_list to_date i "CME" records w
       = (Raise (NameError "label"),
          {| trace :=
               (trace w ++ msgs
                ++ [ Main (Markdown "### Selected Event Information");
                     Main (Write (describe_event "CME"
                                    "No description available."));
                     Main (Subheader
                             (selected_event_display i ++ " from "
                              ++ isoformat (start_date i) ++ " to "
                              ++ isoformat (end_date i))) ])%list;
             cache := cache w |}).
Proof.
  destruct (resolve_date_total to_date "CME" (pd.json_normalize records) w)
    as [r [msgs [Hr Hmsgs]]].
  exists r, msgs. split; [exact Hr|]. split; [exact Hmsgs|].
  unfold process_list. unfold bind at 1. rewrite Hr.
  unfold plot_event. rewrite String.eqb_refl.
  unfold plot_cme, load_name. rewrite label_unbound.
  cbv beta iota zeta delta
    [bind st_markdown st_write st_subheader emit raise].
  cbn [trace cache]. now rewrite <- !app_assoc.
Qed.

(** The count branches draw their bar chart. *)
Lemma process_list_bar to_date i code records w :
  code <> "CME" -> code <> "GST" ->
  exists r msgs,
    resolve_date to_date code (pd.json_normalize records) w
    = (Ok r, {| trace := (trace w ++ msgs)%list; cache := cache w |})
    /\ forallb is_notice msgs = true
    /\ process_list to_date i code records w
       = (Ok tt,
          {| trace :=
               (trace w ++ msgs
                ++ [ Main (Markdown "### Selected Event Information");
                     Main (Write (describe_event code
                                    "No description available."));
                     Main (Subheader
                             (selected_event_display i ++ " from "
                              ++ isoformat (start_date i) ++ " to "
                              ++ isoformat (end_date i)));
                     Main (PlotlyChart
                             (px_bar (pd.groupby_size (date_column r))
                                "date" "count"
                                ("Number of " ++ selected_event_display i
                                 ++ " Over Time")
                                [ ("date", PyStr "Date");
                                  ("count", PyStr (y_label_of code)) ]
                                "plotly_dark"));
                     Main (WriteFrame (pd.json_normalize records)
                             (date_column r)) ])%list;
             cache := cache w |}).
Proof.
  intros Hcme Hgst.
  destruct (resolve_date_total to_date code (pd.json_normalize records) w)
    as [r [msgs [Hr Hmsgs]]].
  exists r, msgs. split; [exact Hr|]. split; [exact Hmsgs|].
  unfold process_list. unfold bind at 1. rewrite Hr.
  unfold plot_event.
  apply String.eqb_neq in Hcme, Hgst. rewrite Hcme, Hgst.
  assert (E : (if code =? "notifications"
               then plot_count_bar i code (y_label_of code) (date_column r)
               else plot_count_bar i code (y_label_of code) (date_column r))
              = plot_count_bar i code (y_label_of code) (date_column r))
    by now destruct (code =? "notifications").
  rewrite E. unfold plot_count_bar.
  cbv beta iota zeta delta
    [bind st_markdown st_write st_subheader st_plotly_chart emit].
  cbn [trace cache]. now rewrite <- !app_assoc.
Qed.

Lemma notices_no_chart (msgs : list event) :
  forallb is_notice msgs = true -> filter is_chart msgs = [].
Proof.
  induction msgs as [|ev t IH]; simpl; [reflexivity|].
  rewrite andb_true_iff. intros [Hev Ht].
  destruct ev as [e|e|u p]; try discriminate;
    destruct e; try discriminate; simpl; auto.
Qed.

(** C2, as the script behaves: on the five CME records of three days the
    grouping of line 230 gives the counts 2, 1, 2 in ascending date order;
    but for the code CME, whatever the records, the call of line 237 reads
    the unbound name [label] and the run stops on a NameError with no chart
    drawn. *)
Theorem cme_series_counted_chart_not_drawn :
  (exists r,
      resolve_date iso_date "CME" (pd.json_normalize cme_five) blank
      = (Ok r, blank)
      /\ pd.groupby_size (date_column r)
         = [ (mkdate 2024 5 1, pd.NInt 2);
             (mkdate 2024 5 2, pd.NInt 1);
             (mkdate 2024 5 3, pd.NInt 2) ])
  /\ (forall to_date i records w,
         fst (process_list to_date i "CME" records w)
         = Raise (NameError "label")
         /\ filter is_chart
              (trace (snd (process_list to_date i "CME" records w)))
            = filter is_chart (trace w))
  /\ fst (run iso_date (serve (JArr cme_five))
            (may_2024 "CME (Coronal Mass Ejection)") [])
     = Raise (NameError "label")
  /\ filter is_chart
       (trace (snd (run iso_date (serve (JArr cme_five))
                      (may_2024 "CME (Coronal Mass Ejection)") [])))
     = [].
Proof.
  split; [eexists; split; reflexivity|]. split; [|split; reflexivity].
  intros to_date i records w.
  destruct (process_list_cme to_date i records w) as [r [msgs [_ [Hn ->]]]].
  split; [reflexivity|]. cbn [snd trace].
  rewrite !filter_app, (notices_no_chart msgs Hn). simpl.
  now rewrite app_nil_r.
Qed.

(** C9: every point of a count series is a whole number, at least 1: for
    the grouping that lines 230, 264 and 278 compute, and so for the series
    of every chart that a code other than GST gets drawn. *)
Theorem count_series_points_at_least_one :
  (forall dates d v,
      In (d, v) (pd.groupby_size dates) ->
      exists n, v = pd.NInt n /\ (1 <= n)%Z)
  /\ (forall to_date i code records w f,
         code <> "GST" ->
         In (Main (PlotlyChart f))
            (trace (snd (process_list to_date i code records w))) ->
         ~ In (Main (PlotlyChart f)) (trace w) ->
         forall d v, In (d, v) (data_frame f) ->
                     exists n, v = pd.NInt n /\ (1 <= n)%Z).
Proof.
  split; [exact groupby_size_positive|].
  intros to_date i code records w f Hgst Hin Hold d v Hdv.
  assert (Hchart : is_chart (Main (PlotlyChart f)) = true) by reflexivity.
  destruct (String.eqb_spec code "CME") as [->|Hcme].
  - exfalso. apply Hold.
    destruct (process_list_cme to_date i records w) as [r [msgs [_ [Hn E]]]].
    rewrite E in Hin. cbn [snd trace] in Hin.
    assert (H : In (Main (PlotlyChart f))
                   (filter is_chart (trace w))).
    { apply filter_In. split; [|exact Hchart].
      apply in_app_or in Hin. destruct Hin as [Hin|Hin]; [exact Hin|].
      apply in_app_or in Hin. destruct Hin as [Hin|Hin].
      - assert (H : In (Main (PlotlyChart f)) (filter is_chart msgs))
          by (apply filter_In; auto).
        rewrite (notices_no_chart msgs Hn) in H. destruct H.
      - simpl in Hin. intuition discriminate. }
    apply filter_In in H. tauto.
  - destruct (process_list_bar to_date i code records w Hcme Hgst)
      as [r [msgs [_ [Hn E]]]].
    rewrite E in Hin. cbn [snd trace] in Hin.
    apply in_app_or in Hin. destruct Hin as [Hin|Hin]; [contradiction|].
    apply in_app_or in Hin. destruct Hin as [Hin|Hin].
    + assert (H : In (Main (PlotlyChart f)) (filter is_chart msgs))
        by (apply filter_In; auto).
      rewrite (notices_no_chart msgs Hn) in H. destruct H.
    + simpl in Hin.
      destruct Hin as [H|[H|[H|[H|[H|[]]]]]]; try discriminate.
      injection H as <-. simpl in Hdv.
      now apply groupby_size_positive in Hdv.
Qed.

Lemma count_series_points_at_least_one_witness :
  exists n, pd.NInt 2 = pd.NInt n /\ (1 <= n)%Z.
Proof.
  apply (proj2 count_series_points_at_least_one iso_date
           (may_2024 "FLR (Solar Flare)") "FLR" cme_five
           {| trace := []; cache := [] |}
           (px_bar [ (mkdate 2024 5 1, pd.NInt 2);
                     (mkdate 2024 5 2, pd.NInt 1);
                     (mkdate 2024 5 3, pd.NInt 2) ]
              "date" "count" "Number of FLR (Solar Flare) Over Time"
              [ ("date", PyStr "Date");
                ("count", PyStr "Number of Solar Flares") ]
              "plotly_dark"))
    with (d := mkdate 2024 5 1).
  - discriminate.
  - vm_compute. tauto.
  - simpl. tauto.
  - simpl. tauto.
Defined.

(** *** The query parameters *)

Lemma is_digit_digit (n : Z) : is_digit (digit n) = true.
Proof.
  unfold digit. assert (H : (0 <= n mod 10 < 10)%Z) by (apply Z.mod_pos_bound; lia).
  assert (E : exists k, (k < 10)%nat /\ Z.to_nat (n mod 10) = k).
  { exists (Z.to_nat (n mod 10)). split; [lia|reflexivity]. }
  destruct E as [k [Hk ->]].
  do 10 (destruct k as [|k]; [reflexivity|]). lia.
Qed.

Lemma digit_val_digit (n : Z) : digit_val (digit n) = (n mod 10)%Z.
Proof.
  unfold digit_val, digit.
  assert (H : (0 <= n mod 10 < 10)%Z) by (apply Z.mod_pos_bound; lia).
  rewrite nat_ascii_embedding by lia. lia.
Qed.

Lemma isoformat_chars (d : date) :
  list_ascii_of_string (isoformat d)
  = [ digit (year d / 1000); digit (year d / 100); digit (year d / 10);
      digit (year d / 1); "-"%char;
      digit (month d / 10); digit (month d / 1); "-"%char;
      digit (day d / 10); digit (day d / 1) ].
Proof. reflexivity. Qed.

Lemma is_iso_date_isoformat (d : date) : is_iso_date (isoformat d) = true.
Proof.
  unfold is_iso_date. rewrite isoformat_chars.
  now rewrite !is_digit_digit.
Qed.

(** Reading back what [strftime] printed gives the date. *)
Lemma iso_date_isoformat (d : date) :
  valid_date d -> iso_date (JStr (isoformat d)) = Some d.
Proof.
  intros [Hy [Hm Hd]]. unfold iso_date. rewrite isoformat_chars.
  cbn [forallb]. rewrite !is_digit_digit, !digit_val_digit.
  cbn [andb Ascii.eqb Bool.eqb].
  destruct d as [y m dd]. cbn [year month day] in *.
  replace (y / 1000 mod 10 * 1000 + y / 100 mod 10 * 100
           + y / 10 mod 10 * 10 + y / 1 mod 10)%Z with y
    by (Z.div_mod_to_equations; lia).
  replace (m / 10 mod 10 * 10 + m / 1 mod 10)%Z with m
    by (Z.div_mod_to_equations; lia).
  replace (dd / 10 mod 10 * 10 + dd / 1 mod 10)%Z with dd
    by (Z.div_mod_to_equations; lia).
  replace (1 <=? m)%Z with true by (symmetry; apply Z.leb_le; lia).
  replace (m <=? 12)%Z with true by (symmetry; apply Z.leb_le; lia).
  replace (1 <=? dd)%Z with true by (symmetry; apply Z.leb_le; lia).
  replace (dd <=? 31)%Z with true by (symmetry; apply Z.leb_le; lia).
  reflexivity.
Qed.

(** From the year 1000 on [%Y] has its four digits. *)
Lemma strftime_Ymd_isoformat (d : date) :
  four_digit_year d -> strftime_Ymd d = isoformat d.
Proof.
  intros [[Hy _] H]. unfold strftime_Ymd, isoformat, year_width.
  replace (year d <? 10)%Z with false by (symmetry; apply Z.ltb_ge; lia).
  replace (year d <? 100)%Z with false by (symmetry; apply Z.ltb_ge; lia).
  replace (year d <? 1000)%Z with false by (symmetry; apply Z.ltb_ge; lia).
  reflexivity.
Qed.

(** C3 does not hold as stated: the set built for a solar-flare query has
    no parameter called [apiKey]; the key travels as [api_key]. *)
Lemma query_params_has_no_apiKey :
  dict_get "apiKey"
    (query_params "FLR" (mkdate 2024 5 1) (mkdate 2024 5 31) "DEMO_KEY")
  = None
  /\ dict_get "api_key"
       (query_params "FLR" (mkdate 2024 5 1) (mkdate 2024 5 31) "DEMO_KEY")
     = Some (PStr "DEMO_KEY").
Proof. split; reflexivity. Qed.

(** C3, amended: the parameter set always starts with [startDate],
    [endDate] and the key under the name [api_key]; the two dates are
    printed as ISO 8601 calendar dates without a time component; CME adds
    exactly the five filters, notifications exactly [type=all], every other
    code nothing. *)
Theorem query_params_contents (event : string) (s e : date) (key : string) :
  let base := [ ("startDate", PStr (strftime_Ymd s));
                ("endDate", PStr (strftime_Ymd e));
                ("api_key", PStr key) ] in
  (four_digit_year s ->
   is_iso_date (strftime_Ymd s) = true
   /\ iso_date (JStr (strftime_Ymd s)) = Some s)
  /\ (four_digit_year e ->
      is_iso_date (strftime_Ymd e) = true
      /\ iso_date (JStr (strftime_Ymd e)) = Some e)
  /\ (event = "CME" ->
      query_params event s e key
      = (base ++ [ ("mostAccurateOnly", PStr "true");
                   ("completeEntryOnly", PStr "true");
                   ("speed", PInt 500);
                   ("halfAngle", PInt 30);
                   ("catalog", PStr "ALL") ])%list)
  /\ (event = "notifications" ->
      query_params event s e key = (base ++ [ ("type", PStr "all") ])%list)
  /\ (event <> "CME" -> event <> "notifications" ->
      query_params event s e key = base).
Proof.
  cbv zeta. repeat split.
  - rewrite strftime_Ymd_isoformat by exact H. apply is_iso_date_isoformat.
  - rewrite strftime_Ymd_isoformat by exact H. apply iso_date_isoformat, H.
  - rewrite strftime_Ymd_isoformat by exact H. apply is_iso_date_isoformat.
  - rewrite strftime_Ymd_isoformat by exact H. apply iso_date_isoformat, H.
  - intros ->. reflexivity.
  - intros ->. reflexivity.
  - intros Hc Hn. unfold query_params.
    apply String.eqb_neq in Hc, Hn. now rewrite Hc, Hn.
Qed.

Lemma query_params_contents_witness :
  (is_iso_date "2024-05-01" = true
   /\ iso_date (JStr "2024-05-01") = Some (mkdate 2024 5 1))
  /\ query_params "CME" (mkdate 2024 5 1) (mkdate 2024 5 31) "DEMO_KEY"
     = [ ("startDate", PStr "2024-05-01");
         ("endDate", PStr "2024-05-31");
         ("api_key", PStr "DEMO_KEY");
         ("mostAccurateOnly", PStr "true");
         ("completeEntryOnly", PStr "true");
         ("speed", PInt 500);
         ("halfAngle", PInt 30);
         ("catalog", PStr "ALL") ]
  /\ query_params "notifications" (mkdate 2024 5 1) (mkdate 2024 5 31)
       "DEMO_KEY"
     = [ ("startDate", PStr "2024-05-01");
         ("endDate", PStr "2024-05-31");
         ("api_key", PStr "DEMO_KEY");
         ("type", PStr "all") ]
  /\ query_params "GST" (mkdate 2024 5 1) (mkdate 2024 5 31) "DEMO_KEY"
     = [ ("startDate", PStr "2024-05-01");
         ("endDate", PStr "2024-05-31");
         ("api_key", PStr "DEMO_KEY") ].
Proof.
  split; [|split; [|split]].
  - apply (proj1 (query_params_contents "CME" (mkdate 2024 5 1)
                    (mkdate 2024 5 31) "DEMO_KEY")).
    unfold four_digit_year, valid_date. simpl. lia.
  - apply (proj1 (proj2 (proj2 (query_params_contents "CME"
             (mkdate 2024 5 1) (mkdate 2024 5 31) "DEMO_KEY")))).
    reflexivity.
  - apply (proj1 (proj2 (proj2 (proj2 (query_params_contents "notifications"
             (mkdate 2024 5 1) (mkdate 2024 5 31) "DEMO_KEY"))))).
    reflexivity.
  - apply (proj2 (proj2 (proj2 (proj2 (query_params_contents "GST"
             (mkdate 2024 5 1) (mkdate 2024 5 31) "DEMO_KEY")))));
      discriminate.
Defined.

(** *** The catalog lookups *)

Lemma known_codes_list :
  known_codes = [ "CME"; "GST"; "FLR"; "SEP"; "IPS"; "RBE"; "MPC"; "HSS";
                  "notifications" ].
Proof. reflexivity. Qed.

Lemma unknown_code_eqb (code k : string) :
  ~ In code known_codes -> In k known_codes -> (code =? k) = false.
Proof.
  intros Hun Hk. apply String.eqb_neq. intros ->. contradiction.
Qed.

(** C8 does not hold as stated: for a code outside the nine, the lookups
    do not fail; they answer with the fallback values. *)
Lemma describe_unknown_code_defaults :
  ~ In "XYZ" known_codes
  /\ describe "XYZ"
     = Ok {| description := "No description available";
             dateField := None;
             yLabel := "Count";
             chartKind := Bar |}.
Proof.
  split; [|reflexivity].
  rewrite known_codes_list. simpl. intuition discriminate.
Qed.

(** C8, amended: the lookups are total over all strings.  For each of the
    nine known codes they return the entries of the tables, none of them
    empty; for any other input they do not fail but fall back to the
    description "No description available", no date field, the y label
    "Count" and a bar chart. *)
Theorem describe_total_with_defaults (code : string) :
  (In code known_codes ->
   exists d f y,
     dict_get code event_descriptions = Some d
     /\ dict_get code date_field_mapping = Some f
     /\ dict_get code y_label_mapping = Some y
     /\ truthy_str d = true /\ truthy_str f = true /\ truthy_str y = true
     /\ describe code
        = Ok {| description := d;
                dateField := Some f;
                yLabel := y;
                chartKind := chart_kind_of code |})
  /\ (~ In code known_codes ->
      describe code
      = Ok {| description := "No description available";
              dateField := None;
              yLabel := "Count";
              chartKind := Bar |}).
Proof.
  split.
  - rewrite known_codes_list. simpl.
    intros [<-|[<-|[<-|[<-|[<-|[<-|[<-|[<-|[<-|[]]]]]]]]]];
      do 3 eexists; repeat split; reflexivity.
  - intros Hun.
    assert (H : forall k, In k known_codes -> (code =? k) = false)
      by (intros k; now apply unknown_code_eqb).
    rewrite known_codes_list in H.
    unfold describe, describe_event, date_field_of, y_label_of,
      chart_kind_of, dict_get_default, event_descriptions,
      date_field_mapping, y_label_mapping.
    cbn [dict_get].
    rewrite !(H "CME"), !(H "GST"), !(H "FLR"), !(H "SEP"), !(H "IPS"),
      !(H "RBE"), !(H "MPC"), !(H "HSS"), !(H "notifications")
      by (simpl; tauto).
    reflexivity.
Qed.

Lemma describe_total_with_defaults_witness :
  (exists d f y,
      dict_get "FLR" event_descriptions = Some d
      /\ dict_get "FLR" date_field_mapping = Some f
      /\ dict_get "FLR" y_label_mapping = Some y
      /\ truthy_str d = true /\ truthy_str f = true /\ truthy_str y = true
      /\ describe "FLR"
         = Ok {| description := d;
                 dateField := Some f;
                 yLabel := y;
                 chartKind := chart_kind_of "FLR" |})
  /\ describe "flr"
     = Ok {| description := "No description available";
             dateField := None;
             yLabel := "Count";
             chartKind := Bar |}.
Proof.
  split.
  - apply (proj1 (describe_total_with_defaults "FLR")).
    unfold known_codes. simpl. tauto.
  - apply (proj2 (describe_total_with_defaults "flr")).
    unfold known_codes. simpl. intuition discriminate.
Defined.

(** *** Names that look like dates *)

Lemma prefix_spec (n h : string) :
  prefix n h = true <-> exists b, h = n ++ b.
Proof.
  revert h. induction n as [|c n IH]; intros h; simpl.
  - split; [intros _; now exists h|intros _; now destruct h].
  - destruct h as [|c' h]; [split; [discriminate|intros [b H]; discriminate]|].
    simpl. destruct (ascii_dec c c') as [->|Hne].
    + rewrite IH. split; intros [b H]; exists b.
      * now rewrite H.
      * now injection H.
    + split; [discriminate|]. intros [b H]. injection H as H _. congruence.
Qed.

(** [contains] is the substring test. *)
Lemma contains_spec (n h : string) :
  contains n h = true <-> exists a b, h = a ++ n ++ b.
Proof.
  induction h as [|c h IH]; cbn [contains].
  - rewrite prefix_spec. split.
    + intros [b H]. now exists EmptyString, b.
    + intros [a [b H]]. destruct a; [now exists b|discriminate].
  - rewrite orb_true_iff, IH, prefix_spec. split.
    + intros [[b H]|[a [b H]]].
      * now exists EmptyString, b.
      * exists (String c a), b. simpl. now rewrite H.
    + intros [a [b H]]. destruct a as [|c' a].
      * left. now exists b.
      * right. exists a, b. simpl in H. now injection H.
Qed.

(** The test of line 218, in words: the lower-cased name has "date" or
    "time" somewhere inside. *)
Lemma is_date_like_spec (col : string) :
  is_date_like col = true
  <-> exists a b, lower col = a ++ "date" ++ b \/ lower col = a ++ "time" ++ b.
Proof.
  unfold is_date_like. rewrite orb_true_iff, !contains_spec. split.
  - intros [[a [b H]]|[a [b H]]]; exists a, b; auto.
  - intros [a [b [H|H]]]; [left|right]; now exists a, b.
Qed.

Lemma filter_none {A} (p : A -> bool) (l : list A) :
  forallb (fun x => negb (p x)) l = true -> filter p l = [].
Proof.
  induction l as [|x t IH]; simpl; [reflexivity|].
  rewrite andb_true_iff, negb_true_iff. intros [-> Ht]. auto.
Qed.

Lemma groupby_size_all_missing {A} (l : list A) :
  pd.groupby_size (map (fun _ => None) l) = [].
Proof.
  unfold pd.groupby_size, pd.groupby.
  replace (pd.group_keys _) with (@nil date); [reflexivity|].
  induction l as [|x t IH]; [reflexivity|exact IH].
Qed.

(** *** The GST branch *)

Lemma to_numeric_all_ok (cs : list pd.cell) (vs : list (option Q)) :
  pd.to_numeric_all cs = Ok vs <->
  forallb averageable cs = true /\ vs = map cell_number cs.
Proof.
  revert vs. induction cs as [|c t IH]; intros vs; simpl.
  - split; [intros H; injection H as <-; auto|intros [_ ->]; reflexivity].
  - unfold averageable at 1, cell_number at 1.
    destruct (pd.to_numeric c) as [v|e]; simpl.
    + destruct (pd.to_numeric_all t) as [vt|e].
      * destruct (IH vt) as [IH1 _]. destruct (IH1 eq_refl) as [Ht ->].
        split.
        -- intros H. injection H as <-. auto.
        -- intros [_ ->]. reflexivity.
      * split; [discriminate|]. intros [Ht _].
        destruct (IH (map cell_number t)) as [_ IH2].
        discriminate (IH2 (conj Ht eq_refl)).
    + split; [discriminate|intros [H _]; discriminate].
Qed.

Lemma combine_map {A B C} (f : A -> B) (g : A -> C) (l : list A) :
  combine (map f l) (map g l) = map (fun x => (f x, g x)) l.
Proof. induction l as [|x t IH]; simpl; [reflexivity|now rewrite IH]. Qed.

Lemma gst_grouped_ok to_date kp_df series :
  gst_grouped to_date kp_df = Ok series <->
  pd.has_column "observedTime" kp_df = true
  /\ pd.has_column "kpIndex" kp_df = true
  /\ forallb averageable (pd.column "kpIndex" kp_df) = true
  /\ series = mean_series (gst_tidy to_date kp_df).
Proof.
  unfold gst_grouped, pd.getitem, pd.groupby_mean.
  destruct (pd.has_column "observedTime" kp_df);
    [|split; [discriminate|intros [H _]; discriminate]].
  destruct (pd.has_column "kpIndex" kp_df);
    [|split; [discriminate|intros [_ [H _]]; discriminate]].
  assert (E : forall vs, vs = map cell_number (pd.column "kpIndex" kp_df) ->
              map (fun g => (fst g, pd.mean (snd g)))
                (pd.groupby
                   (combine (to_dates to_date
                               (pd.column "observedTime" kp_df)) vs))
              = mean_series (gst_tidy to_date kp_df)).
  { intros vs ->. unfold mean_series, gst_tidy, tidy_row, to_dates, pd.column.
    now rewrite !map_map, combine_map. }
  destruct (pd.to_numeric_all (pd.column "kpIndex" kp_df)) as [vs|e] eqn:Hn.
  - apply to_numeric_all_ok in Hn. destruct Hn as [Hav Hvs].
    rewrite (E vs Hvs). split.
    + intros H. injection H as <-. auto.
    + intros [_ [_ [_ ->]]]. reflexivity.
  - split; [discriminate|]. intros [_ [_ [Hav _]]].
    assert (H : pd.to_numeric_all (pd.column "kpIndex" kp_df)
                = Ok (map cell_number (pd.column "kpIndex" kp_df)))
      by (apply to_numeric_all_ok; auto).
    congruence.
Qed.

(** *** Exploding the readings *)

Lemma dict_get_set_same {V} (k : string) (v : V) (d : dict V) :
  dict_get k (dict_set k v d) = Some v.
Proof.
  induction d as [|[k' v'] t IH]; simpl.
  - now rewrite String.eqb_refl.
  - destruct (k =? k') eqn:E; simpl; rewrite E; [reflexivity|exact IH].
Qed.

Lemma dict_get_remove_same {V} (k : string) (d : dict V) :
  dict_get k (dict_remove k d) = None.
Proof.
  induction d as [|[k' v'] t IH]; simpl; [reflexivity|].
  destruct (k =? k') eqn:E; simpl; [exact IH|]. now rewrite E.
Qed.

Lemma explode_row_cells (c : string) (r : dict json) :
  map (dict_get c) (pd.explode_row c r) = explode_cell (dict_get c r).
Proof.
  unfold pd.explode_row, explode_cell.
  destruct (dict_get c r) as [[| | | |[|x xs]|]|] eqn:E;
    cbn [map]; rewrite ?E, ?dict_get_remove_same; try reflexivity.
  rewrite dict_get_set_same, map_map. f_equal.
  apply map_ext. intros e. apply dict_get_set_same.
Qed.

Lemma map_of_flat_map {A B C} (f : B -> C) (g : A -> list B) (l : list A) :
  map f (flat_map g l) = flat_map (fun x => map f (g x)) l.
Proof.
  induction l as [|x t IH]; [reflexivity|].
  cbn [flat_map]. now rewrite map_app, IH.
Qed.

Lemma explode_column (c : string) (df : pd.DataFrame) :
  pd.column c (pd.explode c df)
  = flat_map (fun r => explode_cell (dict_get c r)) (pd.rows df).
Proof.
  unfold pd.column, pd.explode. cbn [pd.rows].
  rewrite map_of_flat_map. apply flat_map_ext. intros r.
  apply explode_row_cells.
Qed.

(** The rows of the exploded frame, record by record. *)
Lemma kp_frame_rows (df : pd.DataFrame) :
  pd.rows (kp_frame df)
  = flat_map (fun r =>
                map (fun c => match c with
                              | Some j => pd.simple_json_normalize j
                              | None => []
                              end)
                    (explode_cell (dict_get "allKpIndex" r)))
             (pd.rows df).
Proof.
  unfold kp_frame, pd.json_normalize_series, pd.of_dicts. cbn [pd.rows].
  now rewrite explode_column, map_of_flat_map.
Qed.


Lemma filter_all {A} (p : A -> bool) (l : list A) :
  forallb p l = true -> filter p l = l.
Proof.
  induction l as [|x t IH]; simpl; [reflexivity|].
  rewrite andb_true_iff. intros [-> Ht]. now rewrite IH.
Qed.


Lemma process_list_gst_absent to_date i records w :
  pd.has_column "allKpIndex" (pd.json_normalize records) = false ->
  exists r msgs,
    resolve_date to_date "GST" (pd.json_normalize records) w
    = (Ok r, {| trace := (trace w ++ msgs)%list; cache := cache w |})
    /\ forallb is_notice msgs = true
    /\ process_list to_date i "GST" records w
       = (Ok tt,
          {| trace :=
               (trace w ++ msgs
                ++ [ Main (ErrorBox "No 'allKpIndex' data available to plot.");
                     Main (WriteFrame (pd.json_normalize records)
                             (date_column r)) ])%list;
             cache := cache w |}).
Proof.
  intros Hcol.
  destruct (resolve_date_total to_date "GST" (pd.json_normalize records) w)
    as [r [msgs [Hr Hmsgs]]].
  exists r, msgs. split; [exact Hr|]. split; [exact Hmsgs|].
  unfold process_list. unfold bind at 1. rewrite Hr.
  unfold plot_event.
  change ("GST" =? "CME") with false. rewrite String.eqb_refl.
  unfold plot_gst. rewrite Hcol.
  cbv beta iota zeta delta [bind st_error emit].
  cbn [trace cache]. now rewrite <- !app_assoc.
Qed.

Lemma process_list_gst_drawn to_date i records w series :
  pd.has_column "allKpIndex" (pd.json_normalize records) = true ->
  gst_grouped to_date (kp_frame (pd.json_normalize records)) = Ok series ->
  exists r msgs,
    resolve_date to_date "GST" (pd.json_normalize records) w
    = (Ok r, {| trace := (trace w ++ msgs)%list; cache := cache w |})
    /\ forallb is_notice msgs = true
    /\ process_list to_date i "GST" records w
       = (Ok tt,
          {| trace :=
               (trace w ++ msgs
                ++ [ Main (Markdown "### Selected Event Information");
                     Main (Write (describe_event "GST"
                                    "No description available"));
                     Main (Subheader
                             (selected_event_display i ++ " Kp Index from "
                              ++ isoformat (start_date i) ++ " to "
                              ++ isoformat (end_date i)));
                     Main (PlotlyChart
                             (px_line series "date" "kpIndex"
                                ("Average Kp Index of "
                                 ++ selected_event_display i ++ " Over Time")
                                [ ("date", PyStr "Date");
                                  ("kpIndex", PyStr "Average Kp Index") ]
                                true "plotly_dark"));
                     Main (WriteFrame (pd.json_normalize records)
                             (date_column r)) ])%list;
             cache := cache w |}).
Proof.
  intros Hcol Hser.
  destruct (resolve_date_total to_date "GST" (pd.json_normalize records) w)
    as [r [msgs [Hr Hmsgs]]].
  exists r, msgs. split; [exact Hr|]. split; [exact Hmsgs|].
  unfold process_list. unfold bind at 1. rewrite Hr.
  unfold plot_event.
  change ("GST" =? "CME") with false. rewrite String.eqb_refl.
  unfold plot_gst. rewrite Hcol, Hser.
  cbv beta iota zeta delta
    [bind lift st_markdown st_write st_subheader st_plotly_chart emit].
  cbn [trace cache]. now rewrite <- !app_assoc.
Qed.

(** *** Means

    Rounding to binary64 cannot cross a whole number below 2^53, and such
    numbers are added without rounding. *)

























(** *** A record without the list among records that have it *)

Lemma group_keys_skip_missing (a b : list (option date)) :
  pd.group_keys (a ++ None :: b) = pd.group_keys (a ++ b).
Proof.
  induction a as [|[d|] t IH]; simpl; [reflexivity| |exact IH].
  now rewrite IH.
Qed.

Lemma groupby_skip_missing {V} (X Y : list (option date * V)) (v : V) :
  pd.groupby (X ++ (None, v) :: Y) = pd.groupby (X ++ Y).
Proof.
  unfold pd.groupby. rewrite !map_app. cbn [map fst].
  rewrite group_keys_skip_missing. apply map_ext. intros k.
  unfold pd.group. now rewrite !filter_app.
Qed.

Lemma mem_add_key (k k' : string) (acc : list string) :
  mem k (pd.add_key acc k') = mem k acc || (k =? k').
Proof.
  unfold pd.add_key. destruct (mem k' acc) eqn:E.
  - destruct (k =? k') eqn:Ek; [|now rewrite orb_false_r].
    apply String.eqb_eq in Ek. subst. now rewrite E.
  - unfold mem. rewrite existsb_app. simpl. now rewrite orb_false_r.
Qed.

Lemma union_keys_skip_empty (A B : list (dict json)) :
  pd.union_keys (A ++ [] :: B) = pd.union_keys (A ++ B).
Proof. unfold pd.union_keys. now rewrite !fold_left_app. Qed.

Lemma mem_fold_add_key (k : string) (ks acc : list string) :
  mem k (fold_left pd.add_key ks acc) = mem k acc || mem k ks.
Proof.
  revert acc. induction ks as [|k' t IH]; intros acc; simpl.
  - now rewrite orb_false_r.
  - rewrite IH, mem_add_key. now rewrite orb_assoc.
Qed.

Lemma mem_union_keys (k : string) (rs : list (dict json)) :
  mem k (pd.union_keys rs) = existsb (fun r => mem k (dict_keys r)) rs.
Proof.
  unfold pd.union_keys.
  assert (H : forall acc,
             mem k (fold_left (fun acc r => fold_left pd.add_key (dict_keys r) acc)
                      rs acc)
             = mem k acc || existsb (fun r => mem k (dict_keys r)) rs).
  { induction rs as [|r t IH]; intros acc; simpl.
    - now rewrite orb_false_r.
    - rewrite IH, mem_fold_add_key. now rewrite orb_assoc. }
  now rewrite H.
Qed.

Lemma has_column_more (c : string) (rs1 rs2 : list json) (r : json) :
  pd.has_column c (pd.json_normalize (rs1 ++ rs2)) = true ->
  pd.has_column c (pd.json_normalize (rs1 ++ r :: rs2)) = true.
Proof.
  unfold pd.has_column, pd.json_normalize, pd.of_dicts. cbn [pd.columns].
  rewrite !mem_union_keys, !map_app. cbn [map].
  rewrite !existsb_app. cbn [existsb].
  rewrite !orb_true_iff. tauto.
Qed.

(** The exploded frame with and without the bare record: the same columns,
    and one empty row more. *)
Lemma kp_frame_bare_record (rs1 rs2 : list json) (bare : json) :
  dict_get "allKpIndex" (pd.simple_json_normalize bare) = None ->
  exists A B,
    pd.rows (kp_frame (pd.json_normalize (rs1 ++ rs2))) = (A ++ B)%list
    /\ pd.rows (kp_frame (pd.json_normalize (rs1 ++ bare :: rs2)))
       = (A ++ [] :: B)%list
    /\ pd.columns (kp_frame (pd.json_normalize (rs1 ++ bare :: rs2)))
       = pd.columns (kp_frame (pd.json_normalize (rs1 ++ rs2))).
Proof.
  intros Hbare.
  set (F := fun r : dict json =>
              map (fun c : pd.cell => match c with
                                      | Some j => pd.simple_json_normalize j
                                      | None => []
                                      end)
                  (explode_cell (dict_get "allKpIndex" r))).
  exists (flat_map F (map pd.simple_json_normalize rs1)),
         (flat_map F (map pd.simple_json_normalize rs2)).
  assert (H1 : pd.rows (kp_frame (pd.json_normalize (rs1 ++ rs2)))
               = (flat_map F (map pd.simple_json_normalize rs1)
                  ++ flat_map F (map pd.simple_json_normalize rs2))%list).
  { rewrite kp_frame_rows. unfold pd.json_normalize, pd.of_dicts.
    cbn [pd.rows]. now rewrite map_app, flat_map_app. }
  assert (H2 : pd.rows (kp_frame (pd.json_normalize (rs1 ++ bare :: rs2)))
               = (flat_map F (map pd.simple_json_normalize rs1)
                  ++ [] :: flat_map F (map pd.simple_json_normalize rs2))%list).
  { rewrite kp_frame_rows. unfold pd.json_normalize, pd.of_dicts.
    cbn [pd.rows]. rewrite map_app, flat_map_app. cbn [map flat_map].
    unfold F at 2. now rewrite Hbare. }
  split; [exact H1|]. split; [exact H2|].
  assert (Hc : forall df, pd.columns (kp_frame df)
                          = pd.union_keys (pd.rows (kp_frame df)))
    by reflexivity.
  now rewrite !Hc, H1, H2, union_keys_skip_empty.
Qed.

Lemma gst_grouped_bare_record to_date (rs1 rs2 : list json) (bare : json)
    (series : list (date * pd.num)) :
  dict_get "allKpIndex" (pd.simple_json_normalize bare) = None ->
  gst_grouped to_date (kp_frame (pd.json_normalize (rs1 ++ rs2)))
  = Ok series ->
  gst_grouped to_date (kp_frame (pd.json_normalize (rs1 ++ bare :: rs2)))
  = Ok series.
Proof.
  intros Hbare Hok.
  destruct (kp_frame_bare_record rs1 rs2 bare Hbare) as [A [B [H1 [H2 Hc]]]].
  apply gst_grouped_ok in Hok. destruct Hok as [Ho [Hk [Hav ->]]].
  apply gst_grouped_ok. unfold pd.has_column in *. rewrite Hc.
  split; [exact Ho|]. split; [exact Hk|].
  unfold pd.column, gst_tidy, mean_series in *. rewrite H1 in *. rewrite H2.
  rewrite !map_app, !forallb_app in *. cbn [map forallb].
  split.
  - rewrite andb_true_iff in *. tauto.
  - change (tidy_row to_date []) with (@None date, @None Q).
    now rewrite groupby_skip_missing.
Qed.

(** C7 does not hold as stated.  When the only record has no
    [allKpIndex], the run ends normally with the error box on the page but
    no chart at all; and when a record without the list comes after one
    that has it, the chart is drawn and no warning or error is shown. *)
Lemma gst_bare_record_no_chart_or_no_warning :
  (fst (run iso_date (serve (JArr [ gst_bare ]))
          (may_2024 "GST (Geomagnetic Storm)") []) = Ok tt
   /\ In (Main (ErrorBox "No 'allKpIndex' data available to plot."))
         (trace (snd (run iso_date (serve (JArr [ gst_bare ]))
                        (may_2024 "GST (Geomagnetic Storm)") [])))
   /\ filter is_chart
        (trace (snd (run iso_date (serve (JArr [ gst_bare ]))
                       (may_2024 "GST (Geomagnetic Storm)") [])))
      = [])
  /\ (filter is_notice
        (trace (snd (run iso_date (serve (JArr (gst_one ++ [ gst_bare ])))
                       (may_2024 "GST (Geomagnetic Storm)") [])))
      = []
      /\ filter is_chart
           (trace (snd (run iso_date (serve (JArr (gst_one ++ [ gst_bare ])))
                          (may_2024 "GST (Geomagnetic Storm)") [])))
         = [ Main (PlotlyChart
                     (px_line [ (mkdate 2024 5 3, pd.NFloat 4) ]
                        "date" "kpIndex"
                        "Average Kp Index of GST (Geomagnetic Storm) Over Time"
                        [ ("date", PyStr "Date");
                          ("kpIndex", PyStr "Average Kp Index") ]
                        true "plotly_dark")) ]).
Proof.
  split; [split; [reflexivity|split; [|reflexivity]]|split; reflexivity].
  vm_compute. tauto.
Qed.

(** C7, amended.  For GST the test is on the whole answer, not on each
    record.  When no record carries [allKpIndex], no row is produced, the
    error "No 'allKpIndex' data available to plot." is shown, no chart is
    drawn, and the run goes on to the raw table without raising.  When a
    record without the list stands among records that carry it, the series
    is the one of the other records, the chart is drawn, and nothing is
    said about the record. *)
Theorem gst_missing_readings :
  (forall to_date i records w,
      pd.has_column "allKpIndex" (pd.json_normalize records) = false ->
      exists r msgs,
        resolve_date to_date "GST" (pd.json_normalize records) w
        = (Ok r, {| trace := (trace w ++ msgs)%list; cache := cache w |})
        /\ process_list to_date i "GST" records w
           = (Ok tt,
              {| trace :=
                   (trace w ++ msgs
                    ++ [ Main (ErrorBox
                                 "No 'allKpIndex' data available to plot.");
                         Main (WriteFrame (pd.json_normalize records)
                                 (date_column r)) ])%list;
                 cache := cache w |}))
  /\ (forall to_date i rs1 bare rs2 w series,
         dict_get "allKpIndex" (pd.simple_json_normalize bare) = None ->
         pd.has_column "allKpIndex" (pd.json_normalize (rs1 ++ rs2)) = true ->
         gst_grouped to_date (kp_frame (pd.json_normalize (rs1 ++ rs2)))
         = Ok series ->
         exists r msgs,
           resolve_date to_date "GST"
             (pd.json_normalize (rs1 ++ bare :: rs2)) w
           = (Ok r, {| trace := (trace w ++ msgs)%list; cache := cache w |})
           /\ process_list to_date i "GST" (rs1 ++ bare :: rs2) w
              = (Ok tt,
                 {| trace :=
                      (trace w ++ msgs
                       ++ [ Main (Markdown "### Selected Event Information");
                            Main (Write (describe_event "GST"
                                           "No description available"));
                            Main (Subheader
                                    (selected_event_display i
                                     ++ " Kp Index from "
                                     ++ isoformat (start_date i) ++ " to "
                                     ++ isoformat (end_date i)));
                            Main (PlotlyChart
                                    (px_line series "date" "kpIndex"
                                       ("Average Kp Index of "
                                        ++ selected_event_display i
                                        ++ " Over Time")
                                       [ ("date", PyStr "Date");
                                         ("kpIndex",
                                          PyStr "Average Kp Index") ]
                                       true "plotly_dark"));
                            Main (WriteFrame
                                    (pd.json_normalize (rs1 ++ bare :: rs2))
                                    (date_column r)) ])%list;
                    cache := cache w |})).
Proof.
  split.
  - intros to_date i records w Hcol.
    destruct (process_list_gst_absent to_date i records w Hcol)
      as [r [msgs [Hr [_ E]]]].
    now exists r, msgs.
  - intros to_date i rs1 bare rs2 w series Hbare Hcol Hok.
    destruct (process_list_gst_drawn to_date i (rs1 ++ bare :: rs2) w series)
      as [r [msgs [Hr [_ E]]]].
    + now apply has_column_more.
    + now apply gst_grouped_bare_record.
    + now exists r, msgs.
Qed.

Lemma gst_missing_readings_witness :
  (exists r msgs,
      resolve_date iso_date "GST" (pd.json_normalize [ gst_bare ]) blank
      = (Ok r, {| trace := (trace blank ++ msgs)%list; cache := cache blank |})
      /\ process_list iso_date (may_2024 "GST (Geomagnetic Storm)") "GST"
           [ gst_bare ] blank
         = (Ok tt,
            {| trace :=
                 (trace blank ++ msgs
                  ++ [ Main (ErrorBox
                               "No 'allKpIndex' data available to plot.");
                       Main (WriteFrame (pd.json_normalize [ gst_bare ])
                               (date_column r)) ])%list;
               cache := cache blank |}))
  /\ fst (process_list iso_date (may_2024 "GST (Geomagnetic Storm)") "GST"
            (gst_one ++ [ gst_bare ]) blank) = Ok tt.
Proof.
  split.
  - apply (proj1 gst_missing_readings iso_date
             (may_2024 "GST (Geomagnetic Storm)") [ gst_bare ] blank).
    reflexivity.
  - destruct (proj2 gst_missing_readings iso_date
                (may_2024 "GST (Geomagnetic Storm)") gst_one gst_bare []
                blank [ (mkdate 2024 5 3, pd.NFloat 4) ]
                eq_refl eq_refl eq_refl) as [r [msgs [_ E]]].
    rewrite E. reflexivity.
Defined.

(** *** The order of the columns *)

Lemma dict_keys_set (k : string) (v : json) (d : dict json) :
  dict_keys (dict_set k v d) = pd.add_key (dict_keys d) k.
Proof.
  unfold pd.add_key, dict_keys, mem.
  induction d as [|[k' v'] t IH]; cbn [dict_set map existsb fst].
  - reflexivity.
  - destruct (k =? k') eqn:E; cbn [map fst orb]; [reflexivity|].
    rewrite IH. now destruct (existsb (String.eqb k) (map fst t)).
Qed.

Lemma dict_keys_update (d e : dict json) :
  dict_keys (dict_update d e)
  = fold_left pd.add_key (dict_keys e) (dict_keys d).
Proof.
  unfold dict_update. revert d.
  induction e as [|[k v] t IH]; intros d; [reflexivity|].
  change (dict_keys ((k, v) :: t)) with (k :: dict_keys t).
  cbn [fold_left fst snd]. now rewrite IH, dict_keys_set.
Qed.

(** Induction on a JSON value through the values of its objects. *)
Lemma json_objects_ind (P : json -> Prop) :
  P JNull -> (forall b, P (JBool b)) -> (forall q, P (JNum q)) ->
  (forall s, P (JStr s)) -> (forall xs, P (JArr xs)) ->
  (forall kvs, Forall (fun kv => P (snd kv)) kvs -> P (JObj kvs)) ->
  forall j, P j.
Proof.
  intros Hnull Hbool Hnum Hstr Harr Hobj.
  exact (fix IH (j : json) : P j :=
           match j with
           | JNull => Hnull
           | JBool b => Hbool b
           | JNum q => Hnum q
           | JStr s => Hstr s
           | JArr xs => Harr xs
           | JObj kvs =>
               Hobj kvs
                 ((fix each (l : list (string * json))
                     : Forall (fun kv => P (snd kv)) l :=
                     match l with
                     | [] => Forall_nil _
                     | kv :: t => Forall_cons kv (IH (snd kv)) (each t)
                     end) kvs)
           end).
Qed.

(** Flattening adds the paths of the leaves, in the order of the text, to
    the keys already there. *)
Lemma normalise_json_keys (j : json) :
  forall path acc,
    dict_keys (pd.normalise_json j path acc)
    = fold_left pd.add_key (leaf_paths path j) (dict_keys acc).
Proof.
  induction j as [|b|q|s|xs|kvs IH] using json_objects_ind; intros path acc;
    try (cbn [pd.normalise_json leaf_paths fold_left]; apply dict_keys_set).
  cbn [pd.normalise_json leaf_paths]. revert acc.
  induction IH as [|[k v] t Hv _ IHt]; intros acc; [reflexivity|].
  cbn [snd] in Hv. rewrite fold_left_app, <- Hv.
  apply IHt.
Qed.

Lemma leaf_paths_top (kvs : dict json) :
  leaf_paths "" (JObj kvs)
  = flat_map (fun kv => leaf_paths (fst kv) (snd kv)) kvs.
Proof.
  cbn [leaf_paths]. induction kvs as [|[k v] t IH]; [reflexivity|].
  cbn [flat_map fst snd]. now rewrite IH.
Qed.

Lemma fold_add_key_last (a acc : list string) (k : string) :
  fold_left pd.add_key (pd.add_key a k) acc
  = pd.add_key (fold_left pd.add_key a acc) k.
Proof.
  change (pd.add_key a k) with (if mem k a then a else (a ++ [k])%list).
  destruct (mem k a) eqn:Ea.
  - unfold pd.add_key at 2. now rewrite mem_fold_add_key, Ea, orb_true_r.
  - now rewrite fold_left_app.
Qed.

Lemma fold_add_key_absorb (b a acc : list string) :
  fold_left pd.add_key (fold_left pd.add_key b a) acc
  = fold_left pd.add_key b (fold_left pd.add_key a acc).
Proof.
  revert a. induction b as [|k t IH]; intros a; [reflexivity|].
  cbn [fold_left]. now rewrite IH, fold_add_key_last.
Qed.

(** The keys of a flattened record, added to a column index, are the keys
    of the record in the order of its row. *)
Lemma add_record_keys (r : dict json) (acc : list string) :
  fold_left pd.add_key (dict_keys (pd.normalise_json_ordered r)) acc
  = fold_left pd.add_key (record_keys r) acc.
Proof.
  unfold pd.normalise_json_ordered, record_keys.
  rewrite dict_keys_update, normalise_json_keys, leaf_paths_top.
  rewrite !fold_add_key_absorb, fold_left_app. reflexivity.
Qed.

Lemma union_keys_records (records : list (dict json)) (acc : list string) :
  fold_left (fun acc r => fold_left pd.add_key (dict_keys r) acc)
    (map pd.simple_json_normalize (map JObj records)) acc
  = fold_left pd.add_key (flat_map record_keys records) acc.
Proof.
  revert acc. induction records as [|r t IH]; intros acc; [reflexivity|].
  cbn [map fold_left flat_map pd.simple_json_normalize].
  now rewrite IH, add_record_keys, fold_left_app.
Qed.

Lemma fold_add_key_first_seen (l acc seen : list string) :
  (forall k, mem k seen = mem k acc) ->
  fold_left pd.add_key l acc = (acc ++ first_seen_after seen l)%list.
Proof.
  revert acc seen. induction l as [|k t IH]; intros acc seen H.
  - simpl. now rewrite app_nil_r.
  - cbn [fold_left first_seen_after].
    change (pd.add_key acc k) with (if mem k acc then acc else (acc ++ [k])%list).
    rewrite (H k). destruct (mem k acc) eqn:E.
    + now apply IH.
    + rewrite (IH (acc ++ [k])%list (k :: seen)).
      * now rewrite <- app_assoc.
      * intros k'. unfold mem. rewrite existsb_app. cbn [existsb].
        fold (mem k' seen). fold (mem k' acc).
        rewrite (H k'), orb_false_r. apply orb_comm.
Qed.

(** The columns of the frame of a list of objects: the keys of the records
    in the order of their rows, each at the place of its first
    appearance. *)
Lemma columns_frame_key_order (records : list (dict json)) :
  pd.columns (pd.json_normalize (map JObj records))
  = frame_key_order records.
Proof.
  unfold pd.json_normalize, pd.of_dicts, pd.union_keys. cbn [pd.columns].
  rewrite union_keys_records.
  now rewrite (fold_add_key_first_seen _ [] []).
Qed.

Lemma has_column_record_keys (c : string) (records : list (dict json)) :
  pd.has_column c (pd.json_normalize (map JObj records))
  = mem c (flat_map record_keys records).
Proof.
  unfold pd.has_column, pd.json_normalize, pd.of_dicts, pd.union_keys.
  cbn [pd.columns]. rewrite union_keys_records.
  now rewrite mem_fold_add_key.
Qed.

Lemma mem_In (k : string) (l : list string) : mem k l = true <-> In k l.
Proof.
  unfold mem. rewrite existsb_exists. split.
  - intros [x [Hx E]]. apply String.eqb_eq in E. now subst.
  - intros H. exists k. split; [exact H|apply String.eqb_refl].
Qed.

Lemma frame_key_order_In (k : string) (records : list (dict json)) :
  In k (frame_key_order records) <-> In k (flat_map record_keys records).
Proof.
  rewrite <- columns_frame_key_order, <- !mem_In.
  now rewrite <- has_column_record_keys.
Qed.

(** *** The date column, parsed as a whole *)

(** The definitions that read dates value by value are those of [col] for
    a parser that never raises. *)
Lemma col_value_by_value to_date :
  (forall code df,
      col.resolve_date (col.value_by_value to_date) code df
      = resolve_date to_date code df)
  /\ (forall kp_df,
         col.gst_grouped (col.value_by_value to_date) kp_df
         = gst_grouped to_date kp_df)
  /\ (forall i code y df,
         col.plot_gst (col.value_by_value to_date) i code y df
         = plot_gst to_date i code y df)
  /\ (forall i code data,
         col.process_list (col.value_by_value to_date) i code data
         = process_list to_date i code data).
Proof.
  repeat split; reflexivity.
Qed.

Lemma col_resolve_date_present to_datetime code df w f :
  date_field_of code = Some f -> pd.has_column f df = true ->
  col.resolve_date to_datetime code df w
  = match to_datetime (pd.column f df) with
    | Ok dates =>
        (Ok {| date_field := Some f;
               possible_keys := None;
               date_column := dates |}, w)
    | Raise e => (Raise e, w)
    end.
Proof.
  intros Hf Hcol. unfold col.resolve_date.
  rewrite Hf, (date_field_truthy code f Hf), Hcol. cbn [andb].
  unfold bind, lift, ret. now destruct (to_datetime (pd.column f df)).
Qed.

Lemma col_resolve_date_fallback to_datetime code df w :
  field_present code df = false ->
  col.resolve_date to_datetime code df w
  = match filter is_date_like (pd.columns df) with
    | first :: _ =>
        let warned :=
          {| trace :=
               (trace w
                ++ [ Main (WarningBox
                             ("Using '" ++ first ++ "' as the date field")) ])%list;
             cache := cache w |} in
        match to_datetime (pd.column first df) with
        | Ok dates =>
            (Ok {| date_field := Some first;
                   possible_keys := Some (filter is_date_like (pd.columns df));
                   date_column := dates |}, warned)
        | Raise e => (Raise e, warned)
        end
    | [] =>
        (Ok {| date_field := date_field_of code;
               possible_keys := Some [];
               date_column := map (fun _ => None) (pd.rows df) |},
         {| trace :=
              (trace w
               ++ [ Main (ErrorBox
                            "No suitable date field found in the data") ])%list;
            cache := cache w |})
    end.
Proof.
  unfold field_present, col.resolve_date. intros H.
  assert (E : (match date_field_of code with
               | Some f => truthy_str f && pd.has_column f df
               | None => false
               end) = false).
  { destruct (date_field_of code); [now rewrite H, andb_false_r|reflexivity]. }
  destruct (date_field_of code) as [f|]; [rewrite E|];
    destruct (filter is_date_like (pd.columns df)) as [|k t];
    try reflexivity;
    cbv beta iota zeta delta [bind lift ret st_warning emit];
    cbn [trace cache];
    now destruct (to_datetime (pd.column k df)).
Qed.

Lemma col_process_list_resolved to_datetime i code data w r w1 :
  col.resolve_date to_datetime code (pd.json_normalize data) w = (Ok r, w1) ->
  col.process_list to_datetime i code data w
  = (col.plot_event to_datetime i code (y_label_of code)
       (pd.json_normalize data) r ;;
     emit (Main (WriteFrame (pd.json_normalize data) (date_column r)))) w1.
Proof. intros H. unfold col.process_list. unfold bind at 1. now rewrite H. Qed.

Lemma col_process_list_raised to_datetime i code data w e w1 :
  col.resolve_date to_datetime code (pd.json_normalize data) w
  = (Raise e, w1) ->
  col.process_list to_datetime i code data w = (Raise e, w1).
Proof. intros H. unfold col.process_list. unfold bind at 1. now rewrite H. Qed.

(** The three ways on from the date column. *)
Lemma col_plot_event_cme to_datetime i y df r ev w :
  (col.plot_event to_datetime i "CME" y df r ;; emit ev) w
  = (Raise (NameError "label"),
     {| trace :=
          (trace w
           ++ [ Main (Markdown "### Selected Event Information");
                Main (Write (describe_event "CME"
                               "No description available."));
                Main (Subheader
                        (selected_event_display i ++ " from "
                         ++ isoformat (start_date i) ++ " to "
                         ++ isoformat (end_date i))) ])%list;
        cache := cache w |}).
Proof.
  unfold col.plot_event. rewrite String.eqb_refl.
  unfold plot_cme, load_name. rewrite label_unbound.
  cbv beta iota zeta delta
    [bind st_markdown st_write st_subheader emit raise].
  cbn [trace cache]. now rewrite <- !app_assoc.
Qed.

Lemma col_plot_event_bar to_datetime i code y df r ev w :
  code <> "CME" -> code <> "GST" ->
  (col.plot_event to_datetime i code y df r ;; emit ev) w
  = (Ok tt,
     {| trace :=
          (trace w
           ++ [ Main (Markdown "### Selected Event Information");
                Main (Write (describe_event code
                               "No description available."));
                Main (Subheader
                        (selected_event_display i ++ " from "
                         ++ isoformat (start_date i) ++ " to "
                         ++ isoformat (end_date i)));
                Main (PlotlyChart
                        (px_bar (pd.groupby_size (date_column r))
                           "date" "count"
                           ("Number of " ++ selected_event_display i
                            ++ " Over Time")
                           [ ("date", PyStr "Date"); ("count", PyStr y) ]
                           "plotly_dark"));
                ev ])%list;
        cache := cache w |}).
Proof.
  intros Hcme Hgst. unfold col.plot_event.
  apply String.eqb_neq in Hcme, Hgst. rewrite Hcme, Hgst.
  assert (E : (if code =? "notifications"
               then plot_count_bar i code y (date_column r)
               else plot_count_bar i code y (date_column r))
              = plot_count_bar i code y (date_column r))
    by now destruct (code =? "notifications").
  rewrite E. unfold plot_count_bar.
  cbv beta iota zeta delta
    [bind st_markdown st_write st_subheader st_plotly_chart emit].
  cbn [trace cache]. now rewrite <- !app_assoc.
Qed.

Lemma col_plot_event_gst_absent to_datetime i y df r ev w :
  pd.has_column "allKpIndex" df = false ->
  (col.plot_event to_datetime i "GST" y df r ;; emit ev) w
  = (Ok tt,
     {| trace :=
          (trace w
           ++ [ Main (ErrorBox "No 'allKpIndex' data available to plot.");
                ev ])%list;
        cache := cache w |}).
Proof.
  intros Hcol. unfold col.plot_event.
  change ("GST" =? "CME") with false. rewrite String.eqb_refl.
  unfold col.plot_gst. rewrite Hcol.
  cbv beta iota zeta delta [bind st_error emit].
  cbn [trace cache]. now rewrite <- !app_assoc.
Qed.

Lemma col_plot_event_gst_present to_datetime i y df r ev w :
  pd.has_column "allKpIndex" df = true ->
  (col.plot_event to_datetime i "GST" y df r ;; emit ev) w
  = match col.gst_grouped to_datetime (kp_frame df) with
    | Ok series =>
        (Ok tt,
         {| trace :=
              (trace w
               ++ [ Main (Markdown "### Selected Event Information");
                    Main (Write (describe_event "GST"
                                   "No description available"));
                    Main (Subheader
                            (selected_event_display i ++ " Kp Index from "
                             ++ isoformat (start_date i) ++ " to "
                             ++ isoformat (end_date i)));
                    Main (PlotlyChart
                            (px_line series "date" "kpIndex"
                               ("Average Kp Index of "
                                ++ selected_event_display i ++ " Over Time")
                               [ ("date", PyStr "Date");
                                 ("kpIndex", PyStr y) ]
                               true "plotly_dark"));
                    ev ])%list;
            cache := cache w |})
    | Raise e => (Raise e, w)
    end.
Proof.
  intros Hcol. unfold col.plot_event.
  change ("GST" =? "CME") with false. rewrite String.eqb_refl.
  unfold col.plot_gst. rewrite Hcol.
  destruct (col.gst_grouped to_datetime (kp_frame df)) as [series|e];
    [|reflexivity].
  cbv beta iota zeta delta
    [bind lift st_markdown st_write st_subheader st_plotly_chart emit].
  cbn [trace cache]. now rewrite <- !app_assoc.
Qed.

Lemma absent_field_present code (records : list (dict json)) :
  (forall f, date_field_of code = Some f ->
             ~ In f (flat_map record_keys records)) ->
  field_present code (pd.json_normalize (map JObj records)) = false.
Proof.
  intros H. unfold field_present.
  destruct (date_field_of code) as [f|]; [|reflexivity].
  rewrite has_column_record_keys.
  destruct (mem f (flat_map record_keys records)) eqn:E; [|reflexivity].
  apply mem_In in E. now destruct (H f eq_refl).
Qed.

Lemma none_date_like (l : list string) :
  (forall c, In c l -> is_date_like c = false) -> filter is_date_like l = [].
Proof.
  intros H. apply filter_none, forallb_forall. intros c Hc.
  now rewrite (H c Hc).
Qed.

Lemma rows_of_records (records : list (dict json)) :
  map (fun _ => @None date) (pd.rows (pd.json_normalize (map JObj records)))
  = map (fun _ => None) records.
Proof.
  unfold pd.json_normalize, pd.of_dicts. cbn [pd.rows].
  now rewrite !map_map.
Qed.

(** C5 does not hold as stated.  The record starts, as sent, with the
    object [meta] that holds a timestamp, so the first key in the order of
    the record whose name contains "date" or "time" is [meta.timestamp];
    the frame lists the plain keys [id] and [eventDate] before the
    flattened one, and the script takes [eventDate]. *)
Lemma first_date_key_in_frame_order_not_record_order :
  original_key_order nested_first = [ "meta.timestamp"; "id"; "eventDate" ]
  /\ first_match is_date_like (original_key_order nested_first)
     = Some "meta.timestamp"
  /\ date_field_of "FLR" = Some "beginTime"
  /\ ~ In "beginTime" (original_key_order nested_first)
  /\ pd.columns (pd.json_normalize [ JObj nested_first ])
     = [ "id"; "eventDate"; "meta.timestamp" ]
  /\ resolve_date iso_date "FLR" (pd.json_normalize [ JObj nested_first ])
       blank
     = (Ok {| date_field := Some "eventDate";
              possible_keys := Some [ "eventDate"; "meta.timestamp" ];
              date_column := [ Some (mkdate 2024 5 2) ] |},
        {| trace := [ Main (WarningBox
                              "Using 'eventDate' as the date field") ];
           cache := [] |})
  /\ col.resolve_date offset_checked "FLR"
       (pd.json_normalize [ JObj nested_first ]) blank
     = (Ok {| date_field := Some "eventDate";
              possible_keys := Some [ "eventDate"; "meta.timestamp" ];
              date_column := [ Some (mkdate 2024 5 2) ] |},
        {| trace := [ Main (WarningBox
                              "Using 'eventDate' as the date field") ];
           cache := [] |}).
Proof.
  repeat split; try reflexivity.
  simpl. intuition discriminate.
Qed.

(** C5, amended.  The date source is resolved over the columns of the
    normalised frame, and these are the keys of the records in the order
    of their rows: per record the top-level keys whose value is not an
    object, then the dotted paths into its nested objects; records in
    order; every key at the place of its first appearance.  The
    descriptor's date field is used when some record has it; otherwise the
    first column whose lower-cased name contains "date" or "time"
    ([is_date_like_spec]) is used, after a warning that names it.  Either
    way the dates are what [pd.to_datetime] makes of that column, and an
    exception raised there ends the run.  When no key contains "date" or
    "time", every row's date is undefined, one error message is shown,
    nothing is raised, and the run goes on with the branch of the event
    type: CME stops at its chart on the unbound name, GST without readings
    shows its message and the raw table, GST with readings draws their
    chart (or stops where line 247 or 248 raises), and every other code
    draws its (empty) bar chart and the raw table. *)
Theorem date_source_in_column_order to_datetime code records w :
  let df := pd.json_normalize (map JObj records) in
  let absent :=
    forall f, date_field_of code = Some f ->
              ~ In f (flat_map record_keys records) in
  let warned k :=
    {| trace :=
         (trace w
          ++ [ Main (WarningBox ("Using '" ++ k ++ "' as the date field")) ])%list;
       cache := cache w |} in
  let failed :=
    {| trace :=
         (trace w
          ++ [ Main (ErrorBox "No suitable date field found in the data") ])%list;
       cache := cache w |} in
  let undated :=
    {| date_field := date_field_of code;
       possible_keys := Some [];
       date_column := map (fun _ => None) records |} in
  pd.columns df = frame_key_order records
  /\ (forall c,
         is_date_like c = true
         <-> exists a b,
               lower c = a ++ "date" ++ b \/ lower c = a ++ "time" ++ b)
  /\ (forall f,
         date_field_of code = Some f ->
         In f (flat_map record_keys records) ->
         col.resolve_date to_datetime code df w
         = match to_datetime (pd.column f df) with
           | Ok dates =>
               (Ok {| date_field := Some f;
                      possible_keys := None;
                      date_column := dates |}, w)
           | Raise e => (Raise e, w)
           end)
  /\ (forall pre k post,
         absent ->
         frame_key_order records = (pre ++ k :: post)%list ->
         (forall c, In c pre -> is_date_like c = false) ->
         is_date_like k = true ->
         col.resolve_date to_datetime code df w
         = match to_datetime (pd.column k df) with
           | Ok dates =>
               (Ok {| date_field := Some k;
                      possible_keys :=
                        Some (filter is_date_like (frame_key_order records));
                      date_column := dates |}, warned k)
           | Raise e => (Raise e, warned k)
           end)
  /\ (absent ->
      (forall c, In c (flat_map record_keys records) ->
                 is_date_like c = false) ->
      col.resolve_date to_datetime code df w = (Ok undated, failed)
      /\ forall i,
           col.process_list to_datetime i code (map JObj records) w
           = (col.plot_event to_datetime i code (y_label_of code) df undated ;;
              emit (Main (WriteFrame df (map (fun _ => None) records))))
               failed
           /\ (code = "CME" ->
               col.process_list to_datetime i code (map JObj records) w
               = (Raise (NameError "label"),
                  {| trace :=
                       (trace failed
                        ++ [ Main (Markdown "### Selected Event Information");
                             Main (Write (describe_event "CME"
                                            "No description available."));
                             Main (Subheader
                                     (selected_event_display i ++ " from "
                                      ++ isoformat (start_date i) ++ " to "
                                      ++ isoformat (end_date i))) ])%list;
                     cache := cache w |}))
           /\ (code = "GST" ->
               ~ In "allKpIndex" (flat_map record_keys records) ->
               col.process_list to_datetime i code (map JObj records) w
               = (Ok tt,
                  {| trace :=
                       (trace failed
                        ++ [ Main (ErrorBox
                                     "No 'allKpIndex' data available to plot.");
                             Main (WriteFrame df
                                     (map (fun _ => None) records)) ])%list;
                     cache := cache w |}))
           /\ (code = "GST" ->
               In "allKpIndex" (flat_map record_keys records) ->
               col.process_list to_datetime i code (map JObj records) w
               = match col.gst_grouped to_datetime (kp_frame df) with
                 | Ok series =>
                     (Ok tt,
                      {| trace :=
                           (trace failed
                            ++ [ Main (Markdown
                                         "### Selected Event Information");
                                 Main (Write (describe_event "GST"
                                                "No description available"));
                                 Main (Subheader
                                         (selected_event_display i
                                          ++ " Kp Index from "
                                          ++ isoformat (start_date i)
                                          ++ " to "
                                          ++ isoformat (end_date i)));
                                 Main (PlotlyChart
                                         (px_line series "date" "kpIndex"
                                            ("Average Kp Index of "
                                             ++ selected_event_display i
                                             ++ " Over Time")
                                            [ ("date", PyStr "Date");
                                              ("kpIndex",
                                               PyStr "Average Kp Index") ]
                                            true "plotly_dark"));
                                 Main (WriteFrame df
                                         (map (fun _ => None) records)) ])%list;
                         cache := cache w |})
                 | Raise e => (Raise e, failed)
                 end)
           /\ (code <> "CME" -> code <> "GST" ->
               col.process_list to_datetime i code (map JObj records) w
               = (Ok tt,
                  {| trace :=
                       (trace failed
                        ++ [ Main (Markdown "### Selected Event Information");
                             Main (Write (describe_event code
                                            "No description available."));
                             Main (Subheader
                                     (selected_event_display i ++ " from "
                                      ++ isoformat (start_date i) ++ " to "
                                      ++ isoformat (end_date i)));
                             Main (PlotlyChart
                                     (px_bar [] "date" "count"
                                        ("Number of "
                                         ++ selected_event_display i
                                         ++ " Over Time")
                                        [ ("date", PyStr "Date");
                                          ("count",
                                           PyStr (y_label_of code)) ]
                                        "plotly_dark"));
                             Main (WriteFrame df
                                     (map (fun _ => None) records)) ])%list;
                     cache := cache w |}))).
Proof.
  cbv zeta.
  split; [apply columns_frame_key_order|].
  split; [exact is_date_like_spec|].
  split; [|split].
  - intros f Hf Hin. apply col_resolve_date_present; [exact Hf|].
    rewrite has_column_record_keys. now apply mem_In.
  - intros pre k post Habs Hcols Hpre Hk.
    rewrite (col_resolve_date_fallback _ _ _ _ (absent_field_present _ _ Habs)).
    rewrite columns_frame_key_order, Hcols, filter_app.
    rewrite (none_date_like pre Hpre). cbn [filter app]. rewrite Hk.
    reflexivity.
  - intros Habs Hnone.
    assert (Hr : col.resolve_date to_datetime code
                   (pd.json_normalize (map JObj records)) w
                 = (Ok {| date_field := date_field_of code;
                          possible_keys := Some [];
                          date_column := map (fun _ => None) records |},
                    {| trace :=
                         (trace w
                          ++ [ Main (ErrorBox
                                 "No suitable date field found in the data") ])%list;
                       cache := cache w |})).
    { rewrite (col_resolve_date_fallback _ _ _ _
                 (absent_field_present _ _ Habs)).
      rewrite columns_frame_key_order, none_date_like.
      - now rewrite rows_of_records.
      - intros c Hc. apply Hnone. now apply frame_key_order_In. }
    split; [exact Hr|]. intros i.
    rewrite (col_process_list_resolved _ _ _ _ _ _ _ Hr). cbn [date_column].
    split; [reflexivity|]. split; [|split; [|split]].
    + intros ->. now rewrite col_plot_event_cme.
    + intros -> Hkp. rewrite col_plot_event_gst_absent; [reflexivity|].
      rewrite has_column_record_keys.
      destruct (mem "allKpIndex" (flat_map record_keys records)) eqn:E;
        [|reflexivity].
      apply mem_In in E. contradiction.
    + intros -> Hkp. rewrite col_plot_event_gst_present.
      * now destruct (col.gst_grouped _ _).
      * rewrite has_column_record_keys. now apply mem_In.
    + intros Hcme Hgst. rewrite col_plot_event_bar by assumption.
      cbn [date_column]. now rewrite groupby_size_all_missing.
Qed.

Lemma date_source_in_column_order_witness :
  col.resolve_date offset_checked "FLR"
    (pd.json_normalize (map JObj two_offsets)) blank
  = (Raise (ValueError "Mixed timezones detected"), blank)
  /\ col.resolve_date offset_checked "FLR"
       (pd.json_normalize (map JObj [ nested_first; linked ])) blank
     = (Ok {| date_field := Some "eventDate";
              possible_keys :=
                Some [ "eventDate"; "meta.timestamp"; "link.eventTime" ];
              date_column := [ Some (mkdate 2024 5 2); None ] |},
        {| trace := [ Main (WarningBox
                              "Using 'eventDate' as the date field") ];
           cache := [] |})
  /\ col.resolve_date offset_checked "FLR"
       (pd.json_normalize (map JObj [ linked ])) blank
     = (Ok {| date_field := Some "link.eventTime";
              possible_keys := Some [ "link.eventTime" ];
              date_column := [ Some (mkdate 2024 5 3) ] |},
        {| trace := [ Main (WarningBox
                              "Using 'link.eventTime' as the date field") ];
           cache := [] |})
  /\ fst (col.process_list offset_checked (may_2024 "FLR (Solar Flare)")
            "FLR"
            (map JObj [ [ ("flrID", JStr "2024-05-01T01:36:00-FLR-001");
                          ("classType", JStr "M1.0") ] ]) blank)
     = Ok tt.
Proof.
  split; [|split; [|split]].
  - rewrite (proj1 (proj2 (proj2 (date_source_in_column_order offset_checked
                                    "FLR" two_offsets blank)))
               "beginTime" eq_refl).
    + reflexivity.
    + simpl. tauto.
  - rewrite (proj1 (proj2 (proj2 (proj2
               (date_source_in_column_order offset_checked
                  "FLR" [ nested_first; linked ] blank))))
               [ "id" ] "eventDate"
               [ "meta.timestamp"; "flrID"; "link.eventTime";
                 "link.source.name" ]).
    + reflexivity.
    + intros f Hf. injection Hf as <-. simpl. intuition discriminate.
    + reflexivity.
    + intros c [<-|[]]. reflexivity.
    + reflexivity.
  - rewrite (proj1 (proj2 (proj2 (proj2
               (date_source_in_column_order offset_checked
                  "FLR" [ linked ] blank))))
               [ "flrID" ] "link.eventTime" [ "link.source.name" ]).
    + reflexivity.
    + intros f Hf. injection Hf as <-. simpl. intuition discriminate.
    + reflexivity.
    + intros c [<-|[]]. reflexivity.
    + reflexivity.
  - destruct (proj2 (proj2 (proj2 (proj2 (date_source_in_column_order
                offset_checked "FLR"
                [ [ ("flrID", JStr "2024-05-01T01:36:00-FLR-001");
                    ("classType", JStr "M1.0") ] ] blank)))))
      as [_ H].
    + intros f Hf. injection Hf as <-. simpl. intuition discriminate.
    + intros c [<-|[<-|[]]]; reflexivity.
    + destruct (H (may_2024 "FLR (Solar Flare)")) as [_ [_ [_ [_ E]]]].
      rewrite E; [reflexivity|discriminate|discriminate].
Defined.

(* ================================================================= *)
(** ** Further properties of the script *)

(** *** What a computation may add to the trace *)

Lemma world_eta (w : world) :
  w = {| trace := (trace w ++ [])%list; cache := cache w |}.
Proof. destruct w. simpl. now rewrite app_nil_r. Qed.

Lemma emits_ret {A} P (a : A) : emits P (ret a).
Proof. intros w. exists []. split; [apply world_eta|reflexivity]. Qed.

Lemma emits_raise {A} P (e : exn) : emits P (@raise A e).
Proof. intros w. exists []. split; [apply world_eta|reflexivity]. Qed.

Lemma emits_lift {A} P (r : result A) : emits P (lift r).
Proof. intros w. exists []. split; [apply world_eta|reflexivity]. Qed.

Lemma emits_emit P (ev : event) : P ev = true -> emits P (emit ev).
Proof.
  intros H w. exists [ev]. split; [reflexivity|]. simpl. now rewrite H.
Qed.

Lemma emits_bind {A B} P (m : M A) (k : A -> M B) :
  emits P m -> (forall a, emits P (k a)) -> emits P (bind m k).
Proof.
  intros Hm Hk w. unfold bind. destruct (Hm w) as [l [Hl Pl]].
  destruct (m w) as [[a|e] w']; simpl in Hl; subst w'.
  - destruct (Hk a {| trace := (trace w ++ l)%list; cache := cache w |})
      as [l' [Hl' Pl']].
    exists (l ++ l')%list. split.
    + rewrite Hl'. simpl. now rewrite app_assoc.
    + rewrite forallb_app. now rewrite Pl, Pl'.
  - exists l. auto.
Qed.

Lemma emits_weaken {A} (P Q : event -> bool) (m : M A) :
  (forall ev, P ev = true -> Q ev = true) -> emits P m -> emits Q m.
Proof.
  intros HPQ Hm w. destruct (Hm w) as [l [Hl Pl]]. exists l.
  split; [exact Hl|]. rewrite forallb_forall in *. auto.
Qed.

Ltac emits :=
  unfold st_markdown, st_write, st_subheader, st_error, st_warning,
    st_success, st_json, st_plotly_chart;
  repeat first
    [ apply emits_ret | apply emits_raise | apply emits_lift
    | apply emits_emit; reflexivity
    | apply emits_bind; [|intros] ].

Lemma emits_resolve_date to_date code df :
  emits is_notice (resolve_date to_date code df).
Proof.
  unfold resolve_date.
  destruct (date_field_of code) as [f|];
    [destruct (truthy_str f && pd.has_column f df); [emits|]|];
    destruct (filter _ _); emits.
Qed.

Lemma emits_plot_cme i code dates globals :
  emits on_main_page (plot_cme i code dates globals).
Proof.
  unfold plot_cme, load_name. emits. destruct (dict_get _ _); emits.
Qed.

Lemma emits_plot_gst to_date i code y df :
  emits on_main_page (plot_gst to_date i code y df).
Proof. unfold plot_gst. destruct (pd.has_column _ _); emits. Qed.

Lemma emits_plot_count_bar i code y dates :
  emits on_main_page (plot_count_bar i code y dates).
Proof. unfold plot_count_bar. emits. Qed.

Lemma notice_on_main_page (ev : event) :
  is_notice ev = true -> on_main_page ev = true.
Proof. destruct ev as [e|e|u p]; simpl; congruence. Qed.

Lemma emits_process_list to_date i code records :
  emits on_main_page (process_list to_date i code records).
Proof.
  unfold process_list. apply emits_bind.
  - eapply emits_weaken; [exact notice_on_main_page|].
    apply emits_resolve_date.
  - intros r. apply emits_bind; [|intros; emits].
    unfold plot_event.
    destruct (code =? "CME"); [apply emits_plot_cme|].
    destruct (code =? "GST"); [apply emits_plot_gst|].
    destruct (code =? "notifications"); apply emits_plot_count_bar.
Qed.

(** *** The fetch *)

Lemma cache_key_eqb_refl (k : cache_key) : cache_key_eqb k k = true.
Proof.
  destruct k as [[[ev s] e] key]. simpl.
  now rewrite !String.eqb_refl, !date_eqb_refl.
Qed.

(** A call that finds nothing stored: one request, then the three ways the
    answer can go. *)
Lemma fetch_miss http_get event s e key w :
  cache_lookup (event, s, e, key) (cache w) = None ->
  fetch_space_weather http_get event s e key w
  = let url := "https://api.nasa.gov/DONKI/" ++ event in
    let params := query_params event s e key in
    let r := http_get url params in
    if (status_code r =? 200)%Z then
      match body_json r with
      | Some j =>
          (Ok j,
           {| trace := (trace w ++ [ HttpGet url params ])%list;
              cache := ((event, s, e, key), {| value := j; replay := [] |})
                       :: cache w |})
      | None =>
          (Raise JSONDecodeError,
           {| trace := (trace w ++ [ HttpGet url params ])%list;
              cache := cache w |})
      end
    else
      (Ok JNull,
       {| trace := (trace w ++ [ HttpGet url params;
                                 Main (ErrorBox (fetch_error_text r)) ])%list;
          cache := ((event, s, e, key),
                    {| value := JNull;
                       replay := [ Main (ErrorBox (fetch_error_text r)) ] |})
                   :: cache w |}).
Proof.
  intros Hmiss. unfold fetch_space_weather. rewrite Hmiss.
  unfold fetch_body, requests_get.
  cbv beta iota zeta delta [bind emit ret st_error raise].
  cbn [trace cache app].
  destruct (status_code _ =? 200)%Z; [destruct (body_json _)|]; reflexivity.
Qed.

Lemma cache_ok_lookup k c e :
  cache_ok c = true -> cache_lookup k c = Some e ->
  forallb on_main_page (replay e) = true.
Proof.
  unfold cache_ok. induction c as [|[k' e'] t IH]; simpl; [discriminate|].
  rewrite andb_true_iff. intros [He Ht].
  destruct (cache_key_eqb k k'); [intros H; injection H as <-; exact He|].
  now apply IH.
Qed.

Lemma main_page_no_request (l : list event) :
  forallb on_main_page l = true ->
  filter is_request l = [] /\ filter is_sidebar l = [].
Proof.
  induction l as [|ev t IH]; simpl; [auto|].
  rewrite andb_true_iff. intros [Hev Ht]. destruct (IH Ht) as [H1 H2].
  destruct ev; try discriminate; simpl; auto.
Qed.

(** What one call adds: at most one request, nothing in the sidebar, and a
    store that is still well formed. *)
Lemma fetch_adds http_get event s e key w :
  cache_ok (cache w) = true ->
  exists l,
    trace (snd (fetch_space_weather http_get event s e key w))
    = (trace w ++ l)%list
    /\ (requests_sent l <= 1)%nat
    /\ filter is_sidebar l = []
    /\ cache_ok (cache (snd (fetch_space_weather http_get event s e key w)))
       = true.
Proof.
  intros Hok.
  destruct (cache_lookup (event, s, e, key) (cache w)) as [en|] eqn:Hl.
  - unfold fetch_space_weather. rewrite Hl. cbn [snd trace cache].
    exists (replay en). split; [reflexivity|].
    destruct (main_page_no_request _ (cache_ok_lookup _ _ _ Hok Hl))
      as [H1 H2].
    unfold requests_sent. rewrite H1. simpl. auto.
  - rewrite (fetch_miss _ _ _ _ _ _ Hl). cbv zeta.
    destruct (status_code _ =? 200)%Z; [destruct (body_json _)|];
      cbn [snd trace cache]; eexists; (split; [reflexivity|]);
      unfold requests_sent; simpl; auto.
Qed.

Lemma emits_after_fetch to_date i code data :
  emits on_main_page
    (if truthy data then
       st_success "Data fetched successfully!" ;;
       st_json data ;;
       match data with
       | JArr records => process_list to_date i code records
       | _ => st_write "No data available for the selected parameters."
       end
     else ret tt).
Proof.
  destruct (truthy data); [|emits].
  do 2 (apply emits_bind; [emits|intros]).
  destruct data; try apply emits_process_list; emits.
Qed.

Lemma bind_adds {A B} (m : M A) (k : A -> M B) (w : world)
    (l : list event) (P : event -> bool) :
  trace (snd (m w)) = (trace w ++ l)%list ->
  (forall a, emits P (k a)) ->
  exists l2,
    snd (bind m k w)
    = {| trace := (trace w ++ l ++ l2)%list; cache := cache (snd (m w)) |}
    /\ forallb P l2 = true.
Proof.
  intros Hl Hk. unfold bind. destruct (m w) as [[a|e] w1]; cbn [snd] in *.
  - destruct (Hk a w1) as [l2 [E P2]]. exists l2. split; [|exact P2].
    rewrite E, Hl. now rewrite app_assoc.
  - exists []. split; [|reflexivity]. rewrite app_nil_r, <- Hl.
    now destruct w1.
Qed.

Lemma on_fetch_adds to_date http_get i code w :
  cache_ok (cache w) = true ->
  exists l,
    trace (snd (on_fetch to_date http_get i code w)) = (trace w ++ l)%list
    /\ (requests_sent l <= 1)%nat
    /\ filter is_sidebar l = []
    /\ cache_ok (cache (snd (on_fetch to_date http_get i code w))) = true.
Proof.
  intros Hok. unfold on_fetch. destruct (negb _).
  - exists [ Main (ErrorBox "Please enter your NASA API Key to proceed.") ].
    simpl. auto.
  - destruct (fetch_adds http_get code (start_date i) (end_date i)
                (api_key i) w Hok) as [l [Hl [Hn [Hs Hc]]]].
    match goal with
    | |- context [bind ?m ?k w] =>
        destruct (bind_adds m k w l on_main_page Hl
                    (emits_after_fetch to_date i code)) as [l2 [E P2]]
    end.
    rewrite E. cbn [snd trace cache]. exists (l ++ l2)%list.
    destruct (main_page_no_request l2 P2) as [H1 H2].
    split; [reflexivity|].
    unfold requests_sent in *. rewrite !filter_app, H1, H2, Hs, !app_nil_r.
    auto.
Qed.

(** The start of a run when the button is not pressed. *)
Lemma run_not_pressed to_date http_get i code c :
  dict_get (selected_event_display i) event_types = Some code ->
  fetch_button i = false ->
  run to_date http_get i c
  = (Ok tt,
     {| trace :=
          ((if date_gtb (start_date i) (end_date i)
            then [Sidebar (ErrorBox "Error: End date must fall after start date.")]
            else [])
           ++ [Sidebar (Write (describe_event code "No description available"))])%list;
        cache := c |}).
Proof.
  intros Hsel Hbtn. unfold run, script. rewrite Hsel, Hbtn.
  cbv beta iota zeta delta [bind lift emit ret trace cache].
  destruct (date_gtb _ _); reflexivity.
Qed.

Lemma on_fetch_failed to_date http_get i code w :
  truthy_str (api_key i) = true ->
  cache_lookup (code, start_date i, end_date i, api_key i) (cache w) = None ->
  status_code (http_get ("https://api.nasa.gov/DONKI/" ++ code)%string
                 (query_params code (start_date i) (end_date i) (api_key i)))
  <> 200%Z ->
  on_fetch to_date http_get i code w
  = (Ok tt,
     {| trace :=
          (trace w
           ++ [ HttpGet ("https://api.nasa.gov/DONKI/" ++ code)%string
                  (query_params code (start_date i) (end_date i) (api_key i));
                Main (ErrorBox
                        (fetch_error_text
                           (http_get ("https://api.nasa.gov/DONKI/" ++ code)%string
                              (query_params code (start_date i) (end_date i)
                                 (api_key i))))) ])%list;
        cache :=
          ((code, start_date i, end_date i, api_key i),
           {| value := JNull;
              replay :=
                [ Main (ErrorBox
                          (fetch_error_text
                             (http_get ("https://api.nasa.gov/DONKI/" ++ code)%string
                                (query_params code (start_date i)
                                   (end_date i) (api_key i))))) ] |})
          :: cache w |}).
Proof.
  intros Hkey Hmiss Hst. apply Z.eqb_neq in Hst.
  unfold on_fetch. rewrite Hkey. cbn [negb]. unfold bind at 1.
  rewrite fetch_miss by exact Hmiss. cbv zeta. rewrite Hst. reflexivity.
Qed.

Lemma on_fetch_non_list to_date body i code w :
  truthy_str (api_key i) = true ->
  cache_lookup (code, start_date i, end_date i, api_key i) (cache w) = None ->
  truthy body = true ->
  (forall records, body <> JArr records) ->
  on_fetch to_date (serve body) i code w
  = (Ok tt,
     {| trace :=
          (trace w
           ++ [ HttpGet ("https://api.nasa.gov/DONKI/" ++ code)%string
                  (query_params code (start_date i) (end_date i) (api_key i));
                Main (SuccessBox "Data fetched successfully!");
                Main (Json body);
                Main (Write
                        "No data available for the selected parameters.") ])%list;
        cache :=
          ((code, start_date i, end_date i, api_key i),
           {| value := body; replay := [] |}) :: cache w |}).
Proof.
  intros Hkey Hmiss Htr Hnl.
  unfold on_fetch. rewrite Hkey. cbn [negb]. unfold bind at 1.
  rewrite fetch_miss_served by exact Hmiss. rewrite Htr.
  destruct body; try (cbv beta iota zeta delta
                        [bind st_success st_json st_write emit];
                      cbn [trace cache]; now rewrite <- !app_assoc).
  exfalso. now apply (Hnl xs).
Qed.

(** X1: without a press of the button, or with an empty key, no request is
    sent and nothing is stored; the main page stays empty, or holds only the
    request for a key. *)
Theorem no_request_without_button_and_key to_date http_get i code c :
  dict_get (selected_event_display i) event_types = Some code ->
  fetch_button i = false \/ truthy_str (api_key i) = false ->
  fst (run to_date http_get i c) = Ok tt
  /\ requests_sent (trace (snd (run to_date http_get i c))) = 0%nat
  /\ cache (snd (run to_date http_get i c)) = c
  /\ filter on_main_page (trace (snd (run to_date http_get i c)))
     = if fetch_button i
       then [ Main (ErrorBox "Please enter your NASA API Key to proceed.") ]
       else [].
Proof.
  intros Hsel H. destruct (fetch_button i) eqn:Hbtn.
  - destruct H as [H|Hkey]; [discriminate|].
    rewrite (run_pressed to_date http_get i code c Hsel Hbtn).
    unfold on_fetch. rewrite Hkey. cbn [negb].
    destruct (date_gtb _ _); repeat split; reflexivity.
  - rewrite (run_not_pressed to_date http_get i code c Hsel Hbtn).
    destruct (date_gtb _ _); repeat split; reflexivity.
Qed.

Lemma no_request_without_button_and_key_witness :
  fst (run iso_date (serve (JArr cme_five))
         {| api_key := ""; selected_event_display := "FLR (Solar Flare)";
            start_date := mkdate 2024 5 1; end_date := mkdate 2024 5 31;
            fetch_button := true |} []) = Ok tt
  /\ requests_sent
       (trace (snd (run iso_date (serve (JArr cme_five))
          {| api_key := ""; selected_event_display := "FLR (Solar Flare)";
             start_date := mkdate 2024 5 1; end_date := mkdate 2024 5 31;
             fetch_button := true |} []))) = 0%nat
  /\ cache (snd (run iso_date (serve (JArr cme_five))
          {| api_key := ""; selected_event_display := "FLR (Solar Flare)";
             start_date := mkdate 2024 5 1; end_date := mkdate 2024 5 31;
             fetch_button := true |} [])) = []
  /\ filter on_main_page
       (trace (snd (run iso_date (serve (JArr cme_five))
          {| api_key := ""; selected_event_display := "FLR (Solar Flare)";
             start_date := mkdate 2024 5 1; end_date := mkdate 2024 5 31;
             fetch_button := true |} [])))
     = [ Main (ErrorBox "Please enter your NASA API Key to proceed.") ].
Proof.
  apply (no_request_without_button_and_key iso_date (serve (JArr cme_five))
           {| api_key := ""; selected_event_display := "FLR (Solar Flare)";
              start_date := mkdate 2024 5 1; end_date := mkdate 2024 5 31;
              fetch_button := true |} "FLR" []).
  - reflexivity.
  - right. reflexivity.
Defined.

(** X2: when the service answers with a status other than 200, the run
    ends normally after one request and the main page holds exactly one
    element, the error box with the status and the body; no success
    message, no chart, no table. *)
Theorem http_failure_shows_error_only to_date http_get i code c :
  dict_get (selected_event_display i) event_types = Some code ->
  fetch_button i = true ->
  truthy_str (api_key i) = true ->
  cache_lookup (code, start_date i, end_date i, api_key i) c = None ->
  status_code (http_get ("https://api.nasa.gov/DONKI/" ++ code)
                 (query_params code (start_date i) (end_date i) (api_key i)))
  <> 200%Z ->
  fst (run to_date http_get i c) = Ok tt
  /\ requests_sent (trace (snd (run to_date http_get i c))) = 1%nat
  /\ filter on_main_page (trace (snd (run to_date http_get i c)))
     = [ Main (ErrorBox
                 (fetch_error_text
                    (http_get ("https://api.nasa.gov/DONKI/" ++ code)
                       (query_params code (start_date i) (end_date i)
                          (api_key i))))) ].
Proof.
  intros Hsel Hbtn Hkey Hmiss Hst.
  rewrite (run_pressed to_date http_get i code c Hsel Hbtn).
  rewrite on_fetch_failed by assumption.
  destruct (date_gtb _ _); repeat split; reflexivity.
Qed.

Lemma http_failure_shows_error_only_witness :
  fst (run iso_date (fun _ _ => mkresponse 403 "API_KEY_INVALID" None)
         (may_2024 "FLR (Solar Flare)") []) = Ok tt
  /\ requests_sent
       (trace (snd (run iso_date
                      (fun _ _ => mkresponse 403 "API_KEY_INVALID" None)
                      (may_2024 "FLR (Solar Flare)") []))) = 1%nat
  /\ filter on_main_page
       (trace (snd (run iso_date
                      (fun _ _ => mkresponse 403 "API_KEY_INVALID" None)
                      (may_2024 "FLR (Solar Flare)") [])))
     = [ Main (ErrorBox "Error fetching data: 403 - API_KEY_INVALID") ].
Proof.
  apply (http_failure_shows_error_only iso_date
           (fun _ _ => mkresponse 403 "API_KEY_INVALID" None)
           (may_2024 "FLR (Solar Flare)") "FLR" []);
    try reflexivity.
  discriminate.
Defined.

(** X3: when the service answers 200 with JSON that is truthy but not a
    list, the main page holds the success message, the raw JSON and the
    message "No data available for the selected parameters."; nothing is
    normalised or drawn. *)
Theorem non_list_answer_reports_no_data to_date body i code c :
  dict_get (selected_event_display i) event_types = Some code ->
  fetch_button i = true ->
  truthy_str (api_key i) = true ->
  cache_lookup (code, start_date i, end_date i, api_key i) c = None ->
  truthy body = true ->
  (forall records, body <> JArr records) ->
  fst (run to_date (serve body) i c) = Ok tt
  /\ filter on_main_page (trace (snd (run to_date (serve body) i c)))
     = [ Main (SuccessBox "Data fetched successfully!");
         Main (Json body);
         Main (Write "No data available for the selected parameters.") ].
Proof.
  intros Hsel Hbtn Hkey Hmiss Htr Hnl.
  rewrite (run_pressed to_date _ i code c Hsel Hbtn).
  rewrite on_fetch_non_list by assumption.
  destruct (date_gtb _ _); split; reflexivity.
Qed.

Lemma non_list_answer_reports_no_data_witness :
  fst (run iso_date
         (serve (JObj [ ("error", JStr "OVER_RATE_LIMIT") ]))
         (may_2024 "FLR (Solar Flare)") []) = Ok tt
  /\ filter on_main_page
       (trace (snd (run iso_date
                      (serve (JObj [ ("error", JStr "OVER_RATE_LIMIT") ]))
                      (may_2024 "FLR (Solar Flare)") [])))
     = [ Main (SuccessBox "Data fetched successfully!");
         Main (Json (JObj [ ("error", JStr "OVER_RATE_LIMIT") ]));
         Main (Write "No data available for the selected parameters.") ].
Proof.
  apply (non_list_answer_reports_no_data iso_date
           (JObj [ ("error", JStr "OVER_RATE_LIMIT") ])
           (may_2024 "FLR (Solar Flare)") "FLR" []);
    try reflexivity.
  discriminate.
Defined.

(** X4: a 200 answer whose body is not JSON makes [response.json()] raise:
    the run stops on that exception right after the request, with nothing
    on the main page and nothing stored, so the next run asks again. *)
Theorem undecodable_body_aborts_unstored to_date http_get i code c :
  dict_get (selected_event_display i) event_types = Some code ->
  fetch_button i = true ->
  truthy_str (api_key i) = true ->
  cache_lookup (code, start_date i, end_date i, api_key i) c = None ->
  status_code (http_get ("https://api.nasa.gov/DONKI/" ++ code)
                 (query_params code (start_date i) (end_date i) (api_key i)))
  = 200%Z ->
  body_json (http_get ("https://api.nasa.gov/DONKI/" ++ code)
               (query_params code (start_date i) (end_date i) (api_key i)))
  = None ->
  fst (run to_date http_get i c) = Raise JSONDecodeError
  /\ requests_sent (trace (snd (run to_date http_get i c))) = 1%nat
  /\ filter on_main_page (trace (snd (run to_date http_get i c))) = []
  /\ cache (snd (run to_date http_get i c)) = c.
Proof.
  intros Hsel Hbtn Hkey Hmiss Hst Hbody.
  rewrite (run_pressed to_date http_get i code c Hsel Hbtn).
  assert (E : forall w,
             cache_lookup (code, start_date i, end_date i, api_key i)
               (cache w) = None ->
             on_fetch to_date http_get i code w
             = (Raise JSONDecodeError,
                {| trace :=
                     (trace w
                      ++ [ HttpGet ("https://api.nasa.gov/DONKI/" ++ code)%string
                             (query_params code (start_date i) (end_date i)
                                (api_key i)) ])%list;
                   cache := cache w |})).
  { intros w Hw. unfold on_fetch. rewrite Hkey. cbn [negb].
    unfold bind at 1. rewrite fetch_miss by exact Hw. cbv zeta.
    now rewrite Hst, Hbody. }
  rewrite E by exact Hmiss.
  destruct (date_gtb _ _); repeat split; reflexivity.
Qed.

Lemma undecodable_body_aborts_unstored_witness :
  fst (run iso_date (fun _ _ => mkresponse 200 "<html>maintenance</html>" None)
         (may_2024 "FLR (Solar Flare)") []) = Raise JSONDecodeError
  /\ requests_sent
       (trace (snd (run iso_date
                      (fun _ _ => mkresponse 200 "<html>maintenance</html>" None)
                      (may_2024 "FLR (Solar Flare)") []))) = 1%nat
  /\ filter on_main_page
       (trace (snd (run iso_date
                      (fun _ _ => mkresponse 200 "<html>maintenance</html>" None)
                      (may_2024 "FLR (Solar Flare)") []))) = []
  /\ cache (snd (run iso_date
                   (fun _ _ => mkresponse 200 "<html>maintenance</html>" None)
                   (may_2024 "FLR (Solar Flare)") [])) = [].
Proof.
  apply (undecodable_body_aborts_unstored iso_date
           (fun _ _ => mkresponse 200 "<html>maintenance</html>" None)
           (may_2024 "FLR (Solar Flare)") "FLR" []);
    reflexivity.
Defined.

(** X5: once a call of [fetch_space_weather] has returned a value, the same
    call on the state it left returns the same value, sends no request and
    leaves the store as it is; what it shows again are page elements (the
    error box of a failed fetch). *)
Theorem repeated_fetch_is_served_from_store http_get event s e key w v w1 :
  cache_ok (cache w) = true ->
  fetch_space_weather http_get event s e key w = (Ok v, w1) ->
  exists shown,
    fetch_space_weather http_get event s e key w1
    = (Ok v, {| trace := (trace w1 ++ shown)%list; cache := cache w1 |})
    /\ forallb on_main_page shown = true
    /\ requests_sent shown = 0%nat.
Proof.
  intros Hok H.
  assert (Hs : exists en,
             cache_lookup (event, s, e, key) (cache w1) = Some en
             /\ value en = v
             /\ forallb on_main_page (replay en) = true).
  { destruct (cache_lookup (event, s, e, key) (cache w)) as [en|] eqn:Hl.
    - unfold fetch_space_weather in H. rewrite Hl in H.
      injection H as <- <-. cbn [cache]. exists en.
      split; [exact Hl|]. split; [reflexivity|].
      now apply (cache_ok_lookup _ _ _ Hok Hl).
    - rewrite (fetch_miss _ _ _ _ _ _ Hl) in H. cbv zeta in H.
      destruct (status_code _ =? 200)%Z; [destruct (body_json _)|];
        try discriminate; injection H as <- <-; cbn [cache cache_lookup];
        rewrite cache_key_eqb_refl; eexists; repeat split; reflexivity. }
  destruct Hs as [en [Hl [Hv Hp]]]. exists (replay en).
  unfold fetch_space_weather. rewrite Hl, Hv.
  split; [reflexivity|]. split; [exact Hp|].
  unfold requests_sent.
  now rewrite (proj1 (main_page_no_request _ Hp)).
Qed.

Lemma repeated_fetch_is_served_from_store_witness :
  exists shown,
    fetch_space_weather (fun _ _ => mkresponse 429 "OVER_RATE_LIMIT" None)
      "FLR" (mkdate 2024 5 1) (mkdate 2024 5 31) "DEMO_KEY"
      (snd (fetch_space_weather
              (fun _ _ => mkresponse 429 "OVER_RATE_LIMIT" None)
              "FLR" (mkdate 2024 5 1) (mkdate 2024 5 31) "DEMO_KEY" blank))
    = (Ok JNull,
       {| trace :=
            (trace (snd (fetch_space_weather
                           (fun _ _ => mkresponse 429 "OVER_RATE_LIMIT" None)
                           "FLR" (mkdate 2024 5 1) (mkdate 2024 5 31)
                           "DEMO_KEY" blank)) ++ shown)%list;
          cache :=
            cache (snd (fetch_space_weather
                          (fun _ _ => mkresponse 429 "OVER_RATE_LIMIT" None)
                          "FLR" (mkdate 2024 5 1) (mkdate 2024 5 31)
                          "DEMO_KEY" blank)) |})
    /\ forallb on_main_page shown = true
    /\ requests_sent shown = 0%nat.
Proof.
  apply (repeated_fetch_is_served_from_store
           (fun _ _ => mkresponse 429 "OVER_RATE_LIMIT" None)
           "FLR" (mkdate 2024 5 1) (mkdate 2024 5 31) "DEMO_KEY" blank JNull);
    reflexivity.
Defined.

(** X6: a run sends at most one request, whatever the inputs, the service
    and the (well-formed) store: nothing is retried and nothing is fetched
    while the answer is reshaped and drawn. *)
Theorem at_most_one_request_per_run to_date http_get i c :
  cache_ok c = true ->
  (requests_sent (trace (snd (run to_date http_get i c))) <= 1)%nat.
Proof.
  intros Hok.
  destruct (dict_get (selected_event_display i) event_types) as [code|]
    eqn:Hsel.
  - destruct (fetch_button i) eqn:Hbtn.
    + rewrite (run_pressed to_date http_get i code c Hsel Hbtn).
      match goal with
      | |- context [on_fetch _ _ _ _ ?w] =>
          destruct (on_fetch_adds to_date http_get i code w Hok)
            as [l [Hl [Hn _]]]
      end.
      rewrite Hl. cbn [trace]. unfold requests_sent in *.
      rewrite !filter_app.
      destruct (date_gtb _ _); simpl; exact Hn.
    + rewrite (run_not_pressed to_date http_get i code c Hsel Hbtn).
      unfold requests_sent. destruct (date_gtb _ _); simpl; lia.
  - unfold run, script. rewrite Hsel. unfold requests_sent. simpl. lia.
Qed.

Lemma at_most_one_request_per_run_witness :
  (requests_sent
     (trace (snd (run iso_date (serve (JArr cme_five))
                    (may_2024 "FLR (Solar Flare)") []))) <= 1)%nat.
Proof.
  apply (at_most_one_request_per_run iso_date (serve (JArr cme_five))
           (may_2024 "FLR (Solar Flare)") []).
  reflexivity.
Defined.

Lemma date_gtb_later_day (a b : date) :
  date_gtb a b = true <-> later_day a b.
Proof.
  unfold later_day, date_gtb, date_ltb.
  rewrite !orb_true_iff, !andb_true_iff, !orb_true_iff, !andb_true_iff,
    !Z.ltb_lt, !Z.eqb_eq.
  intuition lia.
Qed.

(** X7: the sidebar shows the range error exactly when the start date is a
    later day than the end date; equal dates show no error; and the sidebar
    of a run holds nothing but that error, if any, and the description of
    the event: nothing the button handler does adds to the sidebar. *)
Theorem range_error_shown_iff_inverted to_date http_get i code c :
  dict_get (selected_event_display i) event_types = Some code ->
  cache_ok c = true ->
  (In (Sidebar (ErrorBox "Error: End date must fall after start date."))
      (trace (snd (run to_date http_get i c)))
   <-> later_day (start_date i) (end_date i))
  /\ (start_date i = end_date i ->
      ~ In (Sidebar (ErrorBox "Error: End date must fall after start date."))
           (trace (snd (run to_date http_get i c))))
  /\ (later_day (start_date i) (end_date i) ->
      filter is_sidebar (trace (snd (run to_date http_get i c)))
      = [ Sidebar (ErrorBox "Error: End date must fall after start date.");
          Sidebar (Write (describe_event code "No description available")) ])
  /\ (~ later_day (start_date i) (end_date i) ->
      filter is_sidebar (trace (snd (run to_date http_get i c)))
      = [ Sidebar (Write (describe_event code "No description available")) ]).
Proof.
  intros Hsel Hok.
  assert (Hside : exists l,
             trace (snd (run to_date http_get i c))
             = (((if date_gtb (start_date i) (end_date i)
                  then [ Sidebar (ErrorBox
                           "Error: End date must fall after start date.") ]
                  else [])
                 ++ [ Sidebar (Write (describe_event code
                                        "No description available")) ])
                ++ l)%list
             /\ filter is_sidebar l = []).
  { destruct (fetch_button i) eqn:Hbtn.
    - rewrite (run_pressed to_date http_get i code c Hsel Hbtn).
      match goal with
      | |- context [on_fetch _ _ _ _ ?w] =>
          destruct (on_fetch_adds to_date http_get i code w Hok)
            as [l [Hl [_ [Hs _]]]]
      end.
      exists l. split; [exact Hl|exact Hs].
    - rewrite (run_not_pressed to_date http_get i code c Hsel Hbtn).
      exists []. cbn [snd trace]. now rewrite app_nil_r. }
  destruct Hside as [l [Hl Hs]]. rewrite Hl.
  assert (Hno : ~ In (Sidebar (ErrorBox
                        "Error: End date must fall after start date.")) l).
  { intros Hin.
    assert (H : In (Sidebar (ErrorBox
                      "Error: End date must fall after start date."))
                   (filter is_sidebar l)) by (apply filter_In; auto).
    now rewrite Hs in H. }
  pose proof (date_gtb_later_day (start_date i) (end_date i)) as Hgt.
  assert (Heq : start_date i = end_date i ->
                date_gtb (start_date i) (end_date i) = false).
  { intros E. rewrite E. unfold date_gtb, date_ltb.
    now rewrite !Z.ltb_irrefl, !andb_false_r. }
  rewrite !filter_app, Hs, app_nil_r.
  destruct (date_gtb (start_date i) (end_date i)).
  - repeat split.
    + intros _. now apply Hgt.
    + intros _. simpl. auto.
    + intros E. discriminate (Heq E).
    + intros H. exfalso. apply H. now apply Hgt.
  - repeat split.
    + intros H. apply in_app_or in H. destruct H as [H|H]; [|contradiction].
      simpl in H. destruct H as [H|[]]. discriminate.
    + intros H. apply Hgt in H. discriminate.
    + intros _ H. apply in_app_or in H. destruct H as [H|H]; [|contradiction].
      simpl in H. destruct H as [H|[]]. discriminate.
    + intros H. apply Hgt in H. discriminate.
Qed.

Lemma range_error_shown_iff_inverted_witness :
  filter is_sidebar
    (trace (snd (run iso_date (serve (JArr cme_five))
                   (may_2024_inverted "FLR (Solar Flare)") [])))
  = [ Sidebar (ErrorBox "Error: End date must fall after start date.");
      Sidebar (Write (describe_event "FLR" "No description available")) ]
  /\ ~ In (Sidebar (ErrorBox "Error: End date must fall after start date."))
          (trace (snd (run iso_date (serve (JArr cme_five))
                         {| api_key := "DEMO_KEY";
                            selected_event_display := "FLR (Solar Flare)";
                            start_date := mkdate 2024 5 31;
                            end_date := mkdate 2024 5 31;
                            fetch_button := true |} []))).
Proof.
  split.
  - apply (proj1 (proj2 (proj2
             (range_error_shown_iff_inverted iso_date (serve (JArr cme_five))
                (may_2024_inverted "FLR (Solar Flare)") "FLR" []
                eq_refl eq_refl)))).
    unfold later_day. simpl. lia.
  - apply (proj1 (proj2
             (range_error_shown_iff_inverted iso_date (serve (JArr cme_five))
                {| api_key := "DEMO_KEY";
                   selected_event_display := "FLR (Solar Flare)";
                   start_date := mkdate 2024 5 31;
                   end_date := mkdate 2024 5 31;
                   fetch_button := true |} "FLR" [] eq_refl eq_refl))).
    reflexivity.
Defined.

(** *** The aggregated series *)

Lemma ascending_strongly_sorted (l : list date) :
  ascending l -> StronglySorted date_lt l.
Proof.
  induction 1 as [|d|a b t Hab Ht IH].
  - constructor.
  - constructor; constructor.
  - constructor; [exact IH|]. constructor; [exact Hab|].
    inversion IH as [|? ? _ Hall]; subst.
    eapply Forall_impl; [|exact Hall].
    intros c Hbc. now apply (date_lt_trans a b c).
Qed.

Lemma strongly_sorted_nodup (l : list date) :
  StronglySorted date_lt l -> NoDup l.
Proof.
  induction 1 as [|a t _ IH Hall]; constructor; [|exact IH].
  intros Hin. rewrite Forall_forall in Hall.
  exact (date_lt_irrefl a (Hall a Hin)).
Qed.

(** X8: the dates of an aggregated series are strictly increasing, hence
    without repetition: for the count series of lines 230, 264 and 278 and
    for the mean series of line 248 whenever it is produced. *)
Theorem series_dates_strictly_increasing :
  (forall dates,
      StronglySorted date_lt (map fst (pd.groupby_size dates))
      /\ NoDup (map fst (pd.groupby_size dates)))
  /\ (forall to_date kp_df series,
         gst_grouped to_date kp_df = Ok series ->
         StronglySorted date_lt (map fst series)
         /\ NoDup (map fst series)).
Proof.
  split.
  - intros dates.
    pose proof (ascending_strongly_sorted _ (groupby_size_ascending dates)).
    split; [assumption|now apply strongly_sorted_nodup].
  - intros to_date kp_df series Hok. apply gst_grouped_ok in Hok.
    destruct Hok as [_ [_ [_ ->]]].
    pose proof (ascending_strongly_sorted _
                  (mean_series_ascending (gst_tidy to_date kp_df))).
    split; [assumption|now apply strongly_sorted_nodup].
Qed.

Lemma series_dates_strictly_increasing_witness :
  StronglySorted date_lt [ mkdate 2024 5 3 ]
  /\ NoDup [ mkdate 2024 5 3 ].
Proof.
  apply (proj2 series_dates_strictly_increasing iso_date
           (kp_frame (pd.json_normalize gst_one))
           [ (mkdate 2024 5 3, pd.NFloat 4) ]).
  reflexivity.
Defined.

Lemma group_length (k : date) (dates : list (option date)) :
  List.length (pd.group k (map (fun d => (d, tt)) dates)) = rows_on k dates.
Proof.
  unfold pd.group, rows_on. rewrite length_map.
  induction dates as [|od t IH]; simpl; [reflexivity|].
  destruct (pd.in_group k od); simpl; now rewrite IH.
Qed.

(** The count series, date by date. *)
Lemma groupby_size_eq (dates : list (option date)) :
  pd.groupby_size dates
  = map (fun k => (k, pd.NInt (Z.of_nat (rows_on k dates))))
        (pd.group_keys dates).
Proof.
  unfold pd.groupby_size, pd.groupby. rewrite !map_map. cbn [fst snd].
  rewrite map_id. apply map_ext. intros k. now rewrite group_length.
Qed.

Lemma rows_on_positive (d : date) (dates : list (option date)) :
  In (Some d) dates <-> (1 <= rows_on d dates)%nat.
Proof.
  unfold rows_on. induction dates as [|od t IH]; simpl.
  - split; [tauto|lia].
  - destruct (pd.in_group d od) eqn:E; simpl.
    + split; [lia|]. intros _. left.
      destruct od as [d'|]; [|discriminate]. simpl in E.
      apply date_eqb_eq in E. now subst.
    + rewrite <- IH. split; [|tauto].
      intros [H|H]; [|exact H]. subst od. simpl in E.
      now rewrite date_eqb_refl in E.
Qed.


Lemma sum_over_ext (f g : date -> nat) (ks : list date) :
  (forall k, f k = g k) -> sum_over f ks = sum_over g ks.
Proof. intros H. induction ks; simpl; [reflexivity|now rewrite H, IHks]. Qed.

Lemma sum_over_plus (f g : date -> nat) (ks : list date) :
  sum_over (fun k => (f k + g k)%nat) ks
  = (sum_over f ks + sum_over g ks)%nat.
Proof. induction ks; simpl; [reflexivity|rewrite IHks; lia]. Qed.

Lemma sum_over_zero (ks : list date) : sum_over (fun _ => 0%nat) ks = 0%nat.
Proof. induction ks; simpl; auto. Qed.

Lemma sum_over_indicator (d : date) (ks : list date) :
  NoDup ks -> In d ks ->
  sum_over (fun k => if date_eqb d k then 1%nat else 0%nat) ks = 1%nat.
Proof.
  induction 1 as [|k t Hk Ht IH]; simpl; [tauto|].
  intros [->|Hin].
  - rewrite date_eqb_refl.
    replace (sum_over _ t) with 0%nat; [reflexivity|].
    symmetry. rewrite <- (sum_over_zero t) at 1. 
    clear IH Ht. induction t as [|x t IH]; simpl; [reflexivity|].
    destruct (date_eqb d x) eqn:E.
    + apply date_eqb_eq in E. subst. exfalso. apply Hk. now left.
    + simpl. apply IH. intros H. apply Hk. now right.
  - destruct (date_eqb d k) eqn:E.
    + apply date_eqb_eq in E. subst. contradiction.
    + simpl. now apply IH.
Qed.

Lemma sum_rows_on (ks : list date) (dates : list (option date)) :
  NoDup ks -> (forall d, In (Some d) dates -> In d ks) ->
  sum_over (fun k => rows_on k dates) ks = dated dates.
Proof.
  intros Hnd. induction dates as [|od t IH]; intros Hall.
  - unfold rows_on, dated. simpl. apply sum_over_zero.
  - assert (Ht : forall d, In (Some d) t -> In d ks)
      by (intros d Hd; apply Hall; now right).
    specialize (IH Ht). destruct od as [d|].
    + rewrite (sum_over_ext _
                 (fun k => ((if date_eqb d k then 1 else 0) + rows_on k t)%nat)).
      * rewrite sum_over_plus, IH, sum_over_indicator;
          [reflexivity|exact Hnd|apply Hall; now left].
      * intros k. unfold rows_on. simpl. now destruct (date_eqb d k).
    + change (dated (None :: t)) with (dated t).
      rewrite <- IH. apply sum_over_ext. intros k. reflexivity.
Qed.

(** X10: the values of a count series add up to the number of rows that
    have a date: every dated row is counted once, and the rows whose date
    did not parse are the only ones left out. *)
Theorem count_series_accounts_for_every_dated_row dates :
  series_total (pd.groupby_size dates) = Z.of_nat (dated dates).
Proof.
  rewrite groupby_size_eq.
  rewrite <- (sum_rows_on (pd.group_keys dates) dates).
  - induction (pd.group_keys dates) as [|k t IH]; [reflexivity|].
    cbn [map series_total fold_right snd sum_over].
    fold (series_total
            (map (fun k => (k, pd.NInt (Z.of_nat (rows_on k dates)))) t)).
    rewrite IH. lia.
  - apply strongly_sorted_nodup, ascending_strongly_sorted,
      ascending_group_keys.
  - intros d. apply in_group_keys.
Qed.

(** *** Columns of the frame *)

Lemma mem_keys_get (k : string) (r : dict json) :
  mem k (dict_keys r) = true <-> dict_get k r <> None.
Proof.
  unfold mem, dict_keys. induction r as [|[k' v] t IH]; simpl.
  - split; [discriminate|congruence].
  - destruct (k =? k'); simpl; [split; [discriminate|reflexivity]|exact IH].
Qed.

(** X12: a name is a column of the normalised frame exactly when some
    record, once flattened, has a value under that name; so the GST branch
    takes its chart path as soon as one record carries [allKpIndex], and
    the descriptor's date field is used as soon as one record has it. *)
Theorem column_present_iff_some_record_has_it c records :
  pd.has_column c (pd.json_normalize records) = true
  <-> exists r, In r records
                /\ dict_get c (pd.simple_json_normalize r) <> None.
Proof.
  unfold pd.has_column, pd.json_normalize, pd.of_dicts. cbn [pd.columns].
  rewrite mem_union_keys, existsb_exists. split.
  - intros [row [Hin Hmem]]. apply in_map_iff in Hin.
    destruct Hin as [r [<- Hr]]. exists r. split; [exact Hr|].
    now apply mem_keys_get.
  - intros [r [Hr Hget]]. exists (pd.simple_json_normalize r).
    split; [now apply in_map|now apply mem_keys_get].
Qed.

Lemma first_seen_after_nodup (l seen : list string) :
  NoDup (first_seen_after seen l)
  /\ forall k, In k (first_seen_after seen l) -> mem k seen = false.
Proof.
  revert seen. induction l as [|k t IH]; intros seen; cbn [first_seen_after].
  - split; [constructor|contradiction].
  - destruct (mem k seen) eqn:E; [apply IH|].
    destruct (IH (k :: seen)) as [Hnd Hout]. split.
    + constructor; [|exact Hnd]. intros Hin. apply Hout in Hin.
      unfold mem in Hin. cbn [existsb] in Hin.
      now rewrite String.eqb_refl in Hin.
    + intros k' [<-|Hin]; [exact E|]. apply Hout in Hin.
      unfold mem in Hin. cbn [existsb] in Hin.
      now apply orb_false_iff in Hin.
Qed.

(** X13: the columns of the normalised frame of a list of objects are the
    keys of its records once flattened (the top-level keys whose value is
    not an object and the dotted paths into the nested objects), and no
    name stands twice, so [df[date_field]] always denotes one column. *)
Theorem frame_columns_are_the_record_keys (records : list (dict json)) :
  NoDup (pd.columns (pd.json_normalize (map JObj records)))
  /\ forall c,
       In c (pd.columns (pd.json_normalize (map JObj records)))
       <-> exists r, In r records /\ In c (record_keys r).
Proof.
  rewrite columns_frame_key_order. split.
  - apply first_seen_after_nodup.
  - intros c. rewrite frame_key_order_In, in_flat_map. reflexivity.
Qed.

(** *** The ways a fetched list is handled *)

Lemma process_list_gst_raised to_date i records w e :
  pd.has_column "allKpIndex" (pd.json_normalize records) = true ->
  gst_grouped to_date (kp_frame (pd.json_normalize records)) = Raise e ->
  exists r msgs,
    resolve_date to_date "GST" (pd.json_normalize records) w
    = (Ok r, {| trace := (trace w ++ msgs)%list; cache := cache w |})
    /\ forallb is_notice msgs = true
    /\ process_list to_date i "GST" records w
       = (Raise e, {| trace := (trace w ++ msgs)%list; cache := cache w |}).
Proof.
  intros Hcol Hser.
  destruct (resolve_date_total to_date "GST" (pd.json_normalize records) w)
    as [r [msgs [Hr Hmsgs]]].
  exists r, msgs. split; [exact Hr|]. split; [exact Hmsgs|].
  unfold process_list. unfold bind at 1. rewrite Hr.
  unfold plot_event.
  change ("GST" =? "CME") with false. rewrite String.eqb_refl.
  unfold plot_gst. rewrite Hcol, Hser. reflexivity.
Qed.

Lemma notice_is_text (msgs : list event) :
  forallb is_notice msgs = true -> forallb is_text msgs = true.
Proof.
  induction msgs as [|ev t IH]; simpl; [reflexivity|].
  rewrite !andb_true_iff. intros [Hev Ht]. split; [|auto].
  destruct ev as [el|el|u p]; try discriminate;
    destruct el; try discriminate; reflexivity.
Qed.

Lemma text_filters (l : list event) :
  forallb is_text l = true ->
  filter is_chart l = [] /\ filter is_raw_table l = [].
Proof.
  induction l as [|ev t IH]; simpl; [auto|].
  rewrite andb_true_iff. intros [Hev Ht]. destruct (IH Ht) as [H1 H2].
  unfold is_text in Hev. rewrite !andb_true_iff, !negb_true_iff in Hev.
  destruct Hev as [[_ Hc] Hr]. now rewrite Hc, Hr.
Qed.

(** Whatever the code and the records, handling a list ends in one of three
    ways: an exception after some text; text, one chart and the raw table;
    or text and the raw table (GST without readings). *)
Lemma process_list_cases to_date i code records w :
  exists shown,
    forallb is_text shown = true
    /\ ((exists e,
            process_list to_date i code records w
            = (Raise e,
               {| trace := (trace w ++ shown)%list; cache := cache w |}))
        \/ (exists f dates,
               process_list to_date i code records w
               = (Ok tt,
                  {| trace :=
                       (trace w ++ shown
                        ++ [ Main (PlotlyChart f);
                             Main (WriteFrame (pd.json_normalize records)
                                     dates) ])%list;
                     cache := cache w |})
               /\ kind f = chart_kind_of code
               /\ ascending (map fst (data_frame f)))
        \/ (exists dates,
               code = "GST"
               /\ pd.has_column "allKpIndex" (pd.json_normalize records)
                  = false
               /\ process_list to_date i code records w
                  = (Ok tt,
                     {| trace :=
                          (trace w ++ shown
                           ++ [ Main (WriteFrame (pd.json_normalize records)
                                        dates) ])%list;
                        cache := cache w |}))).
Proof.
  destruct (String.eqb_spec code "CME") as [->|Hcme].
  { destruct (process_list_cme to_date i records w) as [r [msgs [_ [Hn E]]]].
    eexists. split; [|left; eexists; rewrite E; reflexivity].
    rewrite forallb_app, (notice_is_text _ Hn). reflexivity. }
  destruct (String.eqb_spec code "GST") as [->|Hgst].
  - destruct (pd.has_column "allKpIndex" (pd.json_normalize records)) eqn:Hc.
    + destruct (gst_grouped to_date (kp_frame (pd.json_normalize records)))
        as [series|e] eqn:Hs.
      * destruct (process_list_gst_drawn to_date i records w series Hc Hs)
          as [r [msgs [_ [Hn E]]]].
        exists (msgs ++ [ Main (Markdown "### Selected Event Information");
                          Main (Write (describe_event "GST"
                                         "No description available"));
                          Main (Subheader
                                  (selected_event_display i
                                   ++ " Kp Index from "
                                   ++ isoformat (start_date i) ++ " to "
                                   ++ isoformat (end_date i))%string) ])%list.
        split; [rewrite forallb_app, (notice_is_text _ Hn); reflexivity|].
        right. left. do 2 eexists. split.
        -- rewrite E. now rewrite <- !app_assoc.
        -- split; [reflexivity|]. cbn [data_frame px_line].
           apply gst_grouped_ok in Hs. destruct Hs as [_ [_ [_ ->]]].
           apply mean_series_ascending.
      * destruct (process_list_gst_raised to_date i records w e Hc Hs)
          as [r [msgs [_ [Hn E]]]].
        exists msgs. split; [now apply notice_is_text|].
        left. exists e. exact E.
    + destruct (process_list_gst_absent to_date i records w Hc)
        as [r [msgs [_ [Hn E]]]].
      exists (msgs ++ [ Main (ErrorBox
                                "No 'allKpIndex' data available to plot.") ])%list.
      split; [rewrite forallb_app, (notice_is_text _ Hn); reflexivity|].
      right. right. eexists. split; [reflexivity|]. split; [reflexivity|].
      rewrite E. now rewrite <- !app_assoc.
  - destruct (process_list_bar to_date i code records w Hcme Hgst)
      as [r [msgs [_ [Hn E]]]].
    exists (msgs ++ [ Main (Markdown "### Selected Event Information");
                      Main (Write (describe_event code
                                     "No description available."));
                      Main (Subheader
                              (selected_event_display i ++ " from "
                               ++ isoformat (start_date i) ++ " to "
                               ++ isoformat (end_date i))%string) ])%list.
    split; [rewrite forallb_app, (notice_is_text _ Hn); reflexivity|].
    right. left. do 2 eexists. split.
    + rewrite E. now rewrite <- !app_assoc.
    + split.
      * unfold chart_kind_of. apply String.eqb_neq in Hcme, Hgst.
        rewrite Hcme, Hgst. now destruct (code =? "notifications").
      * cbn [data_frame px_bar]. apply groupby_size_ascending.
Qed.

(** X14: handling a fetched list draws at most one chart; when it draws
    one, it is a line chart for GST and a bar chart for every other code,
    and its dates are strictly increasing. *)
Theorem at_most_one_chart_of_the_codes_kind to_date i code records w :
  exists l,
    trace (snd (process_list to_date i code records w)) = (trace w ++ l)%list
    /\ (filter is_chart l = []
        \/ exists f,
             filter is_chart l = [ Main (PlotlyChart f) ]
             /\ kind f = chart_kind_of code
             /\ code <> "CME"
             /\ StronglySorted date_lt (map fst (data_frame f))).
Proof.
  destruct (process_list_cases to_date i code records w)
    as [shown [Ht [[e E]|[[f [dates [E [Hk Ha]]]]|[dates [_ [_ E]]]]]]];
    destruct (text_filters shown Ht) as [Hc Hr]; rewrite E; cbn [snd trace].
  - exists shown. split; [reflexivity|]. now left.
  - eexists. split; [reflexivity|]. right. exists f.
    rewrite filter_app, Hc. split; [reflexivity|]. split; [exact Hk|].
    split; [|now apply ascending_strongly_sorted].
    intros ->.
    destruct (process_list_cme to_date i records w) as [r [msgs [_ [_ E']]]].
    rewrite E' in E. discriminate.
  - eexists. split; [reflexivity|]. left. now rewrite filter_app, Hc.
Qed.

(** X15: the raw table is shown exactly when handling the list did not
    raise, and then it is the last element of the page; a run that raises
    shows neither chart nor table. *)
Theorem raw_table_iff_no_exception to_date i code records w :
  exists l,
    trace (snd (process_list to_date i code records w)) = (trace w ++ l)%list
    /\ match fst (process_list to_date i code records w) with
       | Ok _ =>
           exists shown dates,
             l = (shown ++ [ Main (WriteFrame (pd.json_normalize records)
                                     dates) ])%list
             /\ filter is_raw_table shown = []
       | Raise _ => filter is_raw_table l = [] /\ filter is_chart l = []
       end.
Proof.
  destruct (process_list_cases to_date i code records w)
    as [shown [Ht [[e E]|[[f [dates [E [Hk Ha]]]]|[dates [_ [_ E]]]]]]];
    destruct (text_filters shown Ht) as [Hc Hr]; rewrite E;
    cbn [fst snd trace].
  - exists shown. auto.
  - eexists. split; [reflexivity|].
    exists (shown ++ [ Main (PlotlyChart f) ])%list, dates.
    split; [now rewrite <- app_assoc|].
    now rewrite filter_app, Hr.
  - eexists. split; [reflexivity|]. exists shown, dates. auto.
Qed.



(** The date column is resolved without an exception unless [pd.to_datetime]
    raises on the column it is given. *)
Lemma col_resolve_date_cases to_datetime code (records : list (dict json)) w :
  exists msgs,
    (List.length msgs <= 1)%nat
    /\ forallb is_notice msgs = true
    /\ ((exists r,
            col.resolve_date to_datetime code
              (pd.json_normalize (map JObj records)) w
            = (Ok r, {| trace := (trace w ++ msgs)%list; cache := cache w |})
            /\ ((exists c,
                    In c (frame_key_order records)
                    /\ date_field r = Some c
                    /\ to_datetime
                         (pd.column c (pd.json_normalize (map JObj records)))
                       = Ok (date_column r))
                \/ date_column r = map (fun _ => None) records))
        \/ (exists e c,
               In c (frame_key_order records)
               /\ to_datetime
                    (pd.column c (pd.json_normalize (map JObj records)))
                  = Raise e
               /\ col.resolve_date to_datetime code
                    (pd.json_normalize (map JObj records)) w
                  = (Raise e,
                     {| trace := (trace w ++ msgs)%list;
                        cache := cache w |}))).
Proof.
  set (df := pd.json_normalize (map JObj records)).
  destruct (field_present code df) eqn:Hf.
  - unfold field_present in Hf.
    destruct (date_field_of code) as [f|] eqn:Hd; [|discriminate].
    assert (Hin : In f (frame_key_order records)).
    { apply frame_key_order_In, mem_In.
      now rewrite <- has_column_record_keys. }
    exists []. split; [simpl; lia|]. split; [reflexivity|].
    rewrite (col_resolve_date_present to_datetime code df w f Hd Hf).
    rewrite <- world_eta.
    destruct (to_datetime (pd.column f df)) as [dates|e] eqn:E.
    + left. eexists. split; [reflexivity|]. left. exists f. auto.
    + right. exists e, f. auto.
  - rewrite (col_resolve_date_fallback to_datetime code df w Hf).
    destruct (filter is_date_like (pd.columns df)) as [|k t] eqn:Hk.
    + eexists. split; [|split; [|left; eexists; split; [reflexivity|]]].
      * simpl. lia.
      * reflexivity.
      * right. cbn [date_column]. apply rows_of_records.
    + assert (Hin : In k (frame_key_order records)).
      { rewrite <- columns_frame_key_order. fold df.
        assert (H : In k (filter is_date_like (pd.columns df)))
          by (rewrite Hk; now left).
        apply filter_In in H. tauto. }
      eexists. split; [|split]; [| |cbv zeta;
        destruct (to_datetime (pd.column k df)) as [dates|e] eqn:E;
        [left; eexists; split; [reflexivity|]; left; exists k; auto
        |right; exists e, k; auto]].
      * simpl. lia.
      * reflexivity.
Qed.

(** X18: resolving the date column of a list of objects raises only when
    [pd.to_datetime] raises on a column of the frame, and then with that
    exception; otherwise the dates are what the parser made of the column
    named as the date field, or all missing.  Either way at most one notice
    is shown, nothing is sent and the store is left alone. *)
Theorem date_resolution_raises_only_in_to_datetime
    to_datetime code (records : list (dict json)) w :
  exists msgs,
    snd (col.resolve_date to_datetime code
           (pd.json_normalize (map JObj records)) w)
    = {| trace := (trace w ++ msgs)%list; cache := cache w |}
    /\ (List.length msgs <= 1)%nat
    /\ forallb is_notice msgs = true
    /\ match fst (col.resolve_date to_datetime code
                    (pd.json_normalize (map JObj records)) w) with
       | Ok r =>
           (exists c,
               In c (frame_key_order records)
               /\ date_field r = Some c
               /\ to_datetime
                    (pd.column c (pd.json_normalize (map JObj records)))
                  = Ok (date_column r))
           \/ date_column r = map (fun _ => None) records
       | Raise e =>
           exists c,
             In c (frame_key_order records)
             /\ to_datetime
                  (pd.column c (pd.json_normalize (map JObj records)))
                = Raise e
       end.
Proof.
  destruct (col_resolve_date_cases to_datetime code records w)
    as [msgs [Hlen [Hn [[r [E H]]|[e [c [Hc [Hraise E]]]]]]]];
    exists msgs; rewrite E; cbn [fst snd]; repeat split; auto.
  now exists c.
Qed.

(** X16: for every code other than CME and GST and every list of objects,
    handling the list either stops on an exception that [pd.to_datetime]
    raised on a column of the frame, with no chart drawn, or draws exactly
    one chart: a bar chart of 'count' against 'date' whose y axis carries
    the label of the code (or "Count" for a code outside the table). *)
Theorem count_codes_bar_chart_unless_to_datetime_raises
    to_datetime i code (records : list (dict json)) w :
  code <> "CME" -> code <> "GST" ->
  exists l,
    snd (col.process_list to_datetime i code (map JObj records) w)
    = {| trace := (trace w ++ l)%list; cache := cache w |}
    /\ match fst (col.process_list to_datetime i code
                    (map JObj records) w) with
       | Ok _ =>
           exists f,
             filter is_chart l = [ Main (PlotlyChart f) ]
             /\ kind f = Bar /\ x f = "date" /\ y f = "count"
             /\ labels f = [ ("date", PyStr "Date");
                             ("count", PyStr (y_label_of code)) ]
             /\ title f
                = "Number of " ++ selected_event_display i ++ " Over Time"
       | Raise e =>
           filter is_chart l = []
           /\ exists c,
                In c (frame_key_order records)
                /\ to_datetime
                     (pd.column c (pd.json_normalize (map JObj records)))
                   = Raise e
       end.
Proof.
  intros Hcme Hgst.
  destruct (col_resolve_date_cases to_datetime code records w)
    as [msgs [_ [Hn [[r [E _]]|[e [c [Hc [Hraise E]]]]]]]].
  - rewrite (col_process_list_resolved _ _ _ _ _ _ _ E).
    rewrite col_plot_event_bar by assumption. cbn [fst snd trace cache].
    eexists. split; [now rewrite <- app_assoc|].
    eexists. rewrite filter_app, (notices_no_chart msgs Hn).
    cbn [filter is_chart app]. repeat split.
  - rewrite (col_process_list_raised _ _ _ _ _ _ _ E). cbn [fst snd].
    exists msgs. split; [reflexivity|].
    split; [now apply notices_no_chart|]. now exists c.
Qed.

Lemma count_codes_bar_chart_unless_to_datetime_raises_witness :
  fst (col.process_list offset_checked (may_2024 "FLR (Solar Flare)") "FLR"
         (map JObj two_offsets) blank)
  = Raise (ValueError "Mixed timezones detected")
  /\ exists l f,
       snd (col.process_list offset_checked (may_2024 "FLR (Solar Flare)")
              "FLR" (map JObj [ nested_first; linked ]) blank)
       = {| trace := (trace blank ++ l)%list; cache := cache blank |}
       /\ filter is_chart l = [ Main (PlotlyChart f) ]
       /\ data_frame f = [ (mkdate 2024 5 2, pd.NInt 1) ].
Proof.
  split.
  - destruct (count_codes_bar_chart_unless_to_datetime_raises offset_checked
                (may_2024 "FLR (Solar Flare)") "FLR" two_offsets blank)
      as [l [_ H]]; [discriminate|discriminate|].
    reflexivity.
  - destruct (count_codes_bar_chart_unless_to_datetime_raises offset_checked
                (may_2024 "FLR (Solar Flare)") "FLR" [ nested_first; linked ]
                blank)
      as [l [El H]]; [discriminate|discriminate|].
    exists l. change (fst (col.process_list offset_checked
                             (may_2024 "FLR (Solar Flare)") "FLR"
                             (map JObj [ nested_first; linked ]) blank))
                with (@Ok unit tt) in H.
    destruct H as [f [Hf _]]. exists f. split; [exact El|].
    split; [exact Hf|].
    assert (E : filter is_chart l
                = filter is_chart
                    (trace (snd (col.process_list offset_checked
                                   (may_2024 "FLR (Solar Flare)") "FLR"
                                   (map JObj [ nested_first; linked ])
                                   blank))))
      by (now rewrite El).
    rewrite Hf in E. vm_compute in E. now injection E as ->.
Defined.

(** X19: the GST series has a point for a day exactly when some exploded
    reading was observed on that day: days are neither invented nor
    dropped, and a reading whose time does not parse adds no day. *)
Theorem gst_series_days_are_the_days_observed to_date kp_df series d :
  gst_grouped to_date kp_df = Ok series ->
  In d (map fst series)
  <-> exists row,
        In row (pd.rows kp_df)
        /\ cell_date to_date (dict_get "observedTime" row) = Some d.
Proof.
  intros Hok. apply gst_grouped_ok in Hok. destruct Hok as [_ [_ [_ ->]]].
  unfold mean_series, pd.groupby. rewrite !map_map. cbn [fst].
  rewrite map_id, in_group_keys. unfold gst_tidy. rewrite map_map.
  cbn [tidy_row fst]. rewrite in_map_iff. split.
  - intros [row [E Hin]]. now exists row.
  - intros [row [Hin E]]. now exists row.
Qed.

Lemma gst_series_days_are_the_days_observed_witness :
  In (mkdate 2024 5 3) (map fst [ (mkdate 2024 5 3, pd.NFloat 4) ])
  <-> exists row,
        In row (pd.rows (kp_frame (pd.json_normalize gst_one)))
        /\ cell_date iso_date (dict_get "observedTime" row)
           = Some (mkdate 2024 5 3).
Proof.
  apply (gst_series_days_are_the_days_observed iso_date
           (kp_frame (pd.json_normalize gst_one))
           [ (mkdate 2024 5 3, pd.NFloat 4) ] (mkdate 2024 5 3)).
  reflexivity.
Defined.

Lemma cache_key_eqb_eq (a b : cache_key) : cache_key_eqb a b = true <-> a = b.
Proof.
  destruct a as [[[e1 s1] n1] k1], b as [[[e2 s2] n2] k2]. simpl.
  rewrite !andb_true_iff, !String.eqb_eq, !date_eqb_eq. split.
  - intros [[[-> ->] ->] ->]. reflexivity.
  - intros H. injection H as -> -> -> ->. auto.
Qed.

(** X20: a call of [fetch_space_weather] stores its answer under its own
    four arguments only: what the store holds for any other event, range or
    key is what it held before, so an answer is never served for arguments
    it was not fetched with. *)
Theorem fetch_stores_under_its_own_arguments
    http_get event s e key w (other : cache_key) :
  other <> (event, s, e, key) ->
  cache_lookup other
    (cache (snd (fetch_space_weather http_get event s e key w)))
  = cache_lookup other (cache w).
Proof.
  intros Hne.
  assert (Hk : cache_key_eqb other (event, s, e, key) = false).
  { destruct (cache_key_eqb other (event, s, e, key)) eqn:E; [|reflexivity].
    apply cache_key_eqb_eq in E. contradiction. }
  destruct (cache_lookup (event, s, e, key) (cache w)) as [en|] eqn:Hl.
  - unfold fetch_space_weather. now rewrite Hl.
  - rewrite (fetch_miss _ _ _ _ _ _ Hl). cbv zeta.
    destruct (status_code _ =? 200)%Z; [destruct (body_json _)|];
      cbn [snd cache cache_lookup]; now rewrite ?Hk.
Qed.

Lemma fetch_stores_under_its_own_arguments_witness :
  cache_lookup ("FLR", mkdate 2024 5 1, mkdate 2024 5 30, "DEMO_KEY")
    (cache (snd (fetch_space_weather (serve (JArr cme_five)) "FLR"
                   (mkdate 2024 5 1) (mkdate 2024 5 31) "DEMO_KEY" blank)))
  = cache_lookup ("FLR", mkdate 2024 5 1, mkdate 2024 5 30, "DEMO_KEY")
      (cache blank).
Proof.
  apply (fetch_stores_under_its_own_arguments (serve (JArr cme_five)) "FLR"
           (mkdate 2024 5 1) (mkdate 2024 5 31) "DEMO_KEY" blank).
  discriminate.
Defined.

(** X21: line 171 tests the truth value of the answer, so every falsy JSON
    body served with status 200 (null, false, 0, the empty string, the
    empty object as well as the empty list) ends the run silently: one
    request, nothing on the main page. *)
Theorem falsy_answer_shows_nothing to_date body i code c :
  dict_get (selected_event_display i) event_types = Some code ->
  fetch_button i = true ->
  truthy_str (api_key i) = true ->
  cache_lookup (code, start_date i, end_date i, api_key i) c = None ->
  truthy body = false ->
  fst (run to_date (serve body) i c) = Ok tt
  /\ requests_sent (trace (snd (run to_date (serve body) i c))) = 1%nat
  /\ filter on_main_page (trace (snd (run to_date (serve body) i c))) = [].
Proof.
  intros Hsel Hbtn Hkey Hmiss Hf.
  rewrite (run_pressed to_date _ i code c Hsel Hbtn).
  assert (E : forall w,
             cache_lookup (code, start_date i, end_date i, api_key i)
               (cache w) = None ->
             on_fetch to_date (serve body) i code w
             = (Ok tt,
                {| trace :=
                     (trace w
                      ++ [ HttpGet ("https://api.nasa.gov/DONKI/" ++ code)%string
                             (query_params code (start_date i) (end_date i)
                                (api_key i)) ])%list;
                   cache :=
                     ((code, start_date i, end_date i, api_key i),
                      {| value := body; replay := [] |}) :: cache w |})).
  { intros w Hw. unfold on_fetch. rewrite Hkey. cbn [negb].
    unfold bind at 1. rewrite fetch_miss_served by exact Hw.
    now rewrite Hf. }
  rewrite E by exact Hmiss.
  destruct (date_gtb _ _); repeat split; reflexivity.
Qed.

Lemma falsy_answer_shows_nothing_witness :
  fst (run iso_date (serve (JObj [])) (may_2024 "FLR (Solar Flare)") [])
  = Ok tt
  /\ requests_sent
       (trace (snd (run iso_date (serve (JObj []))
                      (may_2024 "FLR (Solar Flare)") []))) = 1%nat
  /\ filter on_main_page
       (trace (snd (run iso_date (serve (JObj []))
                      (may_2024 "FLR (Solar Flare)") []))) = [].
Proof.
  apply (falsy_answer_shows_nothing iso_date (JObj [])
           (may_2024 "FLR (Solar Flare)") "FLR" []);
    reflexivity.
Defined.

(** X22: when the service answers 200 with a non-empty list, the main page
    starts with the success message and the raw JSON, before anything is
    reshaped: they are on the page even when the handling of the list later
    raises (as it does for CME), and everything that follows is on the main
    page too. *)
Theorem list_answer_shows_success_and_raw_json_first
    to_date record records i code c :
  dict_get (selected_event_display i) event_types = Some code ->
  fetch_button i = true ->
  truthy_str (api_key i) = true ->
  cache_lookup (code, start_date i, end_date i, api_key i) c = None ->
  exists rest,
    filter on_main_page
      (trace (snd (run to_date (serve (JArr (record :: records))) i c)))
    = Main (SuccessBox "Data fetched successfully!")
      :: Main (Json (JArr (record :: records))) :: rest
    /\ requests_sent
         (trace (snd (run to_date (serve (JArr (record :: records))) i c)))
       = 1%nat.
Proof.
  intros Hsel Hbtn Hkey Hmiss.
  rewrite (run_pressed to_date _ i code c Hsel Hbtn).
  assert (E : forall w,
             cache_lookup (code, start_date i, end_date i, api_key i)
               (cache w) = None ->
             on_fetch to_date (serve (JArr (record :: records))) i code w
             = process_list to_date i code (record :: records)
                 {| trace :=
                      (trace w
                       ++ [ HttpGet ("https://api.nasa.gov/DONKI/" ++ code)%string
                              (query_params code (start_date i) (end_date i)
                                 (api_key i));
                            Main (SuccessBox "Data fetched successfully!");
                            Main (Json (JArr (record :: records))) ])%list;
                    cache :=
                      ((code, start_date i, end_date i, api_key i),
                       {| value := JArr (record :: records); replay := [] |})
                      :: cache w |}).
  { intros w Hw. unfold on_fetch. rewrite Hkey. cbn [negb].
    unfold bind at 1. rewrite fetch_miss_served by exact Hw.
    cbn [truthy]. unfold bind at 1 2, st_success, st_json, emit.
    cbn [trace cache]. now rewrite <- !app_assoc. }
  rewrite E by exact Hmiss.
  match goal with
  | |- context [process_list _ _ _ _ ?w] =>
      destruct (emits_process_list to_date i code (record :: records) w)
        as [l [El Pl]]
  end.
  rewrite El. cbn [trace]. exists l.
  destruct (main_page_no_request l Pl) as [Hr _].
  unfold requests_sent. rewrite !filter_app, Hr, (filter_all _ _ Pl).
  destruct (date_gtb _ _); split; reflexivity.
Qed.

Lemma list_answer_shows_success_and_raw_json_first_witness :
  exists rest,
    filter on_main_page
      (trace (snd (run iso_date (serve (JArr (gst_bare :: cme_five)))
                     (may_2024 "CME (Coronal Mass Ejection)") [])))
    = Main (SuccessBox "Data fetched successfully!")
      :: Main (Json (JArr (gst_bare :: cme_five))) :: rest
    /\ requests_sent
         (trace (snd (run iso_date (serve (JArr (gst_bare :: cme_five)))
                        (may_2024 "CME (Coronal Mass Ejection)") [])))
       = 1%nat.
Proof.
  apply (list_answer_shows_success_and_raw_json_first iso_date gst_bare
           cme_five (may_2024 "CME (Coronal Mass Ejection)") "CME" []);
    reflexivity.
Defined.
